(** * AMA (Artificial Maintenance Agent): the Streamlit shell

    A shallow embedding of the two source files of the application,
    [app.py] (the sidebar upload form of [main]) and [ui/langgraph_ui.py]
    ([LangGraphUI.render_langgraph_section] with its local [display_result]),
    together with the part of CPython's [json] module that the download
    button relies on.

    Python values are modelled as follows.
    - [str] is a sequence of Unicode code points ([list N]); a literal of the
      source is written [lit "..."].
    - The collaborators that the source imports and calls as black boxes
      (the file and link services, [vectorize], [get_retriever_id], the
      compiled graph) are the operations of type classes over an abstract
      external state. [vectorize] and [invoke] may raise, an instance of
      [Exception] or of [BaseException] only; the service calls return.
    - Streamlit is a script runner: a handler is a computation that takes
      the widget values of the current rerun as its input, threads the
      session state and the external state, and emits the calls it makes,
      in order, as a trace of events. Calls that only lay out fixed text or
      draw an input widget ([st.header], [st.subheader], [st.write],
      [st.markdown], [st.columns], [st.spinner], [st.container], [st.form],
      [st.multiselect], [st.button], [st.chat_input], ...) are left out of
      the trace. *)

From Stdlib Require Import List NArith Bool String Ascii Lia Arith DecimalString.
Import ListNotations.

Set Implicit Arguments.
Set Warnings "-register-all".
Open Scope N_scope.

(** ** Python strings *)

Module Py.

Definition str := list N.

Definition lit (s : string) : str :=
  map N_of_ascii (list_ascii_of_string s).

Fixpoint str_eqb (a b : str) : bool :=
  match a, b with
  | [], [] => true
  | x :: a', y :: b' => N.eqb x y && str_eqb a' b'
  | _, _ => false
  end.

(** [s.startswith(prefix)] *)
Fixpoint startswith (s prefix : str) {struct prefix} : bool :=
  match prefix, s with
  | [], _ => true
  | p :: prefix', c :: s' => N.eqb c p && startswith s' prefix'
  | _ :: _, [] => false
  end.
Arguments startswith : simpl never.

(** Truth value of a list or of a string: empty is falsy. *)
Definition truthy {A} (l : list A) : bool :=
  match l with [] => false | _ :: _ => true end.

(** An insertion-ordered [dict] with [str] keys: assigning to a key that
    is present replaces the value in place, a new key goes to the end. *)
Definition dict (V : Type) := list (str * V).

Fixpoint setitem {V} (d : dict V) (k : str) (v : V) : dict V :=
  match d with
  | [] => [(k, v)]
  | (k', v') :: d' =>
      if str_eqb k' k then (k', v) :: d' else (k', v') :: setitem d' k v
  end.

Fixpoint get {V} (d : dict V) (k : str) : option V :=
  match d with
  | [] => None
  | (k', v') :: d' => if str_eqb k' k then Some v' else get d' k
  end.

(** The exceptions that the modelled code can see. [Exception msg] is an
    instance of [Exception], of whatever class, that a collaborator raises
    and whose [str()] is [msg]; [KeyError key] and [AttributeError msg] are
    what a failed subscript and a failed attribute access raise;
    [BaseException msg] is an instance of [BaseException] that is no
    instance of [Exception] ([KeyboardInterrupt], [SystemExit],
    [GeneratorExit]). *)
Inductive exception :=
| Exception (msg : str)
| KeyError (key : str)
| AttributeError (attr : str)
| BaseException (msg : str).

(** [isinstance(e, Exception)], what [except Exception] tests. *)
Definition is_Exception (e : exception) : bool :=
  match e with
  | BaseException _ => false
  | _ => true
  end.

(** The code points from U+0080 on for which [str.isprintable] is false:
    the categories C* and Z* of the Unicode database (version 14.0.0, the
    one of CPython 3.11), as closed ranges. *)
Definition nonprintable : list (N * N) :=
  [(128, 160); (173, 173); (888, 889); (896, 899); (907, 907); (909, 909);
   (930, 930); (1328, 1328); (1367, 1368); (1419, 1420); (1424, 1424);
   (1480, 1487); (1515, 1518); (1525, 1541); (1564, 1564); (1757, 1757);
   (1806, 1807); (1867, 1868); (1970, 1983); (2043, 2044); (2094, 2095);
   (2111, 2111); (2140, 2141); (2143, 2143); (2155, 2159); (2191, 2199);
   (2274, 2274); (2436, 2436); (2445, 2446); (2449, 2450); (2473, 2473);
   (2481, 2481); (2483, 2485); (2490, 2491); (2501, 2502); (2505, 2506);
   (2511, 2518); (2520, 2523); (2526, 2526); (2532, 2533); (2559, 2560);
   (2564, 2564); (2571, 2574); (2577, 2578); (2601, 2601); (2609, 2609);
   (2612, 2612); (2615, 2615); (2618, 2619); (2621, 2621); (2627, 2630);
   (2633, 2634); (2638, 2640); (2642, 2648); (2653, 2653); (2655, 2661);
   (2679, 2688); (2692, 2692); (2702, 2702); (2706, 2706); (2729, 2729);
   (2737, 2737); (2740, 2740); (2746, 2747); (2758, 2758); (2762, 2762);
   (2766, 2767); (2769, 2783); (2788, 2789); (2802, 2808); (2816, 2816);
   (2820, 2820); (2829, 2830); (2833, 2834); (2857, 2857); (2865, 2865);
   (2868, 2868); (2874, 2875); (2885, 2886); (2889, 2890); (2894, 2900);
   (2904, 2907); (2910, 2910); (2916, 2917); (2936, 2945); (2948, 2948);
   (2955, 2957); (2961, 2961); (2966, 2968); (2971, 2971); (2973, 2973);
   (2976, 2978); (2981, 2983); (2987, 2989); (3002, 3005); (3011, 3013);
   (3017, 3017); (3022, 3023); (3025, 3030); (3032, 3045); (3067, 3071);
   (3085, 3085); (3089, 3089); (3113, 3113); (3130, 3131); (3141, 3141);
   (3145, 3145); (3150, 3156); (3159, 3159); (3163, 3164); (3166, 3167);
   (3172, 3173); (3184, 3190); (3213, 3213); (3217, 3217); (3241, 3241);
   (3252, 3252); (3258, 3259); (3269, 3269); (3273, 3273); (3278, 3284);
   (3287, 3292); (3295, 3295); (3300, 3301); (3312, 3312); (3315, 3327);
   (3341, 3341); (3345, 3345); (3397, 3397); (3401, 3401); (3408, 3411);
   (3428, 3429); (3456, 3456); (3460, 3460); (3479, 3481); (3506, 3506);
   (3516, 3516); (3518, 3519); (3527, 3529); (3531, 3534); (3541, 3541);
   (3543, 3543); (3552, 3557); (3568, 3569); (3573, 3584); (3643, 3646);
   (3676, 3712); (3715, 3715); (3717, 3717); (3723, 3723); (3748, 3748);
   (3750, 3750); (3774, 3775); (3781, 3781); (3783, 3783); (3790, 3791);
   (3802, 3803); (3808, 3839); (3912, 3912); (3949, 3952); (3992, 3992);
   (4029, 4029); (4045, 4045); (4059, 4095); (4294, 4294); (4296, 4300);
   (4302, 4303); (4681, 4681); (4686, 4687); (4695, 4695); (4697, 4697);
   (4702, 4703); (4745, 4745); (4750, 4751); (4785, 4785); (4790, 4791);
   (4799, 4799); (4801, 4801); (4806, 4807); (4823, 4823); (4881, 4881);
   (4886, 4887); (4955, 4956); (4989, 4991); (5018, 5023); (5110, 5111);
   (5118, 5119); (5760, 5760); (5789, 5791); (5881, 5887); (5910, 5918);
   (5943, 5951); (5972, 5983); (5997, 5997); (6001, 6001); (6004, 6015);
   (6110, 6111); (6122, 6127); (6138, 6143); (6158, 6158); (6170, 6175);
   (6265, 6271); (6315, 6319); (6390, 6399); (6431, 6431); (6444, 6447);
   (6460, 6463); (6465, 6467); (6510, 6511); (6517, 6527); (6572, 6575);
   (6602, 6607); (6619, 6621); (6684, 6685); (6751, 6751); (6781, 6782);
   (6794, 6799); (6810, 6815); (6830, 6831); (6863, 6911); (6989, 6991);
   (7039, 7039); (7156, 7163); (7224, 7226); (7242, 7244); (7305, 7311);
   (7355, 7356); (7368, 7375); (7419, 7423); (7958, 7959); (7966, 7967);
   (8006, 8007); (8014, 8015); (8024, 8024); (8026, 8026); (8028, 8028);
   (8030, 8030); (8062, 8063); (8117, 8117); (8133, 8133); (8148, 8149);
   (8156, 8156); (8176, 8177); (8181, 8181); (8191, 8207); (8232, 8239);
   (8287, 8303); (8306, 8307); (8335, 8335); (8349, 8351); (8385, 8399);
   (8433, 8447); (8588, 8591); (9255, 9279); (9291, 9311); (11124, 11125);
   (11158, 11158); (11508, 11512); (11558, 11558); (11560, 11564);
   (11566, 11567); (11624, 11630); (11633, 11646); (11671, 11679);
   (11687, 11687); (11695, 11695); (11703, 11703); (11711, 11711);
   (11719, 11719); (11727, 11727); (11735, 11735); (11743, 11743);
   (11870, 11903); (11930, 11930); (12020, 12031); (12246, 12271);
   (12284, 12288); (12352, 12352); (12439, 12440); (12544, 12548);
   (12592, 12592); (12687, 12687); (12772, 12783); (12831, 12831);
   (42125, 42127); (42183, 42191); (42540, 42559); (42744, 42751);
   (42955, 42959); (42962, 42962); (42964, 42964); (42970, 42993);
   (43053, 43055); (43066, 43071); (43128, 43135); (43206, 43213);
   (43226, 43231); (43348, 43358); (43389, 43391); (43470, 43470);
   (43482, 43485); (43519, 43519); (43575, 43583); (43598, 43599);
   (43610, 43611); (43715, 43738); (43767, 43776); (43783, 43784);
   (43791, 43792); (43799, 43807); (43815, 43815); (43823, 43823);
   (43884, 43887); (44014, 44015); (44026, 44031); (55204, 55215);
   (55239, 55242); (55292, 63743); (64110, 64111); (64218, 64255);
   (64263, 64274); (64280, 64284); (64311, 64311); (64317, 64317);
   (64319, 64319); (64322, 64322); (64325, 64325); (64451, 64466);
   (64912, 64913); (64968, 64974); (64976, 65007); (65050, 65055);
   (65107, 65107); (65127, 65127); (65132, 65135); (65141, 65141);
   (65277, 65280); (65471, 65473); (65480, 65481); (65488, 65489);
   (65496, 65497); (65501, 65503); (65511, 65511); (65519, 65531);
   (65534, 65535); (65548, 65548); (65575, 65575); (65595, 65595);
   (65598, 65598); (65614, 65615); (65630, 65663); (65787, 65791);
   (65795, 65798); (65844, 65846); (65935, 65935); (65949, 65951);
   (65953, 65999); (66046, 66175); (66205, 66207); (66257, 66271);
   (66300, 66303); (66340, 66348); (66379, 66383); (66427, 66431);
   (66462, 66462); (66500, 66503); (66518, 66559); (66718, 66719);
   (66730, 66735); (66772, 66775); (66812, 66815); (66856, 66863);
   (66916, 66926); (66939, 66939); (66955, 66955); (66963, 66963);
   (66966, 66966); (66978, 66978); (66994, 66994); (67002, 67002);
   (67005, 67071); (67383, 67391); (67414, 67423); (67432, 67455);
   (67462, 67462); (67505, 67505); (67515, 67583); (67590, 67591);
   (67593, 67593); (67638, 67638); (67641, 67643); (67645, 67646);
   (67670, 67670); (67743, 67750); (67760, 67807); (67827, 67827);
   (67830, 67834); (67868, 67870); (67898, 67902); (67904, 67967);
   (68024, 68027); (68048, 68049); (68100, 68100); (68103, 68107);
   (68116, 68116); (68120, 68120); (68150, 68151); (68155, 68158);
   (68169, 68175); (68185, 68191); (68256, 68287); (68327, 68330);
   (68343, 68351); (68406, 68408); (68438, 68439); (68467, 68471);
   (68498, 68504); (68509, 68520); (68528, 68607); (68681, 68735);
   (68787, 68799); (68851, 68857); (68904, 68911); (68922, 69215);
   (69247, 69247); (69290, 69290); (69294, 69295); (69298, 69375);
   (69416, 69423); (69466, 69487); (69514, 69551); (69580, 69599);
   (69623, 69631); (69710, 69713); (69750, 69758); (69821, 69821);
   (69827, 69839); (69865, 69871); (69882, 69887); (69941, 69941);
   (69960, 69967); (70007, 70015); (70112, 70112); (70133, 70143);
   (70162, 70162); (70207, 70271); (70279, 70279); (70281, 70281);
   (70286, 70286); (70302, 70302); (70314, 70319); (70379, 70383);
   (70394, 70399); (70404, 70404); (70413, 70414); (70417, 70418);
   (70441, 70441); (70449, 70449); (70452, 70452); (70458, 70458);
   (70469, 70470); (70473, 70474); (70478, 70479); (70481, 70486);
   (70488, 70492); (70500, 70501); (70509, 70511); (70517, 70655);
   (70748, 70748); (70754, 70783); (70856, 70863); (70874, 71039);
   (71094, 71095); (71134, 71167); (71237, 71247); (71258, 71263);
   (71277, 71295); (71354, 71359); (71370, 71423); (71451, 71452);
   (71468, 71471); (71495, 71679); (71740, 71839); (71923, 71934);
   (71943, 71944); (71946, 71947); (71956, 71956); (71959, 71959);
   (71990, 71990); (71993, 71994); (72007, 72015); (72026, 72095);
   (72104, 72105); (72152, 72153); (72165, 72191); (72264, 72271);
   (72355, 72367); (72441, 72703); (72713, 72713); (72759, 72759);
   (72774, 72783); (72813, 72815); (72848, 72849); (72872, 72872);
   (72887, 72959); (72967, 72967); (72970, 72970); (73015, 73017);
   (73019, 73019); (73022, 73022); (73032, 73039); (73050, 73055);
   (73062, 73062); (73065, 73065); (73103, 73103); (73106, 73106);
   (73113, 73119); (73130, 73439); (73465, 73647); (73649, 73663);
   (73714, 73726); (74650, 74751); (74863, 74863); (74869, 74879);
   (75076, 77711); (77811, 77823); (78895, 82943); (83527, 92159);
   (92729, 92735); (92767, 92767); (92778, 92781); (92863, 92863);
   (92874, 92879); (92910, 92911); (92918, 92927); (92998, 93007);
   (93018, 93018); (93026, 93026); (93048, 93052); (93072, 93759);
   (93851, 93951); (94027, 94030); (94088, 94094); (94112, 94175);
   (94181, 94191); (94194, 94207); (100344, 100351); (101590, 101631);
   (101641, 110575); (110580, 110580); (110588, 110588); (110591, 110591);
   (110883, 110927); (110931, 110947); (110952, 110959); (111356, 113663);
   (113771, 113775); (113789, 113791); (113801, 113807); (113818, 113819);
   (113824, 118527); (118574, 118575); (118599, 118607); (118724, 118783);
   (119030, 119039); (119079, 119080); (119155, 119162); (119275, 119295);
   (119366, 119519); (119540, 119551); (119639, 119647); (119673, 119807);
   (119893, 119893); (119965, 119965); (119968, 119969); (119971, 119972);
   (119975, 119976); (119981, 119981); (119994, 119994); (119996, 119996);
   (120004, 120004); (120070, 120070); (120075, 120076); (120085, 120085);
   (120093, 120093); (120122, 120122); (120127, 120127); (120133, 120133);
   (120135, 120137); (120145, 120145); (120486, 120487); (120780, 120781);
   (121484, 121498); (121504, 121504); (121520, 122623); (122655, 122879);
   (122887, 122887); (122905, 122906); (122914, 122914); (122917, 122917);
   (122923, 123135); (123181, 123183); (123198, 123199); (123210, 123213);
   (123216, 123535); (123567, 123583); (123642, 123646); (123648, 124895);
   (124903, 124903); (124908, 124908); (124911, 124911); (124927, 124927);
   (125125, 125126); (125143, 125183); (125260, 125263); (125274, 125277);
   (125280, 126064); (126133, 126208); (126270, 126463); (126468, 126468);
   (126496, 126496); (126499, 126499); (126501, 126502); (126504, 126504);
   (126515, 126515); (126520, 126520); (126522, 126522); (126524, 126529);
   (126531, 126534); (126536, 126536); (126538, 126538); (126540, 126540);
   (126544, 126544); (126547, 126547); (126549, 126550); (126552, 126552);
   (126554, 126554); (126556, 126556); (126558, 126558); (126560, 126560);
   (126563, 126563); (126565, 126566); (126571, 126571); (126579, 126579);
   (126584, 126584); (126589, 126589); (126591, 126591); (126602, 126602);
   (126620, 126624); (126628, 126628); (126634, 126634); (126652, 126703);
   (126706, 126975); (127020, 127023); (127124, 127135); (127151, 127152);
   (127168, 127168); (127184, 127184); (127222, 127231); (127406, 127461);
   (127491, 127503); (127548, 127551); (127561, 127567); (127570, 127583);
   (127590, 127743); (128728, 128732); (128749, 128751); (128765, 128767);
   (128884, 128895); (128985, 128991); (129004, 129007); (129009, 129023);
   (129036, 129039); (129096, 129103); (129114, 129119); (129160, 129167);
   (129198, 129199); (129202, 129279); (129620, 129631); (129646, 129647);
   (129653, 129655); (129661, 129663); (129671, 129679); (129709, 129711);
   (129723, 129727); (129734, 129743); (129754, 129759); (129768, 129775);
   (129783, 129791); (129939, 129939); (129995, 130031); (130042, 131071);
   (173792, 173823); (177977, 177983); (178206, 178207); (183970, 183983);
   (191457, 194559); (195102, 196607); (201547, 917759); (918000, 1114111)].

(** [Py_UNICODE_ISPRINTABLE], asked above ASCII only. *)
Definition isprintable (c : N) : bool :=
  negb (existsb (fun r => (fst r <=? c) && (c <=? snd r)) nonprintable).

Definition hexdigit (d : N) : N :=
  if d <? 10 then 48 + d else 87 + d.

(** The escapes [\xhh], [\uhhhh] and [\Uhhhhhhhh]. *)
Definition x_escape (c : N) : str :=
  [92; 120; hexdigit ((c / 16) mod 16); hexdigit (c mod 16)].

Definition u_escape (c : N) : str :=
  [92; 117; hexdigit ((c / 4096) mod 16); hexdigit ((c / 256) mod 16);
   hexdigit ((c / 16) mod 16); hexdigit (c mod 16)].

Definition U_escape (c : N) : str :=
  [92; 85; hexdigit ((c / 268435456) mod 16); hexdigit ((c / 16777216) mod 16);
   hexdigit ((c / 1048576) mod 16); hexdigit ((c / 65536) mod 16);
   hexdigit ((c / 4096) mod 16); hexdigit ((c / 256) mod 16);
   hexdigit ((c / 16) mod 16); hexdigit (c mod 16)].

(** One character of [unicode_repr], inside the quote character [quote]. *)
Definition repr_char (quote c : N) : str :=
  if (c =? quote) || (c =? 92) then [92; c]
  else if c =? 9 then [92; 116]
  else if c =? 10 then [92; 110]
  else if c =? 13 then [92; 114]
  else if (c <? 32) || (c =? 127) then x_escape c
  else if c <? 127 then [c]
  else if isprintable c then [c]
  else if c <=? 255 then x_escape c
  else if c <=? 65535 then u_escape c
  else U_escape c.

(** [repr(s)] of a string: in single quotes, unless the string holds a
    single quote and no double quote. *)
Definition repr (s : str) : str :=
  let quote :=
    if existsb (N.eqb 39) s && negb (existsb (N.eqb 34) s) then 34 else 39 in
  quote :: flat_map (repr_char quote) s ++ [quote].

(** [str(e)], what [f"{e}"] interpolates; [str(KeyError(key))] is
    [repr(key)]. *)
Definition exc_str (e : exception) : str :=
  match e with
  | Exception msg => msg
  | KeyError key => repr key
  | AttributeError attr => attr
  | BaseException msg => msg
  end.

(** [f"{n}"] for a length. *)
Definition str_of_nat (n : nat) : str :=
  lit (NilZero.string_of_uint (Nat.to_uint n)).

End Py.
Import Py.

(** ** Records owned by the collaborators *)

Module User.
Record t := { user_id : N }.
End User.

Module FileModel.
Record t := { id : N; name : str }.
End FileModel.

Module LinkModel.
Record t := { id : N; url : str }.
End LinkModel.

(** What [st.file_uploader] hands to the script. *)
Module UploadedFile.
Record t := { name : str; type : str; getbuffer : list N }.
End UploadedFile.

(** One record of the chat history, the dict
    [{"question": ..., "answer": ..., "events": [...]}]. *)
Module HistoryItem.
Record t := { question : str; answer : str; events : list str }.
End HistoryItem.

(** ** Collaborator interfaces *)

Class FileService (E : Type) := {
  get_user_files : E -> N -> list FileModel.t;
  delete_file : E -> N -> E;
  add_file : E -> list N -> str -> str -> N -> option FileModel.t * E
}.

Class LinkService (E : Type) := {
  get_user_links : E -> N -> list LinkModel.t
}.

(** [utils.vectorizer.vectorize], [utils.ai_utils.get_retriever_id] and the
    object returned by [graph.graph.get_graph]; [invoke] returns the final
    state of the graph, a dict. *)
Class Rag (E : Type) := {
  vectorize : E -> list FileModel.t -> list LinkModel.t -> (exception + bool) * E;
  get_retriever_id : E -> list FileModel.t -> list LinkModel.t -> str;
  invoke : E -> dict str -> (exception + dict str) * E
}.

(** ** Events *)

Record download_button := {
  label : str; key : str; data : str; file_name : str; mime : str
}.

Inductive chat_call := chat_write | chat_error | chat_warning.

Inductive event :=
| st_warning (msg : str)
| st_info (msg : str)
| st_success (msg : str)
| st_error (msg : str)
| chat_message (role : str) (call : chat_call) (body : str)
| st_download_button (b : download_button)
| st_rerun
| call_get_user_files (user_id : N)
| call_delete_file (file_id : N)
| call_add_file (file : list N) (filename file_type : str) (user_id : N)
| call_get_user_links (user_id : N)
| call_vectorize (selected_files : list FileModel.t) (selected_links : list LinkModel.t)
| call_get_retriever_id (selected_files : list FileModel.t) (selected_links : list LinkModel.t)
| call_get_graph
| call_invoke (inputs : dict str).

(** ** The script monad *)

(** [st.session_state] and the state of the collaborators. The key
    [langgraph_history] is absent from a fresh session. *)
Record state (E : Type) := {
  ext : E;
  langgraph_history : option (list HistoryItem.t)
}.

Inductive outcome (A : Type) :=
| Done (a : A)
| Raised (e : exception)
| Rerun.
Arguments Done {A} a.
Arguments Raised {A} e.
Arguments Rerun {A}.

Definition M (E A : Type) := state E -> outcome A * state E * list event.

Definition ret {E A} (a : A) : M E A := fun s => (Done a, s, []).

Definition bind {E A B} (m : M E A) (f : A -> M E B) : M E B :=
  fun s =>
    match m s with
    | (Done a, s1, t1) =>
        match f a s1 with (r, s2, t2) => (r, s2, t1 ++ t2) end
    | (Raised e, s1, t1) => (Raised e, s1, t1)
    | (Rerun, s1, t1) => (Rerun, s1, t1)
    end.

Declare Scope script_scope.
Delimit Scope script_scope with script.
Notation "x <- m ;; k" := (bind m (fun x => k))
  (at level 61, m at next level, right associativity) : script_scope.
Notation "m ;; k" := (bind m (fun _ => k))
  (at level 61, right associativity) : script_scope.
Open Scope script_scope.

Definition emit {E} (e : event) : M E unit := fun s => (Done tt, s, [e]).

Definition raise {E A} (e : exception) : M E A := fun s => (Raised e, s, []).

(** [try: body except Exception as e: handler(e)]. What is no instance of
    [Exception] passes through, and so does a rerun request. *)
Definition try_except {E A} (body : M E A) (handler : exception -> M E A) : M E A :=
  fun s =>
    match body s with
    | (Raised e, s1, t1) =>
        if is_Exception e then
          match handler e s1 with (r, s2, t2) => (r, s2, t1 ++ t2) end
        else (Raised e, s1, t1)
    | other => other
    end.

Fixpoint for_each {E A} (l : list A) (body : A -> M E unit) : M E unit :=
  match l with
  | [] => ret tt
  | x :: l' => body x ;; for_each l' body
  end.

Definition when {E} (b : bool) (m : M E unit) : M E unit :=
  if b then m else ret tt.

Definition trace {E A} (m : M E A) (s : state E) : list event := snd (m s).
Definition final {E A} (m : M E A) (s : state E) : state E := snd (fst (m s)).
Definition result {E A} (m : M E A) (s : state E) : outcome A := fst (fst (m s)).

(** ** CPython's [json] module, as far as the download button uses it

    [json.dumps(obj, indent=4)] with the default [ensure_ascii=True] and
    the separators that a non-[None] indent selects ([","] and [": "]), and
    [json.loads] with the default strict decoder. Numbers do not occur in
    the history and are left out of the value type: the decoder below
    rejects them, and [NaN] and [Infinity] with them. *)

Module Json.

Inductive value :=
| Null
| Bool (b : bool)
| String (s : str)
| Array (items : list value)
| Object (members : dict value).

(** *** Encoder: [py_encode_basestring_ascii] and [_make_iterencode] *)

Definition hex_digit (d : N) : N :=
  if d <? 10 then 48 + d else 87 + d.

(** ['\\u{0:04x}'.format(n)] *)
Definition u_escape (n : N) : str :=
  [92; 117; hex_digit (n / 4096); hex_digit ((n / 256) mod 16);
   hex_digit ((n / 16) mod 16); hex_digit (n mod 16)].

(** The replacement of one character matched by [ESCAPE_ASCII], that is
    of a backslash, a double quote or anything outside [' '..'~'];
    every other character stands for itself. *)
Definition escape_char (c : N) : str :=
  if c =? 92 then [92; 92]
  else if c =? 34 then [92; 34]
  else if (32 <=? c) && (c <=? 126) then [c]
  else if c =? 8 then [92; 98]
  else if c =? 12 then [92; 102]
  else if c =? 10 then [92; 110]
  else if c =? 13 then [92; 114]
  else if c =? 9 then [92; 116]
  else if c <? 65536 then u_escape c
  else
    let n := c - 65536 in
    u_escape (N.lor 55296 (N.land (N.shiftr n 10) 1023))
      ++ u_escape (N.lor 56320 (N.land n 1023)).

Definition encode_basestring_ascii (s : str) : str :=
  34 :: flat_map escape_char s ++ [34].

Definition indent : nat := 4%nat.

(** ['\n' + ' ' * (indent * level)] *)
Definition newline_indent (level : nat) : str :=
  10 :: repeat 32 (indent * level).

Fixpoint join (sep : str) (chunks : list str) : str :=
  match chunks with
  | [] => []
  | [x] => x
  | x :: rest => x ++ sep ++ join sep rest
  end.

Fixpoint iterencode (level : nat) (v : value) : str :=
  match v with
  | Null => lit "null"
  | Bool true => lit "true"
  | Bool false => lit "false"
  | String s => encode_basestring_ascii s
  | Array [] => lit "[]"
  | Array items =>
      91 :: newline_indent (S level)
        ++ join (44 :: newline_indent (S level))
             (map (iterencode (S level)) items)
        ++ newline_indent level ++ [93]
  | Object [] => lit "{}"
  | Object members =>
      123 :: newline_indent (S level)
        ++ join (44 :: newline_indent (S level))
             (map (fun kv =>
                     match kv with
                     | (k, x) =>
                         encode_basestring_ascii k ++ lit ": "
                           ++ iterencode (S level) x
                     end) members)
        ++ newline_indent level ++ [125]
  end.

(** [json.dumps(obj, indent=4)] *)
Definition dumps (v : value) : str := iterencode 0 v.

(** *** Decoder: [py_scanstring], [JSONObject], [JSONArray], [scan_once] *)

Definition is_ws (c : N) : bool :=
  (c =? 32) || (c =? 9) || (c =? 10) || (c =? 13).

Fixpoint skip_ws (s : str) : str :=
  match s with
  | c :: r => if is_ws c then skip_ws r else s
  | [] => []
  end.

Definition hex_val (c : N) : option N :=
  if (48 <=? c) && (c <=? 57) then Some (c - 48)
  else if (97 <=? c) && (c <=? 102) then Some (c - 87)
  else if (65 <=? c) && (c <=? 70) then Some (c - 55)
  else None.

(** [_decode_uXXXX]: four hexadecimal digits, as the C scanner that
    CPython uses by default checks them. *)
Definition decode_uXXXX (a b c d : N) : option N :=
  match hex_val a, hex_val b, hex_val c, hex_val d with
  | Some x, Some y, Some z, Some w => Some (((x * 16 + y) * 16 + z) * 16 + w)
  | _, _, _, _ => None
  end.

Definition is_high_surrogate (u : N) : bool := (55296 <=? u) && (u <=? 56319).
Definition is_low_surrogate (u : N) : bool := (56320 <=? u) && (u <=? 57343).

(** [BACKSLASH]: the one-letter escapes. *)
Definition backslash (c : N) : option N :=
  if c =? 34 then Some 34
  else if c =? 92 then Some 92
  else if c =? 47 then Some 47
  else if c =? 98 then Some 8
  else if c =? 102 then Some 12
  else if c =? 110 then Some 10
  else if c =? 114 then Some 13
  else if c =? 116 then Some 9
  else None.

Definition cons_char (c : N) (r : option (str * str)) : option (str * str) :=
  match r with
  | Some (x, rest) => Some (c :: x, rest)
  | None => None
  end.

(** [py_scanstring(s, end, strict=True)], entered after the opening
    quote: the decoded string and the text after the closing quote. A
    [\uXXXX] that is a high surrogate joins a directly following [\uXXXX]
    that is a low surrogate into one code point. *)
Fixpoint scanstring (s : str) : option (str * str) :=
  match s with
  | [] => None
  | c :: r =>
      if c =? 34 then Some ([], r)
      else if c =? 92 then
        match r with
        | [] => None
        | esc :: r1 =>
            if esc =? 117 then
              match r1 with
              | a :: b :: c1 :: d :: r2 =>
                  match decode_uXXXX a b c1 d with
                  | None => None
                  | Some uni =>
                      match r2 with
                      | bs :: u :: a2 :: b2 :: c2 :: d2 :: r3 =>
                          if is_high_surrogate uni && (bs =? 92) && (u =? 117)
                          then
                            match decode_uXXXX a2 b2 c2 d2 with
                            | None => None
                            | Some uni2 =>
                                if is_low_surrogate uni2
                                then cons_char
                                       (65536 + N.lor (N.shiftl (uni - 55296) 10)
                                                  (uni2 - 56320))
                                       (scanstring r3)
                                else cons_char uni (scanstring r2)
                            end
                          else cons_char uni (scanstring r2)
                      | _ => cons_char uni (scanstring r2)
                      end
                  end
              | _ => None
              end
            else
              match backslash esc with
              | Some ch => cons_char ch (scanstring r1)
              | None => None
              end
        end
      else if c <? 32 then None
      else cons_char c (scanstring r)
  end.

(** [dict(pairs)] *)
Definition dict_of_pairs (pairs : list (str * value)) : dict value :=
  fold_left (fun d kv => setitem d (fst kv) (snd kv)) pairs [].

Fixpoint scan_once (fuel : nat) (s : str) {struct fuel} : option (value * str) :=
  match fuel with
  | O => None
  | S fuel =>
      match s with
      | [] => None
      | c :: r =>
          if c =? 34 then
            match scanstring r with
            | Some (x, r') => Some (String x, r')
            | None => None
            end
          else if c =? 123 then
            match skip_ws r with
            | c' :: r' =>
                if c' =? 125 then Some (Object [], r')
                else if c' =? 34 then
                  match parse_members fuel r' with
                  | Some (ms, r'') => Some (Object (dict_of_pairs ms), r'')
                  | None => None
                  end
                else None
            | [] => None
            end
          else if c =? 91 then
            match skip_ws r with
            | c' :: r' =>
                if c' =? 93 then Some (Array [], r')
                else
                  match parse_elements fuel (c' :: r') with
                  | Some (vs, r'') => Some (Array vs, r'')
                  | None => None
                  end
            | [] => None
            end
          else if startswith s (lit "null") then Some (Null, skipn 4%nat s)
          else if startswith s (lit "true") then Some (Bool true, skipn 4%nat s)
          else if startswith s (lit "false") then Some (Bool false, skipn 5%nat s)
          else None
      end
  end

(** [JSONArray], from the first element on. *)
with parse_elements (fuel : nat) (s : str) {struct fuel}
  : option (list value * str) :=
  match fuel with
  | O => None
  | S fuel =>
      match scan_once fuel s with
      | None => None
      | Some (v, r) =>
          match skip_ws r with
          | c :: r' =>
              if c =? 93 then Some ([v], r')
              else if c =? 44 then
                match parse_elements fuel (skip_ws r') with
                | Some (vs, r'') => Some (v :: vs, r'')
                | None => None
                end
              else None
          | [] => None
          end
      end
  end

(** [JSONObject], entered after the opening quote of a key. *)
with parse_members (fuel : nat) (s : str) {struct fuel}
  : option (list (str * value) * str) :=
  match fuel with
  | O => None
  | S fuel =>
      match scanstring s with
      | None => None
      | Some (k, r) =>
          match skip_ws r with
          | c :: r1 =>
              if c =? 58 then
                match scan_once fuel (skip_ws r1) with
                | None => None
                | Some (v, r2) =>
                    match skip_ws r2 with
                    | c2 :: r3 =>
                        if c2 =? 125 then Some ([(k, v)], r3)
                        else if c2 =? 44 then
                          match skip_ws r3 with
                          | c3 :: r4 =>
                              if c3 =? 34 then
                                match parse_members fuel r4 with
                                | Some (ms, r5) => Some ((k, v) :: ms, r5)
                                | None => None
                                end
                              else None
                          | [] => None
                          end
                        else None
                    | [] => None
                    end
                end
              else None
          | [] => None
          end
      end
  end.

(** [json.loads(s)]: one value, surrounded by optional whitespace. *)
Definition loads (s : str) : option value :=
  match scan_once (List.length s) (skip_ws s) with
  | Some (v, r) => match skip_ws r with [] => Some v | _ :: _ => None end
  | None => None
  end.

(** The Python value of the history list: a list of three-key dicts. *)
Definition of_item (item : HistoryItem.t) : value :=
  Object [ (lit "question", String (HistoryItem.question item));
           (lit "answer", String (HistoryItem.answer item));
           (lit "events", Array (map String (HistoryItem.events item))) ].

Definition of_history (h : list HistoryItem.t) : value :=
  Array (map of_item h).

(** *** Strings and values that survive a round trip *)

(** A Python string holds code points below [0x110000]. The encoder
    writes a character above the basic plane as a surrogate pair, and the
    decoder joins every pair it reads: a string survives when no high
    surrogate of its own stands directly before a low surrogate. *)
Fixpoint no_split_pair (s : str) : bool :=
  match s with
  | [] => true
  | c :: r =>
      (c <? 1114112)
      && negb (is_high_surrogate c
               && match r with
                  | d :: _ => is_low_surrogate d
                  | [] => false
                  end)
      && no_split_pair r
  end.

(** The text begins with the escape of a low surrogate. *)
Definition starts_low (s : str) : bool :=
  match s with
  | bs :: u :: a :: b :: c :: d :: _ =>
      (bs =? 92) && (u =? 117)
      && match decode_uXXXX a b c d with
         | Some v => is_low_surrogate v
         | None => false
         end
  | _ => false
  end.

Fixpoint distinct_keys (ks : list str) : bool :=
  match ks with
  | [] => true
  | k :: r => negb (existsb (str_eqb k) r) && distinct_keys r
  end.

Fixpoint value_ok (v : value) : bool :=
  match v with
  | Null | Bool _ => true
  | String s => no_split_pair s
  | Array items => forallb value_ok items
  | Object members =>
      forallb (fun kv => match kv with
                         | (k, x) => no_split_pair k && value_ok x
                         end) members
      && distinct_keys (map fst members)
  end.

(** Fuel that [scan_once] needs for a value. *)
Fixpoint size (v : value) : nat :=
  match v with
  | Array items => S (fold_right (fun x n => S (size x + n)) O items)
  | Object members =>
      S (fold_right (fun kv n => match kv with
                                 | (_, x) => S (size x + n)
                                 end) O members)
  | _ => 1%nat
  end.

Definition item_ok (item : HistoryItem.t) : bool :=
  no_split_pair (HistoryItem.question item)
  && no_split_pair (HistoryItem.answer item)
  && forallb no_split_pair (HistoryItem.events item).

(** The text begins like an encoded value. *)
Definition starts_value (s : str) : bool :=
  match s with
  | c :: _ =>
      (c =? 34) || (c =? 91) || (c =? 123)
      || (c =? 110) || (c =? 116) || (c =? 102)
  | [] => false
  end.

(** What the decoder is shown to do on the dump of one value. *)
Definition reads_back (v : value) : Prop :=
  forall (level : nat) (rest : str) (fuel : nat),
    value_ok v = true -> (size v <= fuel)%nat ->
    scan_once fuel (iterencode level v ++ rest) = Some (v, rest).

(** Parsing the dump of a history gives the history back. *)
Definition round_trips (h : list HistoryItem.t) : Prop :=
  loads (dumps (of_history h)) = Some (of_history h).

End Json.

(** ** [app.py]: the upload form of [main] *)

Section Script.

Context {E : Type} {FS : FileService E} {LS : LinkService E} {RG : Rag E}.

Definition with_ext (s : state E) (e : E) : state E :=
  {| ext := e; langgraph_history := langgraph_history s |}.

Definition with_history (s : state E) (h : list HistoryItem.t) : state E :=
  {| ext := ext s; langgraph_history := Some h |}.

(** The calls into the collaborators, each logged where it is made. *)

Definition file_service_get_user_files (user_id : N) : M E (list FileModel.t) :=
  fun s => (Done (get_user_files (ext s) user_id), s, [call_get_user_files user_id]).

Definition file_service_delete_file (file_id : N) : M E unit :=
  fun s => (Done tt, with_ext s (delete_file (ext s) file_id),
            [call_delete_file file_id]).

Definition file_service_add_file (file : list N) (filename file_type : str)
    (user_id : N) : M E (option FileModel.t) :=
  fun s =>
    match add_file (ext s) file filename file_type user_id with
    | (file_model, e) =>
        (Done file_model, with_ext s e,
         [call_add_file file filename file_type user_id])
    end.

Definition link_service_get_user_links (user_id : N) : M E (list LinkModel.t) :=
  fun s => (Done (get_user_links (ext s) user_id), s, [call_get_user_links user_id]).

Definition call (A : Type) (ev : event) (f : E -> (exception + A) * E) : M E A :=
  fun s =>
    match f (ext s) with
    | (inr a, e) => (Done a, with_ext s e, [ev])
    | (inl x, e) => (Raised x, with_ext s e, [ev])
    end.

(** The inner [for existing_file in existing_files] with its [break]. *)
Fixpoint delete_existing (uploaded_name : str) (existing_files : list FileModel.t)
  : M E unit :=
  match existing_files with
  | [] => ret tt
  | existing_file :: rest =>
      if str_eqb (FileModel.name existing_file) uploaded_name then
        file_service_delete_file (FileModel.id existing_file) ;;
        emit (st_info (lit "Replacing existing file: " ++ uploaded_name))
      else delete_existing uploaded_name rest
  end.

(** The body of [for uploaded_file in uploaded_files]. *)
Definition upload (user_id : N) (replace_existing : bool)
    (uploaded_file : UploadedFile.t) : M E unit :=
  existing_files <- file_service_get_user_files user_id ;;
  let duplicate :=
    existsb (fun f => str_eqb (FileModel.name f) (UploadedFile.name uploaded_file))
            existing_files in
  if duplicate && negb replace_existing then
    emit (st_warning
            (lit "File '" ++ UploadedFile.name uploaded_file
               ++ lit "' already exists. Select 'Replace existing files' option to overwrite."))
  else
    when (duplicate && replace_existing)
         (delete_existing (UploadedFile.name uploaded_file) existing_files) ;;
    file_model <- file_service_add_file (UploadedFile.getbuffer uploaded_file)
                    (UploadedFile.name uploaded_file)
                    (UploadedFile.type uploaded_file) user_id ;;
    match file_model with
    | Some _ => emit (st_success (lit "Uploaded: " ++ UploadedFile.name uploaded_file))
    | None => emit (st_error (lit "Failed to upload: " ++ UploadedFile.name uploaded_file))
    end.

(** What the handler shows after [add_file] returned [file_model]. *)
Definition upload_report (uf : UploadedFile.t) (file_model : option FileModel.t)
  : event :=
  match file_model with
  | Some _ => st_success (lit "Uploaded: " ++ UploadedFile.name uf)
  | None => st_error (lit "Failed to upload: " ++ UploadedFile.name uf)
  end.

(** An uploaded file collides when an existing file has its name. *)
Definition collides (existing_files : list FileModel.t)
    (uploaded_file : UploadedFile.t) : Prop :=
  exists f, In f existing_files
            /\ FileModel.name f = UploadedFile.name uploaded_file.

Definition the_add (user_id : N) (uploaded_file : UploadedFile.t) : event :=
  call_add_file (UploadedFile.getbuffer uploaded_file)
                (UploadedFile.name uploaded_file)
                (UploadedFile.type uploaded_file) user_id.

(** A trace in which every colliding existing file is deleted and the new
    file is then added, no delete coming after the add. *)
Definition deletes_every_colliding_then_adds (existing_files : list FileModel.t)
    (user_id : N) (uploaded_file : UploadedFile.t) (t : list event) : Prop :=
  exists before after,
    t = before ++ the_add user_id uploaded_file :: after
    /\ (forall f, In f existing_files ->
                  FileModel.name f = UploadedFile.name uploaded_file ->
                  In (call_delete_file (FileModel.id f)) before)
    /\ (forall i, ~ In (call_delete_file i) after).

(** A trace in which the file is added and its success message shown. *)
Definition adds_and_shows_success (user_id : N) (uploaded_file : UploadedFile.t)
    (t : list event) : Prop :=
  In (the_add user_id uploaded_file) t
  /\ In (st_success (lit "Uploaded: " ++ UploadedFile.name uploaded_file)) t.

(** The values of the three widgets of [file_upload_form] in this rerun. *)
Record upload_form := {
  uploaded_files : list UploadedFile.t;
  replace_existing : bool;
  submit_button : bool
}.

(** [main], lines 107 to 150: [if current_user: ... else: ...]. *)
Definition main (current_user : option User.t) (form : upload_form) : M E unit :=
  match current_user with
  | Some user =>
      when (submit_button form && truthy (uploaded_files form))
           (for_each (uploaded_files form)
                     (upload (User.user_id user) (replace_existing form)))
  | None => emit (st_warning (lit "Please log in to upload files"))
  end.

(** ** [ui/langgraph_ui.py] *)

(** [LangGraphUI]: which of the two optional services were passed to
    the constructor. *)
Record LangGraphUI := {
  file_service : bool;
  link_service : bool
}.

(** What the runner feeds the script in one rerun: the argument, the
    environment, and what the user did with the widgets. For the two
    multiselects this is what the user has picked; what the widget returns
    of it is [st_multiselect] below. *)
Record rerun := {
  current_user : option User.t;
  openai_api_key : bool;
  selected_file_names : list str;
  selected_link_urls : list str;
  build_index : bool;
  chat_input : option str;
  clear_history : bool
}.

Definition get_history : M E (list HistoryItem.t) :=
  fun s =>
    match langgraph_history s with
    | Some h => (Done h, s, [])
    | None => (Raised (AttributeError (lit "langgraph_history")), s, [])
    end.

Definition set_history (h : list HistoryItem.t) : M E unit :=
  fun s => (Done tt, with_history s h, []).

(** [if "langgraph_history" not in st.session_state: ... = []] *)
Definition init_history : M E unit :=
  fun s =>
    match langgraph_history s with
    | Some _ => (Done tt, s, [])
    | None => (Done tt, with_history s [], [])
    end.

(** [st.session_state.langgraph_history.append(result)] *)
Definition history_append (item : HistoryItem.t) : M E unit :=
  h <- get_history ;; set_history (h ++ [item]).

(** [d[k]] *)
Definition getitem {V} (d : dict V) (k : str) : M E V :=
  match get d k with
  | Some v => ret v
  | None => raise (KeyError k)
  end.

(** [[d[k] for k in ks]] *)
Fixpoint getitems {V} (d : dict V) (ks : list str) : M E (list V) :=
  match ks with
  | [] => ret []
  | k :: ks' => v <- getitem d k ;; vs <- getitems d ks' ;; ret (v :: vs)
  end.

(** [{f"{x.name}": x for x in xs}] *)
Definition options {V} (name : V -> str) (xs : list V) : dict V :=
  fold_left (fun d x => setitem d (name x) x) xs [].

(** [list(d.keys())] *)
Definition keys {V} (d : dict V) : list str := map fst d.

(** [st.multiselect(label, options=options)]: the widget returns options
    only, so of what the user has picked it returns what is among the
    options it was drawn with. *)
Definition st_multiselect (options picked : list str) : list str :=
  filter (fun k => existsb (str_eqb k) options) picked.

(** The first column: [selected_files]. *)
Definition select_files (self : LangGraphUI) (user : User.t) (names : list str)
  : M E (list FileModel.t) :=
  if file_service self then
    user_files <- file_service_get_user_files (User.user_id user) ;;
    if negb (truthy user_files) then
      emit (st_info (lit "No files available. Upload files from the sidebar.")) ;;
      ret []
    else
      let file_options := options FileModel.name user_files in
      let selected_file_names := st_multiselect (keys file_options) names in
      selected_files <- getitems file_options selected_file_names ;;
      when (truthy selected_files)
           (emit (st_success (lit "Selected "
                                ++ str_of_nat (List.length selected_files)
                                ++ lit " files for RAG"))) ;;
      ret selected_files
  else
    emit (st_info (lit "File service not available.")) ;;
    ret [].

(** The second column: [selected_links]. *)
Definition select_links (self : LangGraphUI) (user : User.t) (urls : list str)
  : M E (list LinkModel.t) :=
  if link_service self then
    user_links <- link_service_get_user_links (User.user_id user) ;;
    if negb (truthy user_links) then
      emit (st_info (lit "No links available. Add links from the sidebar.")) ;;
      ret []
    else
      let link_options := options LinkModel.url user_links in
      let selected_link_urls := st_multiselect (keys link_options) urls in
      selected_links <- getitems link_options selected_link_urls ;;
      when (truthy selected_links)
           (emit (st_success (lit "Selected "
                                ++ str_of_nat (List.length selected_links)
                                ++ lit " links for RAG"))) ;;
      ret selected_links
  else
    emit (st_info (lit "Link service not available.")) ;;
    ret [].

(** The body of [if build_index:]. *)
Definition build_index_handler (selected_files : list FileModel.t)
    (selected_links : list LinkModel.t) : M E unit :=
  if negb (truthy selected_files) && negb (truthy selected_links) then
    emit (st_warning (lit "Please select at least one file or link to build the index."))
  else
    try_except
      (success <- call (call_vectorize selected_files selected_links)
                    (fun e => vectorize e selected_files selected_links) ;;
       if success : bool then
         emit (st_success (lit "Vector store initialized successfully!"))
       else
         emit (st_error (lit "Failed to initialize vector store.")))
      (fun e =>
         emit (st_error (lit "Error initializing vector store: " ++ exc_str e))).

Definition display_result (item : HistoryItem.t) (show_question : bool) : M E unit :=
  when show_question
       (emit (chat_message (lit "user") chat_write (HistoryItem.question item))) ;;
  if startswith (HistoryItem.answer item) (lit "Error") then
    emit (chat_message (lit "ai") chat_error (HistoryItem.answer item))
  else
    emit (chat_message (lit "ai") chat_write (HistoryItem.answer item)) ;;
    for_each (HistoryItem.events item)
             (fun event => emit (chat_message (lit "ai") chat_write event)).

(** The history as a sequence: empty while the key is absent. *)
Definition history_of (s : state E) : list HistoryItem.t :=
  match langgraph_history s with
  | Some h => h
  | None => []
  end.

(** Calls that put something on the page. *)
Definition is_display (ev : event) : bool :=
  match ev with
  | st_warning _ | st_info _ | st_success _ | st_error _
  | chat_message _ _ _ => true
  | _ => false
  end.

(** What a trace holds after its first graph invocation. *)
Fixpoint after_invoke (t : list event) : option (list event) :=
  match t with
  | [] => None
  | call_invoke _ :: rest => Some rest
  | _ :: rest => after_invoke rest
  end.

(** A run in which the graph invocation is followed by a display. *)
Definition failure_displayed (t : list event) : Prop :=
  match after_invoke t with
  | Some rest => existsb is_display rest
  | None => false
  end = true.

(** The two ways [display_result] renders an answer. *)
Definition error_path (t : list event) : Prop :=
  exists body, In (chat_message (lit "ai") chat_error body) t.

Definition normal_path (t : list event) : Prop :=
  exists body, In (chat_message (lit "ai") chat_write body) t.

(** The record the query handler stores. *)
Definition result_item (prompt generation : str) : HistoryItem.t :=
  {| HistoryItem.question := prompt;
     HistoryItem.answer := generation;
     HistoryItem.events := [] |}.

(** [{"question": prompt, "retriever_id": retriever_id}] *)
Definition graph_inputs (prompt retriever_id : str) : dict str :=
  [(lit "question", prompt); (lit "retriever_id", retriever_id)].

(** The body of [if prompt := st.chat_input(...)]. *)
Definition query_handler (selected_files : list FileModel.t)
    (selected_links : list LinkModel.t) (prompt : str) : M E unit :=
  emit (chat_message (lit "user") chat_write prompt) ;;
  when (negb (truthy selected_files) && negb (truthy selected_links))
       (emit (chat_message (lit "AI") chat_warning
                (lit "You haven't selected any files or links. LangGraph will use default sources or web search."))) ;;
  retriever_id <- (fun s => (Done (get_retriever_id (ext s) selected_files selected_links),
                             s, [call_get_retriever_id selected_files selected_links])) ;;
  let inputs := graph_inputs prompt retriever_id in
  emit call_get_graph ;;
  final_state <- call (call_invoke inputs) (fun e => invoke e inputs) ;;
  generation <- getitem final_state (lit "generation") ;;
  let result := {| HistoryItem.question := prompt;
                   HistoryItem.answer := generation;
                   HistoryItem.events := [] |} in
  history_append result ;;
  display_result result false.

(** The button the tab offers for a history [h]. *)
Definition history_button (h : list HistoryItem.t) : download_button :=
  {| label := lit "Download History";
     key := lit "rag_chat_history_download";
     data := Json.dumps (Json.of_history h);
     file_name := lit "rag_chat_history.json";
     mime := lit "application/json" |}.

(** The download button and, under it, the clear button. *)
Definition download_and_clear (clear : bool) : M E unit :=
  h <- get_history ;;
  when (truthy h)
       (emit (st_download_button
                {| label := lit "Download History";
                   key := lit "rag_chat_history_download";
                   data := Json.dumps (Json.of_history h);
                   file_name := lit "rag_chat_history.json";
                   mime := lit "application/json" |}) ;;
        when clear
             (set_history [] ;;
              fun s => (Rerun, s, [st_rerun]))).

Definition render_langgraph_section (self : LangGraphUI) (r : rerun) : M E unit :=
  match current_user r with
  | None => emit (st_warning (lit "You must be logged in to use LangGraph RAG."))
  | Some user =>
      if negb (openai_api_key r) then
        emit (st_warning
                ([9888; 65039]
                   ++ lit " OpenAI API key is not set in environment variables. Please ask your administrator to configure it."))
      else
        init_history ;;
        selected_files <- select_files self user (selected_file_names r) ;;
        selected_links <- select_links self user (selected_link_urls r) ;;
        when (build_index r) (build_index_handler selected_files selected_links) ;;
        h <- get_history ;;
        when (0 <? List.length h)%nat
             (for_each h (fun item => display_result item true)) ;;
        match chat_input r with
        | Some prompt =>
            when (truthy prompt)
                 (query_handler selected_files selected_links prompt)
        | None => ret tt
        end ;;
        download_and_clear (clear_history r)
  end.

(** What the query handler emits up to and including the invocation. *)
Definition query_prefix (sf : list FileModel.t) (sl : list LinkModel.t)
    (prompt : str) (e : E) : list event :=
  chat_message (lit "user") chat_write prompt
  :: (if negb (truthy sf) && negb (truthy sl)
      then [chat_message (lit "AI") chat_warning
              (lit "You haven't selected any files or links. LangGraph will use default sources or web search.")]
      else [])
  ++ [call_get_retriever_id sf sl;
      call_get_graph;
      call_invoke (graph_inputs prompt (get_retriever_id e sf sl))].

(** How an answer is rendered. *)
Definition answer_message (answer : str) : event :=
  if startswith answer (lit "Error")
  then chat_message (lit "ai") chat_error answer
  else chat_message (lit "ai") chat_write answer.

(** [vectorize] is called only from a pressed build-index button, and
    only with a selection. *)
Definition vectorize_only_if (pressed : bool) (ev : event) : Prop :=
  match ev with
  | call_vectorize sf sl => pressed = true /\ (sf <> [] \/ sl <> [])
  | _ => True
  end.

(** A failure of [vectorize] that the handler catches and shows: the
    handler returns normally and an error banner is on the page. *)
Definition caught_and_shown (sf : list FileModel.t) (sl : list LinkModel.t)
    (s : state E) : Prop :=
  result (build_index_handler sf sl) s = Done tt
  /\ exists msg, In (st_error msg) (trace (build_index_handler sf sl) s).

End Script.

(** ** A small in-memory collaborator, to run the script on *)

Module Demo.

Record store := {
  files : list FileModel.t;
  links : list LinkModel.t;
  accepts_uploads : bool;
  vectorize_result : exception + bool;
  graph_result : exception + dict str
}.

Definition with_files (s : store) (fs : list FileModel.t) : store :=
  {| files := fs; links := links s; accepts_uploads := accepts_uploads s;
     vectorize_result := vectorize_result s; graph_result := graph_result s |}.

Definition next_id (fs : list FileModel.t) : N :=
  1 + fold_right N.max 0 (map FileModel.id fs).

#[global] Instance store_file_service : FileService store := {
  get_user_files s _ := files s;
  delete_file s i :=
    with_files s (filter (fun f => negb (FileModel.id f =? i)) (files s));
  add_file s _ filename _ _ :=
    if accepts_uploads s then
      let f := {| FileModel.id := next_id (files s); FileModel.name := filename |} in
      (Some f, with_files s (files s ++ [f]))
    else (None, s)
}.

#[global] Instance store_link_service : LinkService store := {
  get_user_links s _ := links s
}.

#[global] Instance store_rag : Rag store := {
  vectorize s _ _ := (vectorize_result s, s);
  get_retriever_id _ fs ls :=
    List.concat (map FileModel.name fs) ++ List.concat (map LinkModel.url ls);
  invoke s _ := (graph_result s, s)
}.

Definition file (i : N) (n : string) : FileModel.t :=
  {| FileModel.id := i; FileModel.name := lit n |}.

Definition pdf (n : string) : UploadedFile.t :=
  {| UploadedFile.name := lit n; UploadedFile.type := lit "application/pdf";
     UploadedFile.getbuffer := [37; 80; 68; 70] |}.

Definition empty : store :=
  {| files := []; links := []; accepts_uploads := true;
     vectorize_result := inr true;
     graph_result := inr [(lit "generation", lit "42")] |}.

Definition session (e : store) (h : option (list HistoryItem.t)) : state store :=
  {| ext := e; langgraph_history := h |}.

Definition ui : LangGraphUI := {| file_service := true; link_service := true |}.

Definition idle : rerun :=
  {| current_user := Some {| User.user_id := 1 |};
     openai_api_key := true;
     selected_file_names := []; selected_link_urls := [];
     build_index := false; chat_input := None; clear_history := false |}.

Definition ask (q : string) : rerun :=
  {| current_user := current_user idle; openai_api_key := true;
     selected_file_names := []; selected_link_urls := [];
     build_index := false; chat_input := Some (lit q); clear_history := false |}.

Definition press_build : rerun :=
  {| current_user := current_user idle; openai_api_key := true;
     selected_file_names := [lit "a"]; selected_link_urls := [];
     build_index := true; chat_input := None; clear_history := false |}.

Definition press_clear : rerun :=
  {| current_user := current_user idle; openai_api_key := true;
     selected_file_names := []; selected_link_urls := [];
     build_index := false; chat_input := None; clear_history := true |}.

Definition one_file : store := with_files empty [file 1 "a"].

(** The graph answered with a high surrogate followed by a low one, two
    code points of the string. *)
Definition split_pair : list HistoryItem.t :=
  [{| HistoryItem.question := lit "emoji?";
      HistoryItem.answer := [55357; 56832];
      HistoryItem.events := [] |}].

Definition asked_once : list HistoryItem.t :=
  [{| HistoryItem.question := lit "hello";
      HistoryItem.answer := lit "42";
      HistoryItem.events := [] |}].

(** The graph raises. *)
Definition broken_graph : store :=
  {| files := []; links := []; accepts_uploads := true;
     vectorize_result := inl (Exception (lit "index unavailable"));
     graph_result := inl (Exception (lit "boom")) |}.

(** [vectorize] is interrupted from the keyboard: it raises
    [KeyboardInterrupt()], whose [str()] is empty. *)
Definition interrupted : store :=
  {| files := []; links := []; accepts_uploads := true;
     vectorize_result := inl (BaseException []);
     graph_result := inr [(lit "generation", lit "42")] |}.

(** [vectorize] raises [KeyError("it's")]. *)
Definition missing_key : store :=
  {| files := []; links := []; accepts_uploads := true;
     vectorize_result := inl (KeyError (lit "it's"));
     graph_result := inr [(lit "generation", lit "42")] |}.

End Demo.

(** Two files named [a] are listed; [a] is uploaded with replacement. *)
Definition two_namesakes : state Demo.store :=
  Demo.session (Demo.with_files Demo.empty [Demo.file 1 "a"; Demo.file 2 "a"]) None.

(** The store refuses uploads. *)
Definition full_store : state Demo.store :=
  Demo.session
    {| Demo.files := []; Demo.links := []; Demo.accepts_uploads := false;
       Demo.vectorize_result := inr true;
       Demo.graph_result := inr [(lit "generation", lit "42")] |} None.

(** ** Counting calls *)

Definition count (p : event -> bool) (t : list event) : nat :=
  List.length (filter p t).

Definition is_listing (ev : event) : bool :=
  match ev with call_get_user_files _ => true | _ => false end.

Definition is_link_listing (ev : event) : bool :=
  match ev with call_get_user_links _ => true | _ => false end.

Definition is_delete (ev : event) : bool :=
  match ev with call_delete_file _ => true | _ => false end.


Definition is_vectorize (ev : event) : bool :=
  match ev with call_vectorize _ _ => true | _ => false end.

Definition is_invoke (ev : event) : bool :=
  match ev with call_invoke _ => true | _ => false end.

Definition is_download (ev : event) : bool :=
  match ev with st_download_button _ => true | _ => false end.

(** [st.warning], [st.success] and [st.error]: how the upload form and the
    build-index button report. *)
Definition is_banner (ev : event) : bool :=
  match ev with
  | st_warning _ | st_success _ | st_error _ => true
  | _ => false
  end.

Definition is_user_message (ev : event) : bool :=
  match ev with
  | chat_message role chat_write _ => str_eqb role (lit "user")
  | _ => false
  end.

(** ** The calls each part of the tab can make *)

Definition selection_event (ev : event) : bool :=
  match ev with
  | call_get_user_files _ | call_get_user_links _ | st_info _ | st_success _ => true
  | _ => false
  end.

Definition build_event (ev : event) : bool :=
  match ev with
  | st_warning _ | call_vectorize _ _ | st_success _ | st_error _ => true
  | _ => false
  end.

Definition replay_event (ev : event) : bool :=
  match ev with chat_message _ _ _ => true | _ => false end.

Definition query_event (ev : event) : bool :=
  match ev with
  | chat_message _ _ _ | call_get_retriever_id _ _ | call_get_graph
  | call_invoke _ => true
  | _ => false
  end.

Definition download_event (ev : event) : bool :=
  match ev with st_download_button _ | st_rerun => true | _ => false end.

Definition upload_event (ev : event) : bool :=
  match ev with
  | call_get_user_files _ | call_delete_file _ | call_add_file _ _ _ _
  | st_warning _ | st_info _ | st_success _ | st_error _ => true
  | _ => false
  end.

(** The last element of a listing that carries a given name. *)
Definition last_named {V} (name : V -> str) (xs : list V) (k : str) : option V :=
  find (fun x => str_eqb (name x) k) (rev xs).

(** What [display_result(item)] puts on the page. *)
Definition item_messages (item : HistoryItem.t) : list event :=
  chat_message (lit "user") chat_write (HistoryItem.question item)
  :: (if startswith (HistoryItem.answer item) (lit "Error")
      then [chat_message (lit "ai") chat_error (HistoryItem.answer item)]
      else chat_message (lit "ai") chat_write (HistoryItem.answer item)
           :: map (chat_message (lit "ai") chat_write) (HistoryItem.events item)).

(** ** A session: one rerun of the tab after the other *)

Section Session.

Context {E : Type} {FS : FileService E} {LS : LinkService E} {RG : Rag E}.

(** [if prompt := st.chat_input(...)] with its body. *)
Definition chat_stage (sf : list FileModel.t) (sl : list LinkModel.t)
    (input : option str) : M E unit :=
  match input with
  | Some prompt => when (truthy prompt) (query_handler sf sl prompt)
  | None => ret tt
  end.

(** [if len(history) > 0: for item in history: display_result(item)] *)
Definition replay_stage (h : list HistoryItem.t) : M E unit :=
  when (0 <? List.length h)%nat
       (for_each h (fun item => display_result item true)).

(** Streamlit keeps [st.session_state] from one rerun to the next. *)
Fixpoint session (self : LangGraphUI) (reruns : list rerun) (s : state E)
  : state E :=
  match reruns with
  | [] => s
  | r :: rest => session self rest (final (render_langgraph_section self r) s)
  end.

End Session.

(** ** [app.py]: the page around the upload form

    [main] builds the services and the UI objects, asks [AuthUI] whether a
    user is authenticated, and renders the sidebar and the four tabs. The
    components other than [LangGraphUI] are not part of the sources: each is
    a call that acts on the external state and may end the script. *)

Module AppPage.

Inductive component :=
| auth_ui_render_login_page
| auth_ui_render_user_info
| auth_ui_render_logout_button
| link_ui_render_add_link_section (current_user : option User.t)
| conventional_ui_render_query_section (current_user : option User.t)
| file_ui_render_file_management (current_user : option User.t)
| link_ui_render_link_management (current_user : option User.t)
| feedback_ui_render_feedback_form (current_user : option User.t) (is_admin : bool).

Class AppUI (E : Type) := {
  is_authenticated : E -> bool;
  get_current_user : E -> option User.t;
  is_current_user_admin : E -> bool;
  render : component -> E -> outcome unit * E
}.

Inductive page_event :=
| st_set_page_config
| st_sidebar_warning (msg : str)
| call_is_authenticated
| call_get_current_user
| call_is_current_user_admin
| rendered (c : component)
| script (ev : event).

Definition Page (E : Type) := state E -> outcome unit * state E * list page_event.

(** What the widgets of the tab return in this rerun. *)
Record widgets := {
  file_names : list str;
  link_urls : list str;
  build_pressed : bool;
  prompt : option str;
  clear_pressed : bool
}.

(** [os.environ] (its keys) and the widget values of one rerun. *)
Record inputs := {
  environ : list str;
  form : upload_form;
  tab : widgets
}.

Section Page.

Context {E : Type} {FS : FileService E} {LS : LinkService E} {RG : Rag E}
        {UI : AppUI E}.

Definition page_emit (ev : page_event) : Page E := fun s => (Done tt, s, [ev]).

Definition skip : Page E := fun s => (Done tt, s, []).

(** A part of the page written in the script monad. *)
Definition lift (m : M E unit) : Page E :=
  fun s => match m s with (r, s', t) => (r, s', map script t) end.

Definition component_stage (c : component) : Page E :=
  fun s =>
    match render c (ext s) with
    | (r, e) => (r, with_ext s e, [rendered c])
    end.

(** Statements in sequence: the script stops at the first one that raises
    or asks for a rerun. *)
Fixpoint in_order (stages : list (Page E)) : Page E :=
  match stages with
  | [] => skip
  | stage :: rest =>
      fun s =>
        match stage s with
        | (Done _, s1, t1) =>
            match in_order rest s1 with (r, s2, t2) => (r, s2, t1 ++ t2) end
        | (r, s1, t1) => (r, s1, t1)
        end
  end.

(** [key in os.environ] *)
Definition contains (environ : list str) (key : str) : bool :=
  existsb (str_eqb key) environ.

Definition setup_page_config : Page E := page_emit st_set_page_config.

Definition setup_environment_variables (environ : list str) : Page E :=
  in_order
    [ if negb (contains environ (lit "OPENAI_API_KEY")) then
        page_emit (st_sidebar_warning
                     ([9888; 65039]
                        ++ lit " OPENAI_API_KEY not set in environment. Some AI features may not work."))
      else skip;
      if negb (contains environ (lit "TAVILY_API_KEY")) then
        page_emit (st_sidebar_warning
                     ([9888; 65039]
                        ++ lit " TAVILY_API_KEY not set in environment. Web search functionality will be limited."))
      else skip ].

(** The upload form of the sidebar, lines 107 to 150. *)
Definition upload_form_block : option User.t -> upload_form -> M E unit := main.

(** [LangGraphUI(file_service, link_service)] *)
Definition langgraph_ui : LangGraphUI :=
  {| file_service := true; link_service := true |}.

(** What [render_langgraph_section(current_user)] reads in this rerun. *)
Definition tab_rerun (user : option User.t) (i : inputs) : rerun :=
  {| current_user := user;
     openai_api_key := contains (environ i) (lit "OPENAI_API_KEY");
     selected_file_names := file_names (tab i);
     selected_link_urls := link_urls (tab i);
     build_index := build_pressed (tab i);
     chat_input := prompt (tab i);
     clear_history := clear_pressed (tab i) |}.

Definition main (i : inputs) : Page E :=
  fun s =>
    if negb (is_authenticated (ext s)) then
      in_order
        [ setup_page_config;
          page_emit call_is_authenticated;
          component_stage auth_ui_render_login_page ] s
    else
      let user := get_current_user (ext s) in
      let is_admin := is_current_user_admin (ext s) in
      in_order
        [ setup_page_config;
          page_emit call_is_authenticated;
          page_emit call_get_current_user;
          page_emit call_is_current_user_admin;
          setup_environment_variables (environ i);
          component_stage auth_ui_render_user_info;
          component_stage auth_ui_render_logout_button;
          lift (upload_form_block user (form i));
          component_stage (link_ui_render_add_link_section user);
          component_stage (conventional_ui_render_query_section user);
          lift (render_langgraph_section langgraph_ui (tab_rerun user i));
          component_stage (file_ui_render_file_management user);
          component_stage (link_ui_render_link_management user);
          component_stage (feedback_ui_render_feedback_form user is_admin) ] s.

Definition page_trace (p : Page E) (s : state E) : list page_event := snd (p s).
Definition page_result (p : Page E) (s : state E) : outcome unit := fst (fst (p s)).
Definition page_final (p : Page E) (s : state E) : state E := snd (fst (p s)).

End Page.

End AppPage.

(** A line feed or a printable ASCII character. *)
Definition is_ascii_text (c : N) : bool :=
  (c =? 10) || ((32 <=? c) && (c <=? 126)).

(** ** An in-memory site, to run the page on *)

Module Site.

Record t := {
  store : Demo.store;
  logged_in : option User.t;
  admin : bool
}.

Definition with_store (s : t) (st : Demo.store) : t :=
  {| store := st; logged_in := logged_in s; admin := admin s |}.

#[global] Instance site_file_service : FileService t := {
  get_user_files s user_id := get_user_files (store s) user_id;
  delete_file s file_id := with_store s (delete_file (store s) file_id);
  add_file s file filename file_type user_id :=
    match add_file (store s) file filename file_type user_id with
    | (file_model, st) => (file_model, with_store s st)
    end
}.

#[global] Instance site_link_service : LinkService t := {
  get_user_links s user_id := get_user_links (store s) user_id
}.

#[global] Instance site_rag : Rag t := {
  vectorize s fs ls :=
    match vectorize (store s) fs ls with (r, st) => (r, with_store s st) end;
  get_retriever_id s fs ls := get_retriever_id (store s) fs ls;
  invoke s inputs :=
    match invoke (store s) inputs with (r, st) => (r, with_store s st) end
}.

#[global] Instance site_ui : AppPage.AppUI t := {
  AppPage.is_authenticated s :=
    match logged_in s with Some _ => true | None => false end;
  AppPage.get_current_user s := logged_in s;
  AppPage.is_current_user_admin s := admin s;
  AppPage.render _ s := (Done tt, s)
}.

Definition anonymous : state t :=
  {| ext := {| store := Demo.one_file; logged_in := None; admin := false |};
     langgraph_history := None |}.

Definition member : state t :=
  {| ext := {| store := Demo.one_file;
               logged_in := Some {| User.user_id := 1 |};
               admin := false |};
     langgraph_history := None |}.

(** A rerun in which a file is submitted, the build button pressed and a
    prompt entered, with no API key in the environment. *)
Definition busy : AppPage.inputs :=
  {| AppPage.environ := [lit "HOME"];
     AppPage.form := {| uploaded_files := [Demo.pdf "b"];
                        replace_existing := false;
                        submit_button := true |};
     AppPage.tab := {| AppPage.file_names := [lit "a"];
                       AppPage.link_urls := [];
                       AppPage.build_pressed := true;
                       AppPage.prompt := Some (lit "hello");
                       AppPage.clear_pressed := false |} |}.

End Site.

(** ** More runs of the in-memory collaborator *)

Module Runs.

Definition user : User.t := {| User.user_id := 1 |}.

(** Two new files, no replacement. *)
Definition batch : upload_form :=
  {| uploaded_files := [Demo.pdf "a"; Demo.pdf "b"];
     replace_existing := false;
     submit_button := true |}.

(** The same file twice in one batch. *)
Definition twice : list UploadedFile.t := [Demo.pdf "a"; Demo.pdf "a"].

(** The graph returns a state without [generation]. *)
Definition mute_graph : Demo.store :=
  {| Demo.files := []; Demo.links := []; Demo.accepts_uploads := true;
     Demo.vectorize_result := inr true;
     Demo.graph_result := inr [(lit "documents", lit "none")] |}.

(** The listing holds [a], then [b], then another [a]. *)
Definition three_files : Demo.store :=
  Demo.with_files Demo.empty [Demo.file 1 "a"; Demo.file 2 "b"; Demo.file 3 "a"].

Definition replacing : upload_form :=
  {| uploaded_files := [Demo.pdf "a"];
     replace_existing := true;
     submit_button := true |}.

End Runs.

(** * Properties *)

Unset Implicit Arguments.

(** ** Strings and the monad *)

Lemma str_eqb_eq (a b : str) : str_eqb a b = true <-> a = b.
Proof.
  revert b; induction a as [|x a IH]; intros [|y b]; simpl;
    try (split; congruence).
  rewrite andb_true_iff, N.eqb_eq, IH. split.
  - intros [-> ->]; reflexivity.
  - intros H; injection H; auto.
Qed.

Lemma str_eqb_refl (a : str) : str_eqb a a = true.
Proof. apply str_eqb_eq; reflexivity. Qed.

Lemma str_eqb_neq (a b : str) : str_eqb a b = false <-> a <> b.
Proof.
  rewrite <- str_eqb_eq. destruct (str_eqb a b); split; congruence.
Qed.

Lemma startswith_prefix (s p : str) :
  startswith s p = true <-> exists rest, s = p ++ rest.
Proof.
  revert s; induction p as [|c p IH]; intros s.
  - split; [intros _; now exists s | reflexivity].
  - destruct s as [|d s].
    + change (startswith [] (c :: p)) with false.
      split; [discriminate | intros [rest H]; discriminate].
    + change (startswith (d :: s) (c :: p)) with (N.eqb d c && startswith s p).
      rewrite andb_true_iff, N.eqb_eq, IH. cbn [app]. split.
      * intros [-> [rest ->]]. eauto.
      * intros [rest H]. injection H as -> ->. eauto.
Qed.

Section UploadFacts.

Context {E : Type} {FS : FileService E}.

Lemma existsb_collides (existing : list FileModel.t) (uf : UploadedFile.t) :
  existsb (fun f => str_eqb (FileModel.name f) (UploadedFile.name uf)) existing = true
  <-> collides existing uf.
Proof.
  unfold collides. rewrite existsb_exists.
  split; intros (f & Hin & H); exists f; split; auto; now apply str_eqb_eq.
Qed.

Lemma existsb_no_collision (existing : list FileModel.t) (uf : UploadedFile.t) :
  ~ collides existing uf ->
  existsb (fun f => str_eqb (FileModel.name f) (UploadedFile.name uf)) existing = false.
Proof.
  intros H. apply not_true_is_false. now rewrite existsb_collides.
Qed.

(** The first colliding file splits the listing. *)
Lemma first_collision (existing : list FileModel.t) (uf : UploadedFile.t) :
  collides existing uf ->
  exists before f after,
    existing = before ++ f :: after
    /\ FileModel.name f = UploadedFile.name uf
    /\ (forall g, In g before -> FileModel.name g <> UploadedFile.name uf).
Proof.
  induction existing as [|g existing IH]; intros (f & Hin & Hf).
  - destruct Hin.
  - destruct (str_eqb (FileModel.name g) (UploadedFile.name uf)) eqn:Hg.
    + exists [], g, existing. apply str_eqb_eq in Hg.
      split; [reflexivity | split; [assumption | intros ? []]].
    + apply str_eqb_neq in Hg. destruct Hin as [-> | Hin]; [contradiction|].
      destruct IH as (before & f' & after & -> & Hf' & Hb); [exists f; auto|].
      exists (g :: before), f', after.
      split; [reflexivity | split; [assumption |]].
      intros h [<- | Hh]; auto.
Qed.

(** The inner loop stops at the first file of that name. *)
Lemma delete_existing_first (n : str) (before after : list FileModel.t)
    (f : FileModel.t) (s : state E) :
  FileModel.name f = n ->
  (forall g, In g before -> FileModel.name g <> n) ->
  delete_existing n (before ++ f :: after) s
  = (Done tt, with_ext s (delete_file (ext s) (FileModel.id f)),
     [call_delete_file (FileModel.id f);
      st_info (lit "Replacing existing file: " ++ n)]).
Proof.
  intros Hf. induction before as [|g before IH]; intros Hb; simpl.
  - rewrite <- Hf, str_eqb_refl. reflexivity.
  - assert (Hg : str_eqb (FileModel.name g) n = false)
      by (apply str_eqb_neq, Hb; now left).
    rewrite Hg. apply IH. intros h Hh; apply Hb; now right.
Qed.

(** One more iteration of the upload loop. *)
Lemma for_each_upload_cons (user_id : N) (replace : bool)
    (uf : UploadedFile.t) (rest : list UploadedFile.t) (s : state E) :
  for_each (uf :: rest) (upload user_id replace) s
  = bind (upload user_id replace uf)
         (fun _ => for_each rest (upload user_id replace)) s.
Proof. reflexivity. Qed.

End UploadFacts.

(** ** The upload form *)

Section UploadClaims.

Context {E : Type} {FS : FileService E}.

(** C1, as the code has it. When the uploaded file's name collides and
    [replace_existing] is true, the handler deletes the first existing file
    of that name in the order of [get_user_files], and only that one, and
    then calls [add_file]; the delete comes before the add. *)
Theorem upload_replace_deletes_first_colliding (user_id : N)
    (uf : UploadedFile.t) (s : state E) :
  collides (get_user_files (ext s) user_id) uf ->
  exists before f after,
    get_user_files (ext s) user_id = before ++ f :: after
    /\ FileModel.name f = UploadedFile.name uf
    /\ (forall g, In g before -> FileModel.name g <> UploadedFile.name uf)
    /\ trace (upload user_id true uf) s
       = [call_get_user_files user_id;
          call_delete_file (FileModel.id f);
          st_info (lit "Replacing existing file: " ++ UploadedFile.name uf);
          the_add user_id uf;
          upload_report uf
            (fst (add_file (delete_file (ext s) (FileModel.id f))
                    (UploadedFile.getbuffer uf) (UploadedFile.name uf)
                    (UploadedFile.type uf) user_id))].
Proof.
  intros Hc.
  destruct (first_collision _ _ Hc) as (before & f & after & Hsplit & Hf & Hb).
  exists before, f, after. repeat (split; [assumption|]).
  apply existsb_collides in Hc.
  unfold trace, upload, bind, file_service_get_user_files. simpl.
  rewrite Hc. simpl. rewrite Hsplit.
  rewrite (delete_existing_first _ before after f s Hf Hb).
  unfold file_service_add_file, with_ext. simpl.
  destruct (add_file _ _ _ _ _) as [[fm|] e]; reflexivity.
Qed.

(** C3. When the uploaded file's name collides and [replace_existing] is
    false, the handler calls neither [delete_file] nor [add_file]: it reads
    the listing, shows the warning and leaves every state as it was; the
    loop then goes on with the next uploaded file from that same state. *)
Theorem upload_collision_without_replace_skips (user_id : N)
    (uf : UploadedFile.t) (rest : list UploadedFile.t) (s : state E) :
  collides (get_user_files (ext s) user_id) uf ->
  upload user_id false uf s
  = (Done tt, s,
     [call_get_user_files user_id;
      st_warning (lit "File '" ++ UploadedFile.name uf
                    ++ lit "' already exists. Select 'Replace existing files' option to overwrite.")])
  /\ for_each (uf :: rest) (upload user_id false) s
     = (result (for_each rest (upload user_id false)) s,
        final (for_each rest (upload user_id false)) s,
        [call_get_user_files user_id;
         st_warning (lit "File '" ++ UploadedFile.name uf
                       ++ lit "' already exists. Select 'Replace existing files' option to overwrite.")]
          ++ trace (for_each rest (upload user_id false)) s).
Proof.
  intros Hc. apply existsb_collides in Hc.
  assert (Hone : upload user_id false uf s
                 = (Done tt, s,
                    [call_get_user_files user_id;
                     st_warning (lit "File '" ++ UploadedFile.name uf
                                   ++ lit "' already exists. Select 'Replace existing files' option to overwrite.")])).
  { unfold upload, bind, file_service_get_user_files. simpl.
    rewrite Hc. reflexivity. }
  split; [exact Hone|].
  rewrite for_each_upload_cons. unfold bind at 1. rewrite Hone.
  unfold result, final, trace.
  destruct (for_each rest (upload user_id false) s) as [[r s'] t]. reflexivity.
Qed.

(** C4, as the code has it. When the uploaded file's name does not
    collide, the handler calls [add_file] for it, deleting nothing, and
    shows the success message when [add_file] returned a record and the
    failure message when it returned [None]. *)
Theorem upload_without_collision_adds (user_id : N) (replace : bool)
    (uf : UploadedFile.t) (s : state E) :
  ~ collides (get_user_files (ext s) user_id) uf ->
  trace (upload user_id replace uf) s
  = [call_get_user_files user_id;
     the_add user_id uf;
     upload_report uf
       (fst (add_file (ext s) (UploadedFile.getbuffer uf) (UploadedFile.name uf)
               (UploadedFile.type uf) user_id))]
  /\ ext (final (upload user_id replace uf) s)
     = snd (add_file (ext s) (UploadedFile.getbuffer uf) (UploadedFile.name uf)
              (UploadedFile.type uf) user_id).
Proof.
  intros Hc. apply existsb_no_collision in Hc.
  unfold trace, final, upload, bind, file_service_get_user_files. simpl.
  rewrite Hc. simpl.
  unfold file_service_add_file, with_ext. simpl.
  destruct (add_file _ _ _ _ _) as [[fm|] e]; split; reflexivity.
Qed.

End UploadClaims.

(** C1 fails as written: with two existing files of the uploaded name, the
    second one is never deleted. *)
Lemma upload_replace_leaves_second_namesake :
  ~ deletes_every_colliding_then_adds
      (get_user_files (ext two_namesakes) 1) 1 (Demo.pdf "a")
      (trace (upload 1 true (Demo.pdf "a")) two_namesakes).
Proof.
  intros (before & after & Heq & Hall & _).
  assert (Hin : In (call_delete_file 2) before).
  { apply (Hall (Demo.file 2 "a")); [right; left; reflexivity | reflexivity]. }
  assert (Hin' : In (call_delete_file 2)
                    (trace (upload 1 true (Demo.pdf "a")) two_namesakes)).
  { rewrite Heq. apply in_or_app. now left. }
  vm_compute in Hin'.
  repeat destruct Hin' as [Hin' | Hin']; try discriminate Hin'; exact Hin'.
Qed.

Lemma upload_replace_deletes_first_colliding_witness :
  collides (get_user_files (ext two_namesakes) 1) (Demo.pdf "a")
  /\ exists before f after,
       get_user_files (ext two_namesakes) 1 = before ++ f :: after
       /\ FileModel.name f = UploadedFile.name (Demo.pdf "a")
       /\ (forall g, In g before ->
                     FileModel.name g <> UploadedFile.name (Demo.pdf "a"))
       /\ trace (upload 1 true (Demo.pdf "a")) two_namesakes
          = [call_get_user_files 1;
             call_delete_file (FileModel.id f);
             st_info (lit "Replacing existing file: "
                        ++ UploadedFile.name (Demo.pdf "a"));
             the_add 1 (Demo.pdf "a");
             upload_report (Demo.pdf "a")
               (fst (add_file (delete_file (ext two_namesakes) (FileModel.id f))
                       (UploadedFile.getbuffer (Demo.pdf "a"))
                       (UploadedFile.name (Demo.pdf "a"))
                       (UploadedFile.type (Demo.pdf "a")) 1))].
Proof.
  assert (H : collides (get_user_files (ext two_namesakes) 1) (Demo.pdf "a")).
  { exists (Demo.file 1 "a"). split; [left; reflexivity | reflexivity]. }
  split; [exact H | exact (upload_replace_deletes_first_colliding 1 _ _ H)].
Defined.

Lemma upload_collision_without_replace_skips_witness :
  collides (get_user_files (ext two_namesakes) 1) (Demo.pdf "a")
  /\ upload 1 false (Demo.pdf "a") two_namesakes
     = (Done tt, two_namesakes,
        [call_get_user_files 1;
         st_warning (lit "File 'a' already exists. Select 'Replace existing files' option to overwrite.")]).
Proof.
  assert (H : collides (get_user_files (ext two_namesakes) 1) (Demo.pdf "a")).
  { exists (Demo.file 1 "a"). split; [left; reflexivity | reflexivity]. }
  split; [exact H|].
  exact (proj1 (upload_collision_without_replace_skips 1 _ [Demo.pdf "b"] _ H)).
Defined.

(** C4 fails as written: [add_file] may return [None], and the handler then
    shows the failure message instead of the success message. *)
Lemma upload_refused_shows_no_success :
  ~ collides (get_user_files (ext full_store) 1) (Demo.pdf "a")
  /\ ~ adds_and_shows_success 1 (Demo.pdf "a")
         (trace (upload 1 false (Demo.pdf "a")) full_store).
Proof.
  split.
  - intros (f & [] & _).
  - intros [_ Hin]. vm_compute in Hin.
    repeat destruct Hin as [Hin | Hin]; try discriminate Hin; exact Hin.
Qed.

Lemma upload_without_collision_adds_witness :
  ~ collides (get_user_files (ext full_store) 1) (Demo.pdf "a")
  /\ trace (upload 1 false (Demo.pdf "a")) full_store
     = [call_get_user_files 1;
        the_add 1 (Demo.pdf "a");
        st_error (lit "Failed to upload: a")].
Proof.
  assert (H : ~ collides (get_user_files (ext full_store) 1) (Demo.pdf "a")).
  { intros (f & [] & _). }
  split; [exact H|].
  exact (proj1 (upload_without_collision_adds 1 false _ _ H)).
Defined.

(** ** The LangGraph tab *)

Section Traces.

Context {E : Type}.

Lemma bind_run {A B : Type} (m : M E A) (f : A -> M E B) (s : state E) :
  bind m f s
  = match m s with
    | (Done a, s1, t1) => (result (f a) s1, final (f a) s1, t1 ++ trace (f a) s1)
    | (Raised e, s1, t1) => (Raised e, s1, t1)
    | (Rerun, s1, t1) => (Rerun, s1, t1)
    end.
Proof.
  unfold bind, result, final, trace.
  destruct (m s) as [[[a|e|] s1] t1]; try reflexivity.
  destruct (f a s1) as [[r s2] t2]; reflexivity.
Qed.

(** A property of every event of a trace passes through [bind]. *)
Lemma trace_bind_Forall {A B : Type} (P : event -> Prop)
    (m : M E A) (f : A -> M E B) (s : state E) :
  Forall P (trace m s) ->
  (forall a s1, Forall P (trace (f a) s1)) ->
  Forall P (trace (bind m f) s).
Proof.
  intros Hm Hf. unfold trace in *. rewrite bind_run.
  destruct (m s) as [[[a|e|] s1] t1]; simpl in *; auto.
  apply Forall_app; split; auto. apply Hf.
Qed.

Lemma trace_when_Forall (P : event -> Prop) (b : bool) (m : M E unit)
    (s : state E) :
  Forall P (trace m s) -> Forall P (trace (when b m) s).
Proof. destruct b; simpl; auto. Qed.

Lemma trace_for_each_Forall {A : Type} (P : event -> Prop) (l : list A)
    (body : A -> M E unit) :
  (forall x s, Forall P (trace (body x) s)) ->
  forall s, Forall P (trace (for_each l body) s).
Proof.
  intros Hb. induction l as [|x l IH]; intros s; simpl.
  - constructor.
  - apply trace_bind_Forall; auto.
Qed.

Lemma trace_getitem_Forall {V : Type} (P : event -> Prop) (d : dict V)
    (k : str) (s : state E) :
  Forall P (trace (getitem d k) s).
Proof. unfold getitem. destruct (get d k); constructor. Qed.

Lemma trace_getitems_Forall {V : Type} (P : event -> Prop) (d : dict V)
    (ks : list str) :
  forall s : state E, Forall P (trace (getitems d ks) s).
Proof.
  induction ks as [|k ks IH]; intros s; simpl.
  - constructor.
  - apply trace_bind_Forall; [apply trace_getitem_Forall|].
    intros v s1. apply trace_bind_Forall; [apply IH|].
    intros vs s2. constructor.
Qed.

(** Lookups only read. *)
Lemma getitems_state {V : Type} (d : dict V) (ks : list str) (s : state E) :
  final (getitems d ks) s = s /\ trace (getitems d ks) s = [].
Proof.
  revert s. induction ks as [|k ks IH]; intros s; simpl.
  - split; reflexivity.
  - unfold final, trace in *. rewrite bind_run. unfold getitem.
    destruct (get d k) as [v|]; simpl; [|split; reflexivity].
    unfold final, trace. rewrite bind_run.
    destruct (IH s) as [Hs Ht].
    destruct (getitems d ks s) as [[[vs|e|] s1] t1]; simpl in *; subst;
      split; reflexivity.
Qed.

(** Rendering one history record emits only chat messages and keeps the
    state. *)
Lemma display_result_run (item : HistoryItem.t) (show_question : bool)
    (s : state E) :
  display_result item show_question s
  = (Done tt, s, trace (display_result item show_question) s).
Proof.
  assert (Hev : forall (l : list str) (s : state E),
             for_each l (fun event => emit (chat_message (lit "ai") chat_write event)) s
             = (Done tt, s, map (chat_message (lit "ai") chat_write) l)).
  { induction l as [|x l IH]; intros s0; simpl; [reflexivity|].
    unfold bind, emit. rewrite IH. reflexivity. }
  unfold trace, display_result.
  destruct (startswith (HistoryItem.answer item) (lit "Error"));
    destruct show_question; unfold bind, when, emit, ret; simpl;
    try reflexivity.
  all: rewrite Hev; reflexivity.
Qed.

Lemma display_history_run (h : list HistoryItem.t) (s : state E) :
  for_each h (fun item => display_result item true) s
  = (Done tt, s, trace (for_each h (fun item => display_result item true)) s).
Proof.
  revert s. induction h as [|item h IH]; intros s; simpl; [reflexivity|].
  unfold trace. rewrite bind_run, display_result_run.
  unfold result, final, trace. rewrite IH. reflexivity.
Qed.

End Traces.

Section UploadHistory.

Context {E : Type} {FS : FileService E}.

(** The upload form never touches the chat history. *)
Lemma upload_keeps_history (user_id : N) (replace : bool)
    (uf : UploadedFile.t) (s : state E) :
  result (upload user_id replace uf) s = Done tt
  /\ langgraph_history (final (upload user_id replace uf) s) = langgraph_history s.
Proof.
  assert (Hdel : forall n l (s0 : state E),
             result (delete_existing n l) s0 = Done tt
             /\ langgraph_history (final (delete_existing n l) s0)
                = langgraph_history s0).
  { intros n l s0. induction l as [|g l IH]; simpl; [split; reflexivity|].
    destruct (str_eqb (FileModel.name g) n); [split; reflexivity | exact IH]. }
  unfold result, final, upload, bind, file_service_get_user_files. simpl.
  destruct (existsb _ _ && negb replace); [split; reflexivity|].
  destruct (existsb _ _ && replace); simpl.
  - destruct (Hdel (UploadedFile.name uf) (get_user_files (ext s) user_id) s)
      as [Hr Hh].
    unfold result, final in Hr, Hh.
    destruct (delete_existing _ _ s) as [[r s1] t1]. simpl in Hr, Hh. subst r.
    unfold file_service_add_file.
    destruct (add_file _ _ _ _ _) as [[fm|] e]; simpl; split;
      try reflexivity; exact Hh.
  - unfold file_service_add_file.
    destruct (add_file _ _ _ _ _) as [[fm|] e]; simpl; split; reflexivity.
Qed.

Lemma main_keeps_history (user : option User.t) (form : upload_form)
    (s : state E) :
  langgraph_history (final (main user form) s) = langgraph_history s.
Proof.
  unfold main. destruct user as [u|]; [|reflexivity].
  destruct (submit_button form && truthy (uploaded_files form)); [|reflexivity].
  cbn [when]. generalize (uploaded_files form) as l. intros l. revert s.
  induction l as [|uf l IH]; intros s; [reflexivity|].
  unfold final. rewrite for_each_upload_cons, bind_run.
  destruct (upload_keeps_history (User.user_id u) (replace_existing form) uf s)
    as [Hr Hh].
  unfold result, final in Hr, Hh.
  destruct (upload _ _ uf s) as [[r s1] t1]. simpl in Hr, Hh. subst r. simpl.
  rewrite <- Hh. apply IH.
Qed.

End UploadHistory.

Section LangGraphFacts.

Context {E : Type} {FS : FileService E} {LS : LinkService E} {RG : Rag E}.

Lemma init_history_run (s : state E) :
  init_history s
  = (Done tt, {| ext := ext s; langgraph_history := Some (history_of s) |}, []).
Proof.
  unfold init_history, history_of, with_history.
  destruct s as [e [h|]]; reflexivity.
Qed.

Lemma select_files_final (self : LangGraphUI) (user : User.t)
    (names : list str) (s : state E) :
  final (select_files self user names) s = s.
Proof.
  unfold final, select_files.
  destruct (file_service self); [|reflexivity].
  rewrite bind_run. unfold file_service_get_user_files. simpl.
  destruct (truthy (get_user_files (ext s) (User.user_id user))); simpl;
    [|reflexivity].
  unfold final. rewrite bind_run.
  match goal with
  | |- context [getitems ?d ?ks s] =>
      destruct (getitems_state d ks s) as [Hs _]
  end.
  unfold final in Hs.
  destruct (getitems _ _ s) as [[[vs|e|] s1] t1]; simpl in *; subst;
    try reflexivity.
  destruct (truthy vs); reflexivity.
Qed.

Lemma select_links_final (self : LangGraphUI) (user : User.t)
    (urls : list str) (s : state E) :
  final (select_links self user urls) s = s.
Proof.
  unfold final, select_links.
  destruct (link_service self); [|reflexivity].
  rewrite bind_run. unfold link_service_get_user_links. simpl.
  destruct (truthy (get_user_links (ext s) (User.user_id user))); simpl;
    [|reflexivity].
  unfold final. rewrite bind_run.
  match goal with
  | |- context [getitems ?d ?ks s] =>
      destruct (getitems_state d ks s) as [Hs _]
  end.
  unfold final in Hs.
  destruct (getitems _ _ s) as [[[vs|e|] s1] t1]; simpl in *; subst;
    try reflexivity.
  destruct (truthy vs); reflexivity.
Qed.

(** The build-index handler never asks for a rerun and leaves the session
    alone, whether it returns or lets an exception through. *)
Lemma build_index_handler_done (sf : list FileModel.t) (sl : list LinkModel.t)
    (s : state E) :
  result (build_index_handler sf sl) s <> Rerun
  /\ langgraph_history (final (build_index_handler sf sl) s) = langgraph_history s.
Proof.
  unfold result, final, build_index_handler.
  destruct (negb (truthy sf) && negb (truthy sl)); [split; [discriminate | reflexivity]|].
  unfold try_except, bind, call, emit.
  destruct (vectorize (ext s) sf sl) as [[x|[|]] e];
    try destruct (is_Exception x); split; (discriminate || reflexivity).
Qed.

Lemma query_handler_run (sf : list FileModel.t) (sl : list LinkModel.t)
    (prompt : str) (s : state E) :
  query_handler sf sl prompt s
  = match invoke (ext s) (graph_inputs prompt (get_retriever_id (ext s) sf sl)) with
    | (inl x, e) => (Raised x, with_ext s e, query_prefix sf sl prompt (ext s))
    | (inr final_state, e) =>
        match get final_state (lit "generation") with
        | None => (Raised (KeyError (lit "generation")), with_ext s e,
                   query_prefix sf sl prompt (ext s))
        | Some generation =>
            match langgraph_history s with
            | None => (Raised (AttributeError (lit "langgraph_history")),
                       with_ext s e, query_prefix sf sl prompt (ext s))
            | Some h =>
                (Done tt,
                 {| ext := e;
                    langgraph_history := Some (h ++ [result_item prompt generation]) |},
                 query_prefix sf sl prompt (ext s) ++ [answer_message generation])
            end
        end
    end.
Proof.
  unfold query_handler, query_prefix, answer_message, display_result,
    history_append, get_history, set_history, getitem, call, when, bind,
    emit, ret, raise, with_history, with_ext, result_item.
  destruct (negb (truthy sf) && negb (truthy sl)); simpl;
    destruct (invoke (ext s) _) as [[x|final_state] e]; simpl; try reflexivity;
    destruct (get final_state (lit "generation")) as [g|]; simpl; try reflexivity;
    destruct (langgraph_history s) as [h|]; simpl; try reflexivity;
    destruct (startswith g (lit "Error")); reflexivity.
Qed.

Lemma query_handler_history (sf : list FileModel.t) (sl : list LinkModel.t)
    (prompt : str) (s : state E) (h : list HistoryItem.t) :
  langgraph_history s = Some h ->
  langgraph_history (final (query_handler sf sl prompt) s) = Some h
  \/ (result (query_handler sf sl prompt) s = Done tt
      /\ exists item,
           langgraph_history (final (query_handler sf sl prompt) s)
           = Some (h ++ [item])).
Proof.
  intros Hh. unfold result, final. rewrite query_handler_run.
  destruct (invoke (ext s) _) as [[x|final_state] e]; simpl; [left; exact Hh|].
  destruct (get final_state (lit "generation")) as [g|]; simpl; [|left; exact Hh].
  rewrite Hh. simpl. right. split; [reflexivity|].
  eexists. reflexivity.
Qed.

Lemma download_and_clear_run (clear : bool) (s : state E)
    (h : list HistoryItem.t) :
  langgraph_history s = Some h ->
  download_and_clear clear s
  = if truthy h then
      let button :=
        st_download_button
          {| label := lit "Download History";
             key := lit "rag_chat_history_download";
             data := Json.dumps (Json.of_history h);
             file_name := lit "rag_chat_history.json";
             mime := lit "application/json" |} in
      if clear then (Rerun, with_history s [], [button; st_rerun])
      else (Done tt, s, [button])
    else (Done tt, s, []).
Proof.
  intros Hh. unfold download_and_clear, bind, get_history. rewrite Hh.
  destruct (truthy h); [|reflexivity].
  destruct clear; reflexivity.
Qed.

Lemma getitems_no_rerun {V : Type} (d : dict V) (ks : list str) (s : state E) :
  result (getitems d ks) s <> Rerun.
Proof.
  revert s. induction ks as [|k ks IH]; intros s; simpl; [discriminate|].
  unfold result in *. rewrite bind_run. unfold getitem.
  destruct (get d k) as [v|]; simpl; [|discriminate].
  unfold result. rewrite bind_run.
  destruct (getitems_state d ks s) as [Hs _]. unfold final in Hs.
  specialize (IH s).
  destruct (getitems d ks s) as [[[vs|e|] s1] t1]; simpl in *;
    [discriminate | discriminate | exact IH].
Qed.

Lemma select_files_no_rerun (self : LangGraphUI) (user : User.t)
    (names : list str) (s : state E) :
  result (select_files self user names) s <> Rerun.
Proof.
  unfold result, select_files.
  destruct (file_service self); [|discriminate].
  rewrite bind_run. unfold file_service_get_user_files. simpl.
  destruct (truthy (get_user_files (ext s) (User.user_id user))); simpl;
    [|discriminate].
  unfold result. rewrite bind_run.
  match goal with
  | |- context [getitems ?d ?ks s] =>
      pose proof (getitems_no_rerun d ks s) as Hn
  end.
  unfold result in Hn.
  destruct (getitems _ _ s) as [[[vs|e|] s1] t1]; simpl in *;
    [|discriminate | exact Hn].
  destruct (truthy vs); discriminate.
Qed.

Lemma select_links_no_rerun (self : LangGraphUI) (user : User.t)
    (urls : list str) (s : state E) :
  result (select_links self user urls) s <> Rerun.
Proof.
  unfold result, select_links.
  destruct (link_service self); [|discriminate].
  rewrite bind_run. unfold link_service_get_user_links. simpl.
  destruct (truthy (get_user_links (ext s) (User.user_id user))); simpl;
    [|discriminate].
  unfold result. rewrite bind_run.
  match goal with
  | |- context [getitems ?d ?ks s] =>
      pose proof (getitems_no_rerun d ks s) as Hn
  end.
  unfold result in Hn.
  destruct (getitems _ _ s) as [[[vs|e|] s1] t1]; simpl in *;
    [|discriminate | exact Hn].
  destruct (truthy vs); discriminate.
Qed.

Lemma query_handler_no_rerun (sf : list FileModel.t) (sl : list LinkModel.t)
    (prompt : str) (s : state E) :
  result (query_handler sf sl prompt) s <> Rerun.
Proof.
  unfold result. rewrite query_handler_run.
  destruct (invoke (ext s) _) as [[x|final_state] e]; simpl; [discriminate|].
  destruct (get final_state (lit "generation")); simpl; [|discriminate].
  destruct (langgraph_history s); discriminate.
Qed.

End LangGraphFacts.

Section LangGraphClaims.

Context {E : Type} {FS : FileService E} {LS : LinkService E} {RG : Rag E}.

(** C8. An entry whose answer begins with the literal [Error] is rendered
    by the error call and by nothing else; any other entry is rendered by
    the plain write of its answer followed by the writes of its events; no
    entry takes both paths. *)
Theorem display_result_error_or_normal (item : HistoryItem.t)
    (show_question : bool) (s : state E) :
  let t := trace (display_result item show_question) s in
  let asked :=
    if show_question
    then [chat_message (lit "user") chat_write (HistoryItem.question item)]
    else [] in
  ((exists rest, HistoryItem.answer item = lit "Error" ++ rest)
   <-> t = asked ++ [chat_message (lit "ai") chat_error (HistoryItem.answer item)])
  /\ (~ (exists rest, HistoryItem.answer item = lit "Error" ++ rest)
      <-> t = asked
              ++ chat_message (lit "ai") chat_write (HistoryItem.answer item)
                 :: map (chat_message (lit "ai") chat_write)
                        (HistoryItem.events item))
  /\ (error_path t <-> exists rest, HistoryItem.answer item = lit "Error" ++ rest)
  /\ (normal_path t <-> ~ exists rest, HistoryItem.answer item = lit "Error" ++ rest)
  /\ ~ (error_path t /\ normal_path t).
Proof.
  assert (Hev : forall (l : list str) (s0 : state E),
             for_each l (fun event => emit (chat_message (lit "ai") chat_write event)) s0
             = (Done tt, s0, map (chat_message (lit "ai") chat_write) l)).
  { induction l as [|x l IH]; intros s0; simpl; [reflexivity|].
    unfold bind, emit. rewrite IH. reflexivity. }
  assert (Hno : forall l body,
             ~ In (chat_message (lit "ai") chat_error body)
                  (map (chat_message (lit "ai") chat_write) l)).
  { intros l body Hin. apply in_map_iff in Hin.
    destruct Hin as (x & Hx & _). discriminate Hx. }
  intros t asked.
  assert (Ht : t = asked
                   ++ (if startswith (HistoryItem.answer item) (lit "Error")
                       then [chat_message (lit "ai") chat_error (HistoryItem.answer item)]
                       else chat_message (lit "ai") chat_write (HistoryItem.answer item)
                            :: map (chat_message (lit "ai") chat_write)
                                   (HistoryItem.events item))).
  { subst t asked. unfold trace, display_result.
    destruct (startswith (HistoryItem.answer item) (lit "Error"));
      destruct show_question; unfold bind, when, emit, ret; simpl;
      try reflexivity.
    all: rewrite Hev; reflexivity. }
  assert (Hasked_err : forall body, ~ In (chat_message (lit "ai") chat_error body) asked).
  { intros body. subst asked. destruct show_question; simpl; [|tauto].
    intros [H|[]]; discriminate H. }
  assert (Hasked_norm : forall body, ~ In (chat_message (lit "ai") chat_write body) asked).
  { intros body. subst asked. destruct show_question; simpl; [|tauto].
    intros [H|[]]. apply (f_equal (fun ev => match ev with
                                              | chat_message role _ _ => role
                                              | _ => []
                                              end)) in H.
    vm_compute in H. discriminate H. }
  rewrite <- startswith_prefix.
  destruct (startswith (HistoryItem.answer item) (lit "Error")) eqn:Hstart.
  - assert (Herr : error_path t).
    { exists (HistoryItem.answer item). rewrite Ht. apply in_or_app.
      right; left; reflexivity. }
    assert (Hnorm : ~ normal_path t).
    { intros [body Hin]. rewrite Ht in Hin. apply in_app_or in Hin.
      destruct Hin as [Hin|[Hin|[]]]; [exact (Hasked_norm _ Hin) | discriminate Hin]. }
    split; [split; [intros _; exact Ht | reflexivity]|].
    split; [split; [intros H; exfalso; apply H; reflexivity|]|].
    { intros Heq. exfalso. rewrite Ht in Heq. apply app_inv_head in Heq.
      discriminate Heq. }
    split; [split; [reflexivity | intros _; exact Herr]|].
    split; [split; [intros H; contradiction
                   | intros H; exfalso; apply H; reflexivity]|].
    intros [_ H]. contradiction.
  - assert (Hnorm : normal_path t).
    { exists (HistoryItem.answer item). rewrite Ht. apply in_or_app.
      right; left; reflexivity. }
    assert (Herr : ~ error_path t).
    { intros [body Hin]. rewrite Ht in Hin. apply in_app_or in Hin.
      destruct Hin as [Hin|[Hin|Hin]];
        [exact (Hasked_err _ Hin) | discriminate Hin | exact (Hno _ _ Hin)]. }
    split; [split; [discriminate|]|].
    { intros Heq. exfalso. rewrite Ht in Heq. apply app_inv_head in Heq.
      discriminate Heq. }
    split; [split; [intros _; exact Ht | intros _; discriminate]|].
    split; [split; [intros H; contradiction | discriminate]|].
    split; [split; [intros _; discriminate | intros _; exact Hnorm]|].
    intros [H _]. contradiction.
Qed.

(** C9, as the code has it. What [vectorize] raises while the index is
    built is caught where the call is made exactly when it is an instance of
    [Exception]: it is then shown as an error banner carrying [str(e)], and
    the build-index handler returns normally. Anything else that is raised
    leaves the handler, and no banner is shown. *)
Theorem vectorize_exception_is_caught (sf : list FileModel.t)
    (sl : list LinkModel.t) (s : state E) (x : exception) (e : E) :
  sf <> [] \/ sl <> [] ->
  vectorize (ext s) sf sl = (inl x, e) ->
  build_index_handler sf sl s
  = if is_Exception x then
      (Done tt, with_ext s e,
       [call_vectorize sf sl;
        st_error (lit "Error initializing vector store: " ++ exc_str x)])
    else (Raised x, with_ext s e, [call_vectorize sf sl]).
Proof.
  intros Hsel Hv. unfold build_index_handler.
  assert (Hb : negb (truthy sf) && negb (truthy sl) = false).
  { destruct sf, sl; simpl; try reflexivity. destruct Hsel; congruence. }
  rewrite Hb. unfold try_except, bind, call, emit. rewrite Hv.
  destruct (is_Exception x); reflexivity.
Qed.

(** A postcondition on outcome and final state passes through [bind]. *)
Lemma bind_post {A B : Type} (m : M E A) (f : A -> M E B) (s : state E)
    (Q : outcome B -> state E -> Prop) :
  match result m s with
  | Done a => Q (result (f a) (final m s)) (final (f a) (final m s))
  | Raised e => Q (Raised e) (final m s)
  | Rerun => Q Rerun (final m s)
  end ->
  Q (result (bind m f) s) (final (bind m f) s).
Proof.
  unfold result, final. rewrite bind_run.
  destruct (m s) as [[[a|e|] s1] t1]; simpl; auto.
Qed.

Lemma when_build_index_done (b : bool) (sf : list FileModel.t)
    (sl : list LinkModel.t) (s : state E) :
  result (when b (build_index_handler sf sl)) s <> Rerun
  /\ langgraph_history (final (when b (build_index_handler sf sl)) s)
     = langgraph_history s.
Proof.
  destruct b; simpl;
    [apply build_index_handler_done | split; [discriminate | reflexivity]].
Qed.

Lemma when_display_history_done (b : bool) (h : list HistoryItem.t)
    (s : state E) :
  result (when b (for_each h (fun item => display_result item true))) s = Done tt
  /\ final (when b (for_each h (fun item => display_result item true))) s = s.
Proof.
  destruct b; simpl; [|split; reflexivity].
  unfold result, final. rewrite display_history_run. split; reflexivity.
Qed.

(** The chat input either leaves the history or, returning normally,
    appends one record; it never asks for a rerun. *)
Lemma chat_stage_history (sf : list FileModel.t) (sl : list LinkModel.t)
    (input : option str) (s : state E) (h : list HistoryItem.t) :
  langgraph_history s = Some h ->
  let m := match input with
           | Some prompt => when (truthy prompt) (query_handler sf sl prompt)
           | None => ret tt
           end in
  result m s <> Rerun
  /\ (langgraph_history (final m s) = Some h
      \/ (result m s = Done tt
          /\ exists item, langgraph_history (final m s) = Some (h ++ [item]))).
Proof.
  intros Hh m. subst m.
  destruct input as [prompt|]; [|split; [discriminate | left; exact Hh]].
  destruct (truthy prompt); simpl; [|split; [discriminate | left; exact Hh]].
  split; [apply query_handler_no_rerun | apply query_handler_history; exact Hh].
Qed.

(** C6. The upload form leaves the chat history as it was. One rerun of
    the tab leaves it as it was or appends one record at its end; the only
    other change is the clear button, which empties it and asks for a
    rerun. A pressed clear button empties the history unless the script
    raised before reaching it. *)
Theorem history_append_only_until_clear (self : LangGraphUI) (r : rerun)
    (s : state E) :
  let h := history_of s in
  let h' := history_of (final (render_langgraph_section self r) s) in
  (forall user form, history_of (final (main user form) s) = h)
  /\ (h' = h \/ (exists item, h' = h ++ [item]) \/ (clear_history r = true /\ h' = []))
  /\ (result (render_langgraph_section self r) s = Rerun ->
      clear_history r = true /\ h' = [])
  /\ (clear_history r = true -> current_user r <> None ->
      openai_api_key r = true ->
      (exists e, result (render_langgraph_section self r) s = Raised e)
      \/ h' = []).
Proof.
  intros h h'.
  split.
  { intros user form. subst h. unfold history_of.
    now rewrite main_keeps_history. }
  subst h'.
  set (Q := fun (res : outcome unit) (s' : state E) =>
              (history_of s' = h
               \/ (exists item, history_of s' = h ++ [item])
               \/ (clear_history r = true /\ history_of s' = []))
              /\ (res = Rerun -> clear_history r = true /\ history_of s' = [])
              /\ (clear_history r = true -> current_user r <> None ->
                  openai_api_key r = true ->
                  (exists e, res = Raised e) \/ history_of s' = [])).
  change (Q (result (render_langgraph_section self r) s)
            (final (render_langgraph_section self r) s)).
  assert (Hkeep : forall e s', history_of s' = h -> Q (Raised e) s').
  { intros e s' Hs'. unfold Q. split; [left; exact Hs'|].
    split; [discriminate|]. intros _ _ _. left. exists e. reflexivity. }
  unfold render_langgraph_section.
  destruct (current_user r) as [user|] eqn:Huser.
  2:{ unfold Q, result, final, emit. simpl. split; [left; reflexivity|].
      split; [discriminate|]. intros _ Hn. now contradiction Hn. }
  destruct (openai_api_key r) eqn:Hkey; simpl.
  2:{ unfold Q, result, final, emit. simpl. split; [left; reflexivity|].
      split; [discriminate|]. intros _ _ Hn. discriminate Hn. }
  apply (bind_post _ _ _ Q).
  unfold result at 1, final. rewrite init_history_run. simpl.
  set (s0 := {| ext := ext s; langgraph_history := Some (history_of s) |}).
  assert (Hs0 : langgraph_history s0 = Some h) by reflexivity.
  clearbody s0.
  assert (Hh0 : forall s' : state E,
             langgraph_history s' = Some h -> history_of s' = h).
  { intros s' Hs'. unfold history_of. now rewrite Hs'. }
  (* the two columns only read *)
  apply (bind_post _ _ _ Q). rewrite select_files_final.
  pose proof (select_files_no_rerun self user (selected_file_names r) s0) as Hnr.
  destruct (result (select_files self user (selected_file_names r)) s0)
    as [sf|e|]; [clear Hnr | now apply Hkeep, Hh0 | now contradiction Hnr].
  apply (bind_post _ _ _ Q). rewrite select_links_final.
  pose proof (select_links_no_rerun self user (selected_link_urls r) s0) as Hnr.
  destruct (result (select_links self user (selected_link_urls r)) s0)
    as [sl|e|]; [clear Hnr | now apply Hkeep, Hh0 | now contradiction Hnr].
  (* the build-index button *)
  apply (bind_post _ _ _ Q).
  destruct (when_build_index_done (build_index r) sf sl s0) as [Hnr Hfin].
  rewrite Hs0 in Hfin.
  destruct (result (when (build_index r) (build_index_handler sf sl)) s0)
    as [[]|e|]; [clear Hnr | now apply Hkeep, Hh0 | now contradiction Hnr].
  generalize dependent (final (when (build_index r) (build_index_handler sf sl)) s0).
  clear s0 Hs0. intros s1 Hs1.
  (* replaying the history *)
  apply (bind_post _ _ _ Q).
  unfold result at 1, final at 1 2 3, get_history. rewrite Hs1. simpl.
  apply (bind_post _ _ _ Q).
  destruct (when_display_history_done (0 <? List.length h)%nat h s1) as [Hres Hfin].
  rewrite Hres, Hfin. clear Hres Hfin.
  (* the chat input *)
  apply (bind_post _ _ _ Q).
  destruct (chat_stage_history sf sl (chat_input r) s1 h Hs1) as [Hnr Hcases].
  simpl in Hnr, Hcases.
  set (chat := match chat_input r with
               | Some prompt => when (truthy prompt) (query_handler sf sl prompt)
               | None => ret tt
               end) in *.
  assert (Hend : forall (s2 : state E) h2,
             langgraph_history s2 = Some h2 ->
             (h2 = h \/ exists item, h2 = h ++ [item]) ->
             Q (result (download_and_clear (clear_history r)) s2)
               (final (download_and_clear (clear_history r)) s2)).
  { intros s2 h2 Hs2 Hh2. unfold result, final.
    rewrite (download_and_clear_run _ _ _ Hs2).
    assert (Hhist : history_of s2 = h2) by (unfold history_of; now rewrite Hs2).
    destruct (truthy h2) eqn:Htruthy.
    - destruct (clear_history r) eqn:Hclear; simpl; unfold Q.
      + split; [right; right; split; reflexivity|].
        split; [intros _; split; reflexivity|]. intros _ _ _. now right.
      + rewrite Hhist. split; [destruct Hh2; [left | right; left]; assumption|].
        split; [discriminate|]. intros Hc. discriminate Hc.
    - simpl. unfold Q. rewrite Hhist.
      split; [destruct Hh2; [left | right; left]; assumption|].
      split; [discriminate|]. intros _ _ _. right.
      destruct h2; [reflexivity | discriminate Htruthy]. }
  destruct Hcases as [Hsame | [Hdone [item Happ]]].
  - destruct (result chat s1) as [[]|e|];
      [| now apply Hkeep, Hh0 | now contradiction Hnr].
    apply (Hend _ h Hsame). now left.
  - rewrite Hdone. apply (Hend _ _ Happ). right. now exists item.
Qed.

Lemma select_files_trace (b : bool) (self : LangGraphUI) (user : User.t)
    (names : list str) (s : state E) :
  Forall (vectorize_only_if b) (trace (select_files self user names) s).
Proof.
  unfold select_files. destruct (file_service self).
  - apply trace_bind_Forall; [repeat constructor|]. intros fs s1.
    destruct (negb (truthy fs)).
    + apply trace_bind_Forall; [repeat constructor|]. intros; constructor.
    + apply trace_bind_Forall; [apply trace_getitems_Forall|]. intros vs s2.
      apply trace_bind_Forall; [|intros; constructor].
      apply trace_when_Forall. repeat constructor.
  - apply trace_bind_Forall; [repeat constructor|]. intros; constructor.
Qed.

Lemma select_links_trace (b : bool) (self : LangGraphUI) (user : User.t)
    (urls : list str) (s : state E) :
  Forall (vectorize_only_if b) (trace (select_links self user urls) s).
Proof.
  unfold select_links. destruct (link_service self).
  - apply trace_bind_Forall; [repeat constructor|]. intros ls s1.
    destruct (negb (truthy ls)).
    + apply trace_bind_Forall; [repeat constructor|]. intros; constructor.
    + apply trace_bind_Forall; [apply trace_getitems_Forall|]. intros vs s2.
      apply trace_bind_Forall; [|intros; constructor].
      apply trace_when_Forall. repeat constructor.
  - apply trace_bind_Forall; [repeat constructor|]. intros; constructor.
Qed.

Lemma build_index_handler_trace (sf : list FileModel.t) (sl : list LinkModel.t)
    (s : state E) :
  Forall (vectorize_only_if true) (trace (build_index_handler sf sl) s).
Proof.
  unfold trace, build_index_handler.
  destruct (negb (truthy sf) && negb (truthy sl)) eqn:Hsel;
    [repeat constructor|].
  assert (Hne : sf <> [] \/ sl <> []).
  { destruct sf; [|left; discriminate]. destruct sl; [|right; discriminate].
    discriminate Hsel. }
  unfold try_except, bind, call, emit.
  destruct (vectorize (ext s) sf sl) as [[x|[|]] e];
    try destruct (is_Exception x); cbn [fst snd app];
    (constructor; [split; [reflexivity | exact Hne] | repeat constructor]).
Qed.

Lemma display_result_trace (b : bool) (item : HistoryItem.t) (show : bool)
    (s : state E) :
  Forall (vectorize_only_if b) (trace (display_result item show) s).
Proof.
  unfold display_result.
  apply trace_bind_Forall; [destruct show; repeat constructor|]. intros _ s1.
  destruct (startswith _ _); [repeat constructor|].
  apply trace_bind_Forall; [repeat constructor|]. intros _ s2.
  apply trace_for_each_Forall. intros; repeat constructor.
Qed.

Lemma query_handler_trace (b : bool) (sf : list FileModel.t)
    (sl : list LinkModel.t) (prompt : str) (s : state E) :
  Forall (vectorize_only_if b) (trace (query_handler sf sl prompt) s).
Proof.
  assert (Hp : Forall (vectorize_only_if b) (query_prefix sf sl prompt (ext s))).
  { unfold query_prefix. destruct (negb (truthy sf) && negb (truthy sl));
      repeat constructor. }
  unfold trace. rewrite query_handler_run.
  destruct (invoke (ext s) _) as [[x|final_state] e]; cbn [snd]; [exact Hp|].
  destruct (get final_state (lit "generation")) as [g|]; cbn [snd]; [|exact Hp].
  destruct (langgraph_history s); cbn [snd]; [|exact Hp].
  apply Forall_app. split; [exact Hp|].
  unfold answer_message. destruct (startswith g _); repeat constructor.
Qed.

Lemma download_and_clear_trace (b clear : bool) (s : state E) :
  Forall (vectorize_only_if b) (trace (download_and_clear clear) s).
Proof.
  unfold trace, download_and_clear, bind, get_history.
  destruct (langgraph_history s) as [h|]; [|constructor].
  destruct (truthy h); [|constructor].
  destruct clear; repeat constructor.
Qed.

(** C10. Pressed with no file and no link selected, the build-index button
    shows the warning and does not call [vectorize]; whenever a rerun of the
    tab calls [vectorize], the button was pressed and the call carries at
    least one selected file or link. *)
Theorem vectorize_needs_a_selection :
  (forall s : state E,
      build_index_handler [] [] s
      = (Done tt, s,
         [st_warning (lit "Please select at least one file or link to build the index.")]))
  /\ (forall (self : LangGraphUI) (r : rerun) (s : state E) sf sl,
         In (call_vectorize sf sl) (trace (render_langgraph_section self r) s) ->
         build_index r = true /\ (sf <> [] \/ sl <> [])).
Proof.
  split; [reflexivity|]. intros self r s sf sl Hin.
  assert (Hall : Forall (vectorize_only_if (build_index r))
                        (trace (render_langgraph_section self r) s)).
  { unfold render_langgraph_section.
    destruct (current_user r) as [user|]; [|repeat constructor].
    destruct (negb (openai_api_key r)); [repeat constructor|].
    apply trace_bind_Forall.
    { unfold trace. rewrite init_history_run. constructor. }
    intros _ s0. apply trace_bind_Forall; [apply select_files_trace|].
    intros sf0 s1. apply trace_bind_Forall; [apply select_links_trace|].
    intros sl0 s2. apply trace_bind_Forall.
    { destruct (build_index r); [apply build_index_handler_trace | constructor]. }
    intros _ s3. apply trace_bind_Forall.
    { unfold trace, get_history. destruct (langgraph_history s3); constructor. }
    intros h s4. apply trace_bind_Forall.
    { apply trace_when_Forall, trace_for_each_Forall.
      intros; apply display_result_trace. }
    intros _ s5. apply trace_bind_Forall; [|intros; apply download_and_clear_trace].
    destruct (chat_input r) as [prompt|]; [|constructor].
    apply trace_when_Forall, query_handler_trace. }
  rewrite Forall_forall in Hall. exact (Hall _ Hin).
Qed.

(** C5. A submitted prompt makes the handler invoke the graph once, with
    the dict of [question], the prompt, and [retriever_id], the value of
    [get_retriever_id] on the selection; when the invocation returns a
    state with a [generation], the record of the prompt, that generation and
    no events is appended to the session history and then displayed. *)
Theorem query_invokes_graph_and_appends (sf : list FileModel.t)
    (sl : list LinkModel.t) (prompt : str) (s : state E)
    (h : list HistoryItem.t) (final_state : dict str) (e : E)
    (generation : str) :
  langgraph_history s = Some h ->
  invoke (ext s) [(lit "question", prompt);
                  (lit "retriever_id", get_retriever_id (ext s) sf sl)]
  = (inr final_state, e) ->
  get final_state (lit "generation") = Some generation ->
  query_handler sf sl prompt s
  = (Done tt,
     {| ext := e;
        langgraph_history :=
          Some (h ++ [{| HistoryItem.question := prompt;
                         HistoryItem.answer := generation;
                         HistoryItem.events := [] |}]) |},
     chat_message (lit "user") chat_write prompt
     :: (if negb (truthy sf) && negb (truthy sl)
         then [chat_message (lit "AI") chat_warning
                 (lit "You haven't selected any files or links. LangGraph will use default sources or web search.")]
         else [])
     ++ [call_get_retriever_id sf sl;
         call_get_graph;
         call_invoke [(lit "question", prompt);
                      (lit "retriever_id", get_retriever_id (ext s) sf sl)];
         answer_message generation]).
Proof.
  intros Hh Hinv Hgen. rewrite query_handler_run.
  unfold graph_inputs. rewrite Hinv, Hgen, Hh.
  unfold query_prefix, result_item, graph_inputs.
  destruct (negb (truthy sf) && negb (truthy sl)); reflexivity.
Qed.

(** C2, as the code has it. When the graph invocation raises, the handler
    neither catches nor displays anything: the exception leaves the handler,
    the invocation is the last call made (no retry), and the history holds
    no record of the prompt. *)
Theorem query_failure_propagates (sf : list FileModel.t)
    (sl : list LinkModel.t) (prompt : str) (s : state E)
    (x : exception) (e : E) :
  invoke (ext s) [(lit "question", prompt);
                  (lit "retriever_id", get_retriever_id (ext s) sf sl)]
  = (inl x, e) ->
  query_handler sf sl prompt s
  = (Raised x,
     {| ext := e; langgraph_history := langgraph_history s |},
     chat_message (lit "user") chat_write prompt
     :: (if negb (truthy sf) && negb (truthy sl)
         then [chat_message (lit "AI") chat_warning
                 (lit "You haven't selected any files or links. LangGraph will use default sources or web search.")]
         else [])
     ++ [call_get_retriever_id sf sl;
         call_get_graph;
         call_invoke [(lit "question", prompt);
                      (lit "retriever_id", get_retriever_id (ext s) sf sl)]])
  /\ ~ failure_displayed (trace (query_handler sf sl prompt) s).
Proof.
  intros Hinv.
  assert (Hrun : query_handler sf sl prompt s
                 = (Raised x, with_ext s e, query_prefix sf sl prompt (ext s))).
  { rewrite query_handler_run. unfold graph_inputs. rewrite Hinv. reflexivity. }
  split; [exact Hrun|].
  unfold trace. rewrite Hrun. unfold failure_displayed, query_prefix. simpl.
  destruct (negb (truthy sf) && negb (truthy sl)); simpl; discriminate.
Qed.

End LangGraphClaims.

(** C2 fails as written: when the graph raises, the exception leaves
    [render_langgraph_section] and nothing is displayed after the
    invocation. *)
Lemma graph_failure_is_not_displayed :
  result (render_langgraph_section Demo.ui (Demo.ask "hello"))
         (Demo.session Demo.broken_graph None)
  = Raised (Exception (lit "boom"))
  /\ ~ failure_displayed
         (trace (render_langgraph_section Demo.ui (Demo.ask "hello"))
                (Demo.session Demo.broken_graph None)).
Proof.
  split; [reflexivity|]. intros H. vm_compute in H. discriminate H.
Qed.

Lemma query_failure_propagates_witness :
  invoke (ext (Demo.session Demo.broken_graph (Some [])))
         [(lit "question", lit "hello");
          (lit "retriever_id",
           get_retriever_id (ext (Demo.session Demo.broken_graph (Some []))) [] [])]
  = (inl (Exception (lit "boom")), Demo.broken_graph)
  /\ result (query_handler [] [] (lit "hello"))
            (Demo.session Demo.broken_graph (Some []))
     = Raised (Exception (lit "boom")).
Proof.
  assert (H : invoke (ext (Demo.session Demo.broken_graph (Some [])))
                [(lit "question", lit "hello");
                 (lit "retriever_id",
                  get_retriever_id
                    (ext (Demo.session Demo.broken_graph (Some []))) [] [])]
              = (inl (Exception (lit "boom")), Demo.broken_graph))
    by reflexivity.
  split; [exact H|].
  unfold result.
  rewrite (proj1 (query_failure_propagates [] [] (lit "hello")
                    (Demo.session Demo.broken_graph (Some []))
                    (Exception (lit "boom")) Demo.broken_graph H)).
  reflexivity.
Defined.

Lemma query_invokes_graph_and_appends_witness :
  langgraph_history (Demo.session Demo.one_file (Some [])) = Some []
  /\ get [(lit "generation", lit "42")] (lit "generation") = Some (lit "42")
  /\ final (query_handler [Demo.file 1 "a"] [] (lit "hello"))
           (Demo.session Demo.one_file (Some []))
     = Demo.session Demo.one_file (Some Demo.asked_once).
Proof.
  assert (Hh : langgraph_history (Demo.session Demo.one_file (Some [])) = Some [])
    by reflexivity.
  assert (Hg : get [(lit "generation", lit "42")] (lit "generation")
               = Some (lit "42")) by reflexivity.
  assert (Hi : invoke (ext (Demo.session Demo.one_file (Some [])))
                 [(lit "question", lit "hello");
                  (lit "retriever_id",
                   get_retriever_id (ext (Demo.session Demo.one_file (Some [])))
                     [Demo.file 1 "a"] [])]
               = (inr [(lit "generation", lit "42")], Demo.one_file))
    by reflexivity.
  split; [exact Hh|]. split; [exact Hg|].
  unfold final.
  rewrite (query_invokes_graph_and_appends [Demo.file 1 "a"] [] (lit "hello")
             (Demo.session Demo.one_file (Some [])) []
             [(lit "generation", lit "42")] Demo.one_file (lit "42")
             Hh Hi Hg).
  reflexivity.
Defined.

(** C9 fails as written: [except Exception] does not catch a
    [KeyboardInterrupt] that [vectorize] raises. It leaves the handler, and
    no banner is shown. *)
Lemma vectorize_interrupt_is_not_caught :
  vectorize (ext (Demo.session Demo.interrupted None)) [Demo.file 1 "a"] []
  = (inl (BaseException []), Demo.interrupted)
  /\ result (build_index_handler [Demo.file 1 "a"] [])
            (Demo.session Demo.interrupted None)
     = Raised (BaseException [])
  /\ ~ caught_and_shown [Demo.file 1 "a"] [] (Demo.session Demo.interrupted None).
Proof.
  split; [reflexivity|]. split; [reflexivity|].
  intros [H _]. discriminate H.
Qed.

Lemma vectorize_exception_is_caught_witness :
  ([Demo.file 1 "a"] <> [] \/ @nil LinkModel.t <> [])
  /\ build_index_handler [Demo.file 1 "a"] [] (Demo.session Demo.missing_key None)
     = (Done tt, Demo.session Demo.missing_key None,
        [call_vectorize [Demo.file 1 "a"] [];
         st_error (lit "Error initializing vector store: "
                     ++ [34] ++ lit "it's" ++ [34])]).
Proof.
  assert (H : [Demo.file 1 "a"] <> [] \/ @nil LinkModel.t <> [])
    by (left; discriminate).
  split; [exact H|].
  assert (Hv : vectorize (ext (Demo.session Demo.missing_key None))
                 [Demo.file 1 "a"] []
               = (inl (KeyError (lit "it's")), Demo.missing_key))
    by reflexivity.
  exact (vectorize_exception_is_caught [Demo.file 1 "a"] []
           (Demo.session Demo.missing_key None)
           (KeyError (lit "it's")) Demo.missing_key H Hv).
Defined.

Lemma history_append_only_until_clear_witness :
  result (render_langgraph_section Demo.ui Demo.press_clear)
         (Demo.session Demo.one_file (Some Demo.asked_once))
  = Rerun
  /\ history_of (final (render_langgraph_section Demo.ui Demo.press_clear)
                       (Demo.session Demo.one_file (Some Demo.asked_once)))
     = [].
Proof.
  assert (H : result (render_langgraph_section Demo.ui Demo.press_clear)
                     (Demo.session Demo.one_file (Some Demo.asked_once))
              = Rerun) by reflexivity.
  split; [exact H|].
  exact (proj2 (proj1 (proj2 (proj2 (history_append_only_until_clear Demo.ui
                                       Demo.press_clear
                                       (Demo.session Demo.one_file
                                                     (Some Demo.asked_once)))))
                      H)).
Defined.

Lemma vectorize_needs_a_selection_witness :
  In (call_vectorize [Demo.file 1 "a"] [])
     (trace (render_langgraph_section Demo.ui Demo.press_build)
            (Demo.session Demo.one_file None))
  /\ build_index Demo.press_build = true.
Proof.
  assert (H : In (call_vectorize [Demo.file 1 "a"] [])
                 (trace (render_langgraph_section Demo.ui Demo.press_build)
                        (Demo.session Demo.one_file None))).
  { vm_compute. do 4 right. left. reflexivity. }
  split; [exact H|].
  exact (proj1 (proj2 (@vectorize_needs_a_selection Demo.store _ _ _)
                  Demo.ui Demo.press_build (Demo.session Demo.one_file None)
                  _ _ H)).
Defined.

(** ** The download: [json.dumps] and [json.loads] *)

Module JsonFacts.

Import Json.

(** *** Hexadecimal escapes *)

Lemma hex_val_digit (d : N) : d < 16 -> hex_val (hex_digit d) = Some d.
Proof.
  intros Hd. unfold hex_digit, hex_val.
  destruct (N.ltb_spec d 10) as [Hlt|Hge].
  - replace ((48 <=? 48 + d) && (48 + d <=? 57)) with true.
    + f_equal. lia.
    + symmetry. apply andb_true_iff. split; apply N.leb_le; lia.
  - replace ((48 <=? 87 + d) && (87 + d <=? 57)) with false.
    + replace ((97 <=? 87 + d) && (87 + d <=? 102)) with true.
      * f_equal. lia.
      * symmetry. apply andb_true_iff. split; apply N.leb_le; lia.
    + symmetry. apply andb_false_iff. right. apply N.leb_gt. lia.
Qed.

Lemma four_digits (n : N) :
  n < 65536 ->
  n / 4096 < 16
  /\ ((n / 4096 * 16 + (n / 256) mod 16) * 16 + (n / 16) mod 16) * 16 + n mod 16 = n.
Proof.
  intros Hn.
  replace (n / 4096) with (n / 16 / 16 / 16)
    by (rewrite !N.Div0.div_div; reflexivity).
  replace (n / 256) with (n / 16 / 16)
    by (rewrite !N.Div0.div_div; reflexivity).
  pose proof (N.div_mod n 16) as E0.
  pose proof (N.div_mod (n / 16) 16) as E1.
  pose proof (N.div_mod (n / 16 / 16) 16) as E2.
  pose proof (N.mod_lt n 16) as L0.
  pose proof (N.mod_lt (n / 16) 16) as L1.
  pose proof (N.mod_lt (n / 16 / 16) 16) as L2.
  set (a := n / 16) in *. set (b := a / 16) in *. set (c := b / 16) in *.
  generalize dependent (n mod 16). generalize dependent (a mod 16).
  generalize dependent (b mod 16). intros. lia.
Qed.

(** Reading back the four digits of [u_escape n]. *)
Lemma decode_u_escape (n : N) :
  n < 65536 ->
  decode_uXXXX (hex_digit (n / 4096)) (hex_digit ((n / 256) mod 16))
               (hex_digit ((n / 16) mod 16)) (hex_digit (n mod 16))
  = Some n.
Proof.
  intros Hn. destruct (four_digits n Hn) as [H3 Hsum].
  unfold decode_uXXXX.
  rewrite !hex_val_digit by (try exact H3; apply N.mod_lt; discriminate).
  f_equal. exact Hsum.
Qed.

(** *** Surrogates *)

Lemma lor_shifted (a b k : N) : b < 2 ^ k -> N.lor (a * 2 ^ k) b = a * 2 ^ k + b.
Proof.
  intros Hb.
  assert (Hland : N.land (a * 2 ^ k) b = 0).
  { apply N.bits_inj. intros i. rewrite N.land_spec, N.bits_0.
    destruct (N.lt_ge_cases i k) as [Hlt|Hge].
    - rewrite N.mul_pow2_bits_low by exact Hlt. reflexivity.
    - rewrite (N.testbit_eqb b i), N.div_small, andb_false_r; [reflexivity|].
      apply N.lt_le_trans with (2 ^ k); [exact Hb|].
      apply N.pow_le_mono_r; [discriminate | exact Hge]. }
  rewrite <- N.lxor_lor by exact Hland.
  symmetry. apply N.add_nocarry_lxor. exact Hland.
Qed.

(** The pair written for a character above the basic plane. *)
Lemma surrogate_pair (c : N) :
  65536 <= c -> c < 1114112 ->
  let n := c - 65536 in
  let hi := N.lor 55296 (N.land (N.shiftr n 10) 1023) in
  let lo := N.lor 56320 (N.land n 1023) in
  hi < 65536 /\ lo < 65536
  /\ is_high_surrogate hi = true /\ is_low_surrogate lo = true
  /\ 65536 + N.lor (N.shiftl (hi - 55296) 10) (lo - 56320) = c.
Proof.
  intros Hlo Hhi n hi lo.
  assert (Hn : n < 1048576) by (subst n; lia).
  assert (Hq : N.land (N.shiftr n 10) 1023 = n / 1024).
  { change 1023 with (N.ones 10). rewrite N.land_ones, N.shiftr_div_pow2.
    change (2 ^ 10) with 1024. apply N.mod_small.
    apply N.Div0.div_lt_upper_bound. lia. }
  assert (Hr : N.land n 1023 = n mod 1024).
  { change 1023 with (N.ones 10). rewrite N.land_ones. reflexivity. }
  assert (Hqlt : n / 1024 < 1024) by (apply N.Div0.div_lt_upper_bound; lia).
  assert (Hrlt : n mod 1024 < 1024) by (apply N.mod_lt; discriminate).
  assert (Hhi_eq : hi = 55296 + n / 1024).
  { subst hi. rewrite Hq. change 55296 with (54 * 2 ^ 10).
    apply lor_shifted. exact Hqlt. }
  assert (Hlo_eq : lo = 56320 + n mod 1024).
  { subst lo. rewrite Hr. change 56320 with (55 * 2 ^ 10).
    apply lor_shifted. exact Hrlt. }
  rewrite Hhi_eq, Hlo_eq.
  repeat split; try lia.
  - unfold is_high_surrogate. apply andb_true_iff.
    split; apply N.leb_le; lia.
  - unfold is_low_surrogate. apply andb_true_iff.
    split; apply N.leb_le; lia.
  - replace (55296 + n / 1024 - 55296) with (n / 1024) by lia.
    replace (56320 + n mod 1024 - 56320) with (n mod 1024) by lia.
    rewrite N.shiftl_mul_pow2, lor_shifted by exact Hrlt.
    change (2 ^ 10) with 1024.
    pose proof (N.div_mod n 1024). subst n. lia.
Qed.

(** *** Strings *)

Local Arguments scanstring : simpl never.

Lemma scanstring_quote (r : str) : scanstring (34 :: r) = Some ([], r).
Proof. reflexivity. Qed.

Lemma scanstring_u (a b c d : N) (r2 : str) :
  scanstring (92 :: 117 :: a :: b :: c :: d :: r2)
  = match decode_uXXXX a b c d with
    | None => None
    | Some uni =>
        match r2 with
        | bs :: u :: a2 :: b2 :: c2 :: d2 :: r3 =>
            if is_high_surrogate uni && (bs =? 92) && (u =? 117)
            then
              match decode_uXXXX a2 b2 c2 d2 with
              | None => None
              | Some uni2 =>
                  if is_low_surrogate uni2
                  then cons_char
                         (65536 + N.lor (N.shiftl (uni - 55296) 10) (uni2 - 56320))
                         (scanstring r3)
                  else cons_char uni (scanstring r2)
              end
            else cons_char uni (scanstring r2)
        | _ => cons_char uni (scanstring r2)
        end
    end.
Proof. reflexivity. Qed.

Lemma scanstring_plain (c : N) (r : str) :
  c <> 34 -> c <> 92 -> 32 <= c ->
  scanstring (c :: r) = cons_char c (scanstring r).
Proof.
  intros H34 H92 H32.
  apply N.eqb_neq in H34. apply N.eqb_neq in H92.
  assert (Hlt : (c <? 32) = false) by (apply N.ltb_ge; exact H32).
  unfold scanstring; fold scanstring. rewrite H34, H92, Hlt. reflexivity.
Qed.

(** A [\uXXXX] that is not joined with what follows. *)
Lemma scanstring_u_escape (n : N) (tail : str) :
  n < 65536 ->
  is_high_surrogate n && starts_low tail = false ->
  scanstring (u_escape n ++ tail) = cons_char n (scanstring tail).
Proof.
  intros Hn Hlone. unfold u_escape. cbn [app].
  rewrite scanstring_u, decode_u_escape by exact Hn.
  destruct tail as [|bs [|u [|a2 [|b2 [|c2 [|d2 r3]]]]]]; try reflexivity.
  unfold starts_low in Hlone.
  destruct (is_high_surrogate n); [|reflexivity].
  destruct (N.eqb_spec bs 92) as [->|]; [|reflexivity].
  destruct (N.eqb_spec u 117) as [->|]; [|reflexivity].
  cbn [andb] in *. rewrite scanstring_u.
  destruct (decode_uXXXX a2 b2 c2 d2) as [uni2|]; [|reflexivity].
  rewrite Hlone. reflexivity.
Qed.

Lemma high_is_not_low (u : N) :
  is_high_surrogate u = true -> is_low_surrogate u = false.
Proof.
  unfold is_high_surrogate, is_low_surrogate. intros H.
  apply andb_true_iff in H. destruct H as [_ H]. apply N.leb_le in H.
  apply andb_false_iff. left. apply N.leb_gt. lia.
Qed.

(** One character of the encoder output, read back. *)
Lemma scanstring_escape_char (c : N) (tail : str) :
  c < 1114112 ->
  is_high_surrogate c && starts_low tail = false ->
  scanstring (escape_char c ++ tail) = cons_char c (scanstring tail).
Proof.
  intros Hc Hlone. unfold escape_char.
  destruct (N.eqb_spec c 92) as [->|H92]; [reflexivity|].
  destruct (N.eqb_spec c 34) as [->|H34]; [reflexivity|].
  destruct ((32 <=? c) && (c <=? 126)) eqn:Hprint.
  { apply andb_true_iff in Hprint. destruct Hprint as [H32 _].
    apply N.leb_le in H32. cbn [app]. now apply scanstring_plain. }
  destruct (N.eqb_spec c 8) as [->|_]; [reflexivity|].
  destruct (N.eqb_spec c 12) as [->|_]; [reflexivity|].
  destruct (N.eqb_spec c 10) as [->|_]; [reflexivity|].
  destruct (N.eqb_spec c 13) as [->|_]; [reflexivity|].
  destruct (N.eqb_spec c 9) as [->|_]; [reflexivity|].
  destruct (N.ltb_spec c 65536) as [Hbmp|Hastral].
  { now apply scanstring_u_escape. }
  destruct (surrogate_pair c Hastral Hc) as (Hhi & Hlo & Hh & Hl & Hjoin).
  cbv zeta in *.
  set (hi := N.lor 55296 (N.land (N.shiftr (c - 65536) 10) 1023)) in *.
  set (lo := N.lor 56320 (N.land (c - 65536) 1023)) in *.
  rewrite <- app_assoc. unfold u_escape. cbn [app].
  rewrite scanstring_u, decode_u_escape by exact Hhi.
  rewrite Hh. rewrite !N.eqb_refl. cbn [andb].
  rewrite decode_u_escape by exact Hlo.
  rewrite Hl, Hjoin. reflexivity.
Qed.

(** What follows the escape of a character that is not a low surrogate
    does not begin like one. *)
Lemma starts_low_escape_char (d : N) (tail : str) :
  d < 1114112 -> is_low_surrogate d = false ->
  starts_low (escape_char d ++ tail) = false.
Proof.
  intros Hd Hnot. unfold escape_char.
  assert (Htwo : forall x, x <> 117 -> starts_low ([92; x] ++ tail) = false).
  { intros x Hx. apply N.eqb_neq in Hx. cbn [app]. unfold starts_low.
    destruct tail as [|a [|b [|c0 [|d0 t]]]]; try reflexivity.
    rewrite Hx. reflexivity. }
  destruct (N.eqb_spec d 92) as [->|H92]; [now apply Htwo|].
  destruct (N.eqb_spec d 34) as [->|H34]; [now apply Htwo|].
  destruct ((32 <=? d) && (d <=? 126)) eqn:Hprint.
  { cbn [app]. unfold starts_low. apply N.eqb_neq in H92.
    destruct tail as [|u [|a [|b [|c0 [|d0 t]]]]]; try reflexivity.
    rewrite H92. reflexivity. }
  destruct (N.eqb_spec d 8) as [->|_]; [now apply Htwo|].
  destruct (N.eqb_spec d 12) as [->|_]; [now apply Htwo|].
  destruct (N.eqb_spec d 10) as [->|_]; [now apply Htwo|].
  destruct (N.eqb_spec d 13) as [->|_]; [now apply Htwo|].
  destruct (N.eqb_spec d 9) as [->|_]; [now apply Htwo|].
  destruct (N.ltb_spec d 65536) as [Hbmp|Hastral].
  { unfold u_escape. cbn [app]. unfold starts_low.
    rewrite decode_u_escape by exact Hbmp. rewrite Hnot. reflexivity. }
  destruct (surrogate_pair d Hastral Hd) as (Hhi & _ & Hh & _).
  cbv zeta in *.
  set (hi := N.lor 55296 (N.land (N.shiftr (d - 65536) 10) 1023)) in *.
  rewrite <- app_assoc. unfold u_escape at 1. cbn [app]. unfold starts_low.
  rewrite decode_u_escape by exact Hhi.
  rewrite (high_is_not_low hi Hh). reflexivity.
Qed.

(** The body of an encoded string, read back up to its closing quote. *)
Lemma scanstring_encoded (s rest : str) :
  no_split_pair s = true ->
  scanstring (flat_map escape_char s ++ 34 :: rest) = Some (s, rest).
Proof.
  induction s as [|c s IH]; intros Hok; [reflexivity|].
  cbn [no_split_pair] in Hok.
  apply andb_true_iff in Hok. destruct Hok as [Hok Hs].
  apply andb_true_iff in Hok. destruct Hok as [Hc Hpair].
  apply N.ltb_lt in Hc. apply negb_true_iff in Hpair.
  cbn [flat_map]. rewrite <- app_assoc.
  rewrite scanstring_escape_char; [rewrite (IH Hs); reflexivity | exact Hc |].
  destruct (is_high_surrogate c); [|reflexivity]. cbn [andb] in *.
  destruct s as [|d s].
  { cbn [flat_map app]. unfold starts_low.
    destruct rest as [|u [|a [|b [|c0 [|d0 t]]]]]; reflexivity. }
  cbn [flat_map]. rewrite <- app_assoc.
  apply starts_low_escape_char; [|exact Hpair].
  cbn [no_split_pair] in Hs.
  apply andb_true_iff in Hs. destruct Hs as [Hs _].
  apply andb_true_iff in Hs. destruct Hs as [Hd _].
  now apply N.ltb_lt.
Qed.

Lemma encode_basestring_ascii_app (s rest : str) :
  encode_basestring_ascii s ++ rest
  = 34 :: (flat_map escape_char s ++ 34 :: rest).
Proof.
  unfold encode_basestring_ascii. cbn [app]. rewrite <- app_assoc. reflexivity.
Qed.

(** *** Values *)

Lemma value_ind' (P : value -> Prop) :
  P Null ->
  (forall b, P (Bool b)) ->
  (forall s, P (String s)) ->
  (forall items, Forall P items -> P (Array items)) ->
  (forall members, Forall (fun kv => P (snd kv)) members -> P (Object members)) ->
  forall v, P v.
Proof.
  intros HN HB HS HA HO. fix IH 1. intros [| b | s | items | members].
  - exact HN.
  - apply HB.
  - apply HS.
  - apply HA. induction items as [|x items IHl]; constructor;
      [apply IH | exact IHl].
  - apply HO. induction members as [|[k x] members IHl]; constructor;
      [apply IH | exact IHl].
Qed.

Lemma skip_ws_spaces (n : nat) (s : str) :
  skip_ws (repeat 32 n ++ s) = skip_ws s.
Proof. induction n as [|n IH]; [reflexivity | exact IH]. Qed.

Lemma skip_ws_newline_indent (level : nat) (s : str) :
  skip_ws (newline_indent level ++ s) = skip_ws s.
Proof. unfold newline_indent. cbn [app skip_ws is_ws N.eqb orb Pos.eqb]. apply skip_ws_spaces. Qed.

Lemma starts_value_cases (s : str) :
  starts_value s = true ->
  exists c r, s = c :: r
              /\ (c = 34 \/ c = 91 \/ c = 123 \/ c = 110 \/ c = 116 \/ c = 102).
Proof.
  destruct s as [|c r]; [discriminate|]. unfold starts_value.
  rewrite !orb_true_iff, !N.eqb_eq. intros H. exists c, r.
  split; [reflexivity | tauto].
Qed.

Lemma skip_ws_value (s : str) : starts_value s = true -> skip_ws s = s.
Proof.
  intros H. destruct (starts_value_cases s H) as (c & r & -> & Hc).
  destruct Hc as [->|[->|[->|[->|[->| ->]]]]]; reflexivity.
Qed.

Lemma iterencode_starts (level : nat) (v : value) (rest : str) :
  starts_value (iterencode level v ++ rest) = true.
Proof.
  destruct v as [| [|] | s | [|x items] | [|[k x] members]]; reflexivity.
Qed.

Local Arguments scan_once : simpl never.
Local Arguments parse_elements : simpl never.
Local Arguments parse_members : simpl never.
Local Arguments iterencode : simpl never.

Lemma scan_once_string (fuel : nat) (r : str) :
  scan_once (S fuel) (34 :: r)
  = match scanstring r with
    | Some (x, r') => Some (String x, r')
    | None => None
    end.
Proof. reflexivity. Qed.

Lemma scan_once_array (fuel : nat) (r : str) :
  starts_value (skip_ws r) = true ->
  scan_once (S fuel) (91 :: r)
  = match parse_elements fuel (skip_ws r) with
    | Some (vs, r'') => Some (Array vs, r'')
    | None => None
    end.
Proof.
  intros H. destruct (starts_value_cases _ H) as (c & t & Heq & Hc).
  change (scan_once (S fuel) (91 :: r))
    with (match skip_ws r with
          | c' :: r' =>
              if c' =? 93 then Some (Array [], r')
              else
                match parse_elements fuel (c' :: r') with
                | Some (vs, r'') => Some (Array vs, r'')
                | None => None
                end
          | [] => None
          end).
  rewrite Heq.
  destruct Hc as [->|[->|[->|[->|[->| ->]]]]]; reflexivity.
Qed.

Lemma scan_once_object (fuel : nat) (r r' : str) :
  skip_ws r = 34 :: r' ->
  scan_once (S fuel) (123 :: r)
  = match parse_members fuel r' with
    | Some (ms, r'') => Some (Object (dict_of_pairs ms), r'')
    | None => None
    end.
Proof.
  intros H.
  change (scan_once (S fuel) (123 :: r))
    with (match skip_ws r with
          | c' :: r0 =>
              if c' =? 125 then Some (Object [], r0)
              else if c' =? 34 then
                match parse_members fuel r0 with
                | Some (ms, r'') => Some (Object (dict_of_pairs ms), r'')
                | None => None
                end
              else None
          | [] => None
          end).
  rewrite H. reflexivity.
Qed.

Lemma parse_elements_step (fuel : nat) (s : str) :
  parse_elements (S fuel) s
  = match scan_once fuel s with
    | None => None
    | Some (v, r) =>
        match skip_ws r with
        | c :: r' =>
            if c =? 93 then Some ([v], r')
            else if c =? 44 then
              match parse_elements fuel (skip_ws r') with
              | Some (vs, r'') => Some (v :: vs, r'')
              | None => None
              end
            else None
        | [] => None
        end
    end.
Proof. reflexivity. Qed.

Lemma parse_members_step (fuel : nat) (s : str) :
  parse_members (S fuel) s
  = match scanstring s with
    | None => None
    | Some (k, r) =>
        match skip_ws r with
        | c :: r1 =>
            if c =? 58 then
              match scan_once fuel (skip_ws r1) with
              | None => None
              | Some (v, r2) =>
                  match skip_ws r2 with
                  | c2 :: r3 =>
                      if c2 =? 125 then Some ([(k, v)], r3)
                      else if c2 =? 44 then
                        match skip_ws r3 with
                        | c3 :: r4 =>
                            if c3 =? 34 then
                              match parse_members fuel r4 with
                              | Some (ms, r5) => Some ((k, v) :: ms, r5)
                              | None => None
                              end
                            else None
                        | [] => None
                        end
                      else None
                  | [] => None
                  end
              end
            else None
        | [] => None
        end
    end.
Proof. reflexivity. Qed.

Lemma parse_elements_ok (items : list value) :
  Forall reads_back items ->
  forall (level closing : nat) (rest : str) (fuel : nat),
    items <> [] ->
    forallb value_ok items = true ->
    (fold_right (fun x n => S (size x + n)) O items <= fuel)%nat ->
    parse_elements fuel
      (join (44 :: newline_indent level) (map (iterencode level) items)
         ++ newline_indent closing ++ 93 :: rest)
    = Some (items, rest).
Proof.
  induction 1 as [|x items Hx Hitems IH]; intros level closing rest fuel Hne Hok Hfuel;
    [contradiction|].
  cbn [forallb] in Hok. apply andb_true_iff in Hok. destruct Hok as [Hokx Hok].
  cbn [fold_right] in Hfuel.
  destruct fuel as [|fuel]; [lia|].
  rewrite parse_elements_step.
  destruct items as [|y items].
  - cbn [map join].
    rewrite (Hx level _ fuel Hokx) by lia.
    rewrite skip_ws_newline_indent. reflexivity.
  - change (join (44 :: newline_indent level)
                 (map (iterencode level) (x :: y :: items)))
      with (iterencode level x
              ++ (44 :: newline_indent level)
              ++ join (44 :: newline_indent level)
                   (map (iterencode level) (y :: items))).
    rewrite <- !app_assoc.
    rewrite (Hx level _ fuel Hokx) by lia.
    cbn [app skip_ws is_ws N.eqb Pos.eqb orb].
    rewrite skip_ws_newline_indent.
    rewrite skip_ws_value.
    2:{ destruct items as [|z items]; cbn [map join];
          [|rewrite <- app_assoc]; apply iterencode_starts. }
    rewrite (IH level closing rest fuel); [reflexivity | discriminate | exact Hok |].
    cbn [fold_right] in *. lia.
Qed.

Lemma parse_members_ok (members : list (str * value)) :
  Forall (fun kv => reads_back (snd kv)) members ->
  forall (level closing : nat) (rest : str) (fuel : nat),
    members <> [] ->
    forallb (fun kv => match kv with
                       | (k, x) => no_split_pair k && value_ok x
                       end) members = true ->
    (fold_right (fun kv n => match kv with
                             | (_, x) => S (size x + n)
                             end) O members <= fuel)%nat ->
    let text :=
      join (44 :: newline_indent level)
           (map (fun kv => match kv with
                           | (k, x) =>
                               encode_basestring_ascii k ++ lit ": "
                                 ++ iterencode level x
                           end) members)
        ++ newline_indent closing ++ 125 :: rest in
    text = 34 :: tl text
    /\ parse_members fuel (tl text) = Some (members, rest).
Proof.
  induction 1 as [|[k x] members Hx Hmembers IH];
    intros level closing rest fuel Hne Hok Hfuel; [contradiction|].
  cbn [snd] in Hx.
  cbn [forallb] in Hok. apply andb_true_iff in Hok. destruct Hok as [Hokx Hok].
  apply andb_true_iff in Hokx. destruct Hokx as [Hk Hokx].
  cbn [fold_right] in Hfuel.
  destruct fuel as [|fuel]; [lia|].
  change (lit ": ") with [58; 32] in *.
  destruct members as [|[k' x'] members].
  - cbn [map join]. cbv zeta.
    rewrite <- !app_assoc, encode_basestring_ascii_app. cbn [tl].
    split; [reflexivity|].
    rewrite parse_members_step, (scanstring_encoded _ _ Hk).
    cbn [app skip_ws is_ws N.eqb Pos.eqb orb].
    rewrite skip_ws_value by apply iterencode_starts.
    rewrite (Hx level _ fuel Hokx) by lia.
    rewrite skip_ws_newline_indent. reflexivity.
  - specialize (IH level closing rest fuel).
    cbv zeta in IH |- *.
    set (member := fun kv : str * value =>
                     match kv with
                     | (k0, x0) =>
                         encode_basestring_ascii k0 ++ [58; 32]
                           ++ iterencode level x0
                     end) in *.
    change (join (44 :: newline_indent level)
                 (map member ((k, x) :: (k', x') :: members)))
      with ((encode_basestring_ascii k ++ [58; 32] ++ iterencode level x)
              ++ (44 :: newline_indent level)
              ++ join (44 :: newline_indent level)
                   (map member ((k', x') :: members))).
    rewrite <- !app_assoc, encode_basestring_ascii_app. cbn [tl].
    split; [reflexivity|].
    rewrite parse_members_step, (scanstring_encoded _ _ Hk).
    cbn [app skip_ws is_ws N.eqb Pos.eqb orb].
    rewrite skip_ws_value by apply iterencode_starts.
    rewrite (Hx level _ fuel Hokx) by lia.
    cbn [skip_ws is_ws N.eqb Pos.eqb orb].
    rewrite skip_ws_newline_indent.
    destruct IH as [Hhead Hparse];
      [discriminate | exact Hok | cbn [fold_right] in *; lia |].
    rewrite Hhead. cbn [skip_ws is_ws N.eqb Pos.eqb orb].
    rewrite Hparse. reflexivity.
Qed.

(** *** Dicts built from distinct keys *)

Lemma distinct_keys_NoDup (ks : list str) :
  distinct_keys ks = true <-> NoDup ks.
Proof.
  induction ks as [|k ks IH]; cbn [distinct_keys].
  - split; [constructor | reflexivity].
  - rewrite andb_true_iff, negb_true_iff, IH. split.
    + intros [Hk Hks]. constructor; [|exact Hks].
      intros Hin. apply not_true_iff_false in Hk. apply Hk.
      apply existsb_exists. exists k. split; [exact Hin | apply str_eqb_refl].
    + intros Hnd. inversion Hnd as [|? ? Hk Hks]; subst. split; [|exact Hks].
      apply not_true_iff_false. intros Hex. apply existsb_exists in Hex.
      destruct Hex as (k' & Hin & Heq). apply str_eqb_eq in Heq. now subst.
Qed.

Lemma setitem_fresh (d : dict value) (k : str) (v : value) :
  ~ In k (map fst d) -> setitem d k v = d ++ [(k, v)].
Proof.
  induction d as [|[k' v'] d IH]; intros Hk; [reflexivity|].
  cbn [setitem map fst In] in *.
  destruct (str_eqb k' k) eqn:Heq.
  - apply str_eqb_eq in Heq. exfalso. apply Hk. now left.
  - rewrite IH; [reflexivity|]. intros Hin. apply Hk. now right.
Qed.

Lemma fold_setitem (pairs acc : list (str * value)) :
  NoDup (map fst acc ++ map fst pairs) ->
  fold_left (fun d kv => setitem d (fst kv) (snd kv)) pairs acc = acc ++ pairs.
Proof.
  revert acc. induction pairs as [|[k v] pairs IH]; intros acc Hnd.
  - cbn [fold_left]. now rewrite app_nil_r.
  - cbn [fold_left fst snd map] in *.
    rewrite setitem_fresh.
    + rewrite IH; [now rewrite <- app_assoc|].
      rewrite map_app. cbn [map fst]. now rewrite <- app_assoc.
    + intros Hin. apply NoDup_remove_2 in Hnd. apply Hnd.
      apply in_or_app. now left.
Qed.

Lemma dict_of_pairs_distinct (members : list (str * value)) :
  distinct_keys (map fst members) = true -> dict_of_pairs members = members.
Proof.
  intros H. unfold dict_of_pairs. rewrite fold_setitem; [reflexivity|].
  now apply distinct_keys_NoDup.
Qed.

(** *** The decoder reads back what the encoder wrote *)

Lemma scan_once_iterencode (v : value) : reads_back v.
Proof.
  induction v as [| b | s | items IH | members IH] using value_ind';
    intros level rest fuel Hok Hfuel;
    (destruct fuel as [|fuel]; [cbn [size] in Hfuel; lia|]).
  - reflexivity.
  - destruct b; reflexivity.
  - change (iterencode level (String s)) with (encode_basestring_ascii s).
    rewrite encode_basestring_ascii_app, scan_once_string.
    cbn [value_ok] in Hok. now rewrite scanstring_encoded.
  - destruct items as [|x items]; [reflexivity|].
    change (iterencode level (Array (x :: items)))
      with (91 :: newline_indent (S level)
              ++ join (44 :: newline_indent (S level))
                   (map (iterencode (S level)) (x :: items))
              ++ newline_indent level ++ [93]).
    cbn [app]. rewrite <- !app_assoc. cbn [app].
    assert (Hstart : forall tail,
               starts_value
                 (join (44 :: newline_indent (S level))
                       (map (iterencode (S level)) (x :: items)) ++ tail)
               = true).
    { intros tail. destruct items as [|y items]; cbn [map join];
        [|rewrite <- app_assoc]; apply iterencode_starts. }
    rewrite scan_once_array;
      rewrite skip_ws_newline_indent, skip_ws_value by apply Hstart;
      [|apply Hstart].
    rewrite parse_elements_ok;
      [reflexivity | exact IH | discriminate | exact Hok |].
    cbn [size] in Hfuel. lia.
  - destruct members as [|[k x] members]; [reflexivity|].
    change (iterencode level (Object ((k, x) :: members)))
      with (123 :: newline_indent (S level)
              ++ join (44 :: newline_indent (S level))
                   (map (fun kv => match kv with
                                   | (k0, x0) =>
                                       encode_basestring_ascii k0 ++ lit ": "
                                         ++ iterencode (S level) x0
                                   end) ((k, x) :: members))
              ++ newline_indent level ++ [125]).
    cbn [app]. rewrite <- !app_assoc. cbn [app].
    cbn [value_ok] in Hok. apply andb_true_iff in Hok.
    destruct Hok as [Hok Hkeys].
    destruct (parse_members_ok ((k, x) :: members) IH (S level) level rest fuel)
      as [Hhead Hparse];
      [discriminate | exact Hok | cbn [size] in Hfuel; lia |].
    cbv zeta in Hhead, Hparse.
    rewrite (scan_once_object fuel _ _
               (eq_trans (skip_ws_newline_indent (S level) _)
                         (eq_trans (f_equal skip_ws Hhead) eq_refl))).
    rewrite Hparse, dict_of_pairs_distinct by exact Hkeys. reflexivity.
Qed.

(** *** The fuel of [loads] suffices *)

Lemma elements_fit (sep : str) (level : nat) (items : list value) :
  Forall (fun x => forall lvl, (size x <= List.length (iterencode lvl x))%nat) items ->
  (1 <= List.length sep)%nat ->
  (fold_right (fun x n => S (size x + n)) O items
   <= List.length (join sep (map (iterencode level) items)) + 1)%nat.
Proof.
  intros Hall Hsep. induction Hall as [|x items Hx Hitems IH].
  - cbn. lia.
  - destruct items as [|y items].
    + cbn [fold_right map join]. specialize (Hx level). lia.
    + change (join sep (map (iterencode level) (x :: y :: items)))
        with (iterencode level x ++ sep
                ++ join sep (map (iterencode level) (y :: items))).
      rewrite !length_app. specialize (Hx level).
      cbn [fold_right] in *. lia.
Qed.

Lemma members_fit (sep : str) (level : nat) (members : list (str * value)) :
  Forall (fun kv => forall lvl,
              (size (snd kv) <= List.length (iterencode lvl (snd kv)))%nat)
         members ->
  (1 <= List.length sep)%nat ->
  (fold_right (fun kv n => match kv with
                           | (_, x) => S (size x + n)
                           end) O members
   <= List.length
        (join sep
           (map (fun kv => match kv with
                           | (k, x) =>
                               encode_basestring_ascii k ++ lit ": "
                                 ++ iterencode level x
                           end) members)) + 1)%nat.
Proof.
  intros Hall Hsep. induction Hall as [|[k x] members Hx Hmembers IH].
  - cbn. lia.
  - cbn [snd] in Hx. specialize (Hx level).
    set (member := fun kv : str * value =>
                     match kv with
                     | (k0, x0) =>
                         encode_basestring_ascii k0 ++ lit ": "
                           ++ iterencode level x0
                     end) in *.
    destruct members as [|[k' x'] members].
    + cbn [fold_right map join]. unfold member. rewrite !length_app. lia.
    + change (join sep (map member ((k, x) :: (k', x') :: members)))
        with (member (k, x) ++ sep
                ++ join sep (map member ((k', x') :: members))).
      rewrite !length_app. unfold member at 1. rewrite !length_app.
      cbn [fold_right] in *. lia.
Qed.

Lemma size_le_length (v : value) :
  forall level, (size v <= List.length (iterencode level v))%nat.
Proof.
  induction v as [| b | s | items IH | members IH] using value_ind';
    intros level.
  - cbv. lia.
  - destruct b; cbv; lia.
  - change (iterencode level (String s)) with (encode_basestring_ascii s).
    unfold encode_basestring_ascii. cbn [size List.length]. lia.
  - destruct items as [|x items]; [cbv; lia|].
    change (iterencode level (Array (x :: items)))
      with (91 :: newline_indent (S level)
              ++ join (44 :: newline_indent (S level))
                   (map (iterencode (S level)) (x :: items))
              ++ newline_indent level ++ [93]).
    pose proof (elements_fit (44 :: newline_indent (S level)) (S level)
                  (x :: items) IH) as Hfit.
    cbn [size List.length]. rewrite !length_app.
    cbn [List.length] in *. lia.
  - destruct members as [|[k x] members]; [cbv; lia|].
    change (iterencode level (Object ((k, x) :: members)))
      with (123 :: newline_indent (S level)
              ++ join (44 :: newline_indent (S level))
                   (map (fun kv => match kv with
                                   | (k0, x0) =>
                                       encode_basestring_ascii k0 ++ lit ": "
                                         ++ iterencode (S level) x0
                                   end) ((k, x) :: members))
              ++ newline_indent level ++ [125]).
    pose proof (members_fit (44 :: newline_indent (S level)) (S level)
                  ((k, x) :: members) IH) as Hfit.
    cbn [size List.length]. rewrite !length_app.
    cbn [List.length] in *. lia.
Qed.

(** [json.loads(json.dumps(v, indent=4))] is [v]. *)
Lemma loads_dumps (v : value) : value_ok v = true -> loads (dumps v) = Some v.
Proof.
  intros Hok. unfold loads, dumps.
  pose proof (iterencode_starts 0 v []) as Hstart. rewrite app_nil_r in Hstart.
  rewrite skip_ws_value by exact Hstart.
  pose proof (scan_once_iterencode v 0%nat [] (List.length (iterencode 0 v)) Hok
                (size_le_length v 0%nat)) as Hscan.
  rewrite app_nil_r in Hscan. rewrite Hscan. reflexivity.
Qed.

(** *** The history *)

Lemma value_ok_of_item (item : HistoryItem.t) :
  item_ok item = true -> value_ok (of_item item) = true.
Proof.
  unfold item_ok. rewrite !andb_true_iff. intros [[Hq Ha] He].
  unfold of_item.
  assert (Hevents : forallb value_ok (map String (HistoryItem.events item)) = true).
  { induction (HistoryItem.events item) as [|x l IHl]; [reflexivity|].
    cbn [forallb map value_ok] in *. apply andb_true_iff in He.
    destruct He as [Hx Hl]. now rewrite Hx, IHl. }
  cbn [value_ok forallb map fst].
  rewrite Hq, Ha, Hevents. reflexivity.
Qed.

Lemma value_ok_of_history (h : list HistoryItem.t) :
  forallb item_ok h = true -> value_ok (of_history h) = true.
Proof.
  unfold of_history. cbn [value_ok].
  induction h as [|item h IH]; [reflexivity|].
  cbn [forallb map]. rewrite !andb_true_iff. intros [Hitem Hh].
  split; [now apply value_ok_of_item | now apply IH].
Qed.

Lemma of_history_inj (h h' : list HistoryItem.t) :
  of_history h' = of_history h -> h' = h.
Proof.
  unfold of_history. intros H. injection H as H.
  revert h' H. induction h as [|[q a ev] h IH]; intros [|[q' a' ev'] h'] H;
    try discriminate H; [reflexivity|].
  cbn [map] in H. injection H as Hq Ha Hev Hrest.
  f_equal; [|now apply IH].
  f_equal; try assumption.
  clear -Hev. revert ev' Hev.
  induction ev as [|x ev IHev]; intros [|x' ev'] Hev; try discriminate Hev;
    [reflexivity|].
  cbn [map] in Hev. injection Hev as Hx Hev. f_equal; [exact Hx | now apply IHev].
Qed.

End JsonFacts.

Section DownloadClaim.

Context {E : Type}.

(** C7, as the code has it. When no string of the history holds a high
    surrogate directly followed by a low surrogate, the artifact offered
    for download is the dump of exactly the history list, parsing it gives
    that list back (and no other list has this value), it is indented by
    four spaces, and it is offered as [rag_chat_history.json] with type
    [application/json]. The button is offered whenever the history is not
    empty. *)
Theorem download_round_trips (clear : bool) (s : state E)
    (h : list HistoryItem.t) :
  langgraph_history s = Some h ->
  forallb Json.item_ok h = true ->
  (h <> [] ->
   exists rest,
     trace (download_and_clear clear) s
     = st_download_button (history_button h) :: rest)
  /\ forall button,
       In (st_download_button button) (trace (download_and_clear clear) s) ->
       data button = Json.dumps (Json.of_history h)
       /\ Json.loads (data button) = Some (Json.of_history h)
       /\ (forall h', Json.of_history h' = Json.of_history h -> h' = h)
       /\ (exists tail,
              data button
              = [91; 10; 32; 32; 32; 32; 123;
                 10; 32; 32; 32; 32; 32; 32; 32; 32; 34]
                  ++ lit "question" ++ [34; 58; 32] ++ tail)
       /\ file_name button = lit "rag_chat_history.json"
       /\ mime button = lit "application/json".
Proof.
  intros Hh Hok. unfold trace.
  rewrite (download_and_clear_run clear s h Hh).
  split.
  - intros Hne. destruct h as [|item h]; [contradiction|].
    cbn [truthy]. destruct clear; eexists; reflexivity.
  - intros button Hin.
    assert (Hb : button = history_button h /\ h <> []).
    { destruct h as [|item h]; [destruct Hin|]. split; [|discriminate].
      cbn [truthy] in Hin.
      destruct clear; cbn [snd In] in Hin;
        repeat destruct Hin as [Hin|Hin];
        try discriminate Hin; try contradiction;
        injection Hin as <-; reflexivity. }
    destruct Hb as [-> Hne]. cbn [data file_name mime history_button].
    split; [reflexivity|].
    split; [apply JsonFacts.loads_dumps, JsonFacts.value_ok_of_history, Hok|].
    split; [intros h'; apply JsonFacts.of_history_inj|].
    split; [|split; reflexivity].
    destruct h as [|[q a ev] h]; [contradiction|].
    destruct h as [|item h]; eexists; reflexivity.
Qed.

End DownloadClaim.

(** C7 fails as written: an answer made of a high surrogate followed by a
    low surrogate is dumped as one escaped pair, which parses back as a
    single character. *)
Lemma split_pair_does_not_round_trip : ~ Json.round_trips Demo.split_pair.
Proof.
  unfold Json.round_trips. intros H. vm_compute in H. discriminate H.
Qed.

Lemma download_round_trips_witness :
  langgraph_history (Demo.session Demo.one_file (Some Demo.asked_once))
  = Some Demo.asked_once
  /\ forallb Json.item_ok Demo.asked_once = true
  /\ Json.loads (data (history_button Demo.asked_once))
     = Some (Json.of_history Demo.asked_once).
Proof.
  assert (Hh : langgraph_history (Demo.session Demo.one_file (Some Demo.asked_once))
               = Some Demo.asked_once) by reflexivity.
  assert (Hok : forallb Json.item_ok Demo.asked_once = true) by reflexivity.
  split; [exact Hh|]. split; [exact Hok|].
  refine (proj1 (proj2 (proj2 (download_round_trips false _ _ Hh Hok) _ _))).
  left. reflexivity.
Defined.

(** * Further properties *)

(** ** The upload form, file by file *)

Section UploadRuns.

Context {E : Type} {FS : FileService E}.

Lemma delete_existing_run (n : str) (l : list FileModel.t) (s : state E) :
  delete_existing n l s
  = match find (fun f => str_eqb (FileModel.name f) n) l with
    | Some f =>
        (Done tt, with_ext s (delete_file (ext s) (FileModel.id f)),
         [call_delete_file (FileModel.id f);
          st_info (lit "Replacing existing file: " ++ n)])
    | None => (Done tt, s, [])
    end.
Proof.
  induction l as [|g l IH]; [reflexivity|]. cbn [delete_existing find].
  destruct (str_eqb (FileModel.name g) n); [reflexivity | exact IH].
Qed.

(** One iteration of the loop, spelled out. *)
Lemma upload_run (user_id : N) (replace : bool) (uf : UploadedFile.t)
    (s : state E) :
  upload user_id replace uf s
  = let existing := get_user_files (ext s) user_id in
    let namesake :=
      find (fun f => str_eqb (FileModel.name f) (UploadedFile.name uf)) existing in
    match namesake with
    | Some f =>
        if replace then
          let e1 := delete_file (ext s) (FileModel.id f) in
          (Done tt,
           with_ext s (snd (add_file e1 (UploadedFile.getbuffer uf)
                              (UploadedFile.name uf) (UploadedFile.type uf) user_id)),
           [call_get_user_files user_id;
            call_delete_file (FileModel.id f);
            st_info (lit "Replacing existing file: " ++ UploadedFile.name uf);
            the_add user_id uf;
            upload_report uf
              (fst (add_file e1 (UploadedFile.getbuffer uf)
                      (UploadedFile.name uf) (UploadedFile.type uf) user_id))])
        else
          (Done tt, s,
           [call_get_user_files user_id;
            st_warning (lit "File '" ++ UploadedFile.name uf
                          ++ lit "' already exists. Select 'Replace existing files' option to overwrite.")])
    | None =>
        (Done tt,
         with_ext s (snd (add_file (ext s) (UploadedFile.getbuffer uf)
                            (UploadedFile.name uf) (UploadedFile.type uf) user_id)),
         [call_get_user_files user_id;
          the_add user_id uf;
          upload_report uf
            (fst (add_file (ext s) (UploadedFile.getbuffer uf)
                    (UploadedFile.name uf) (UploadedFile.type uf) user_id))])
    end.
Proof.
  cbv zeta. unfold upload, bind, file_service_get_user_files. cbn [fst snd].
  destruct (find _ (get_user_files (ext s) user_id)) as [f|] eqn:Hfind.
  - assert (Hdup : existsb (fun f0 => str_eqb (FileModel.name f0) (UploadedFile.name uf))
                     (get_user_files (ext s) user_id) = true).
    { apply existsb_exists. apply find_some in Hfind. exists f. exact Hfind. }
    rewrite Hdup. destruct replace; cbn [andb negb]; [|reflexivity].
    cbn [when]. rewrite delete_existing_run, Hfind.
    unfold file_service_add_file, with_ext, upload_report, the_add. cbn [ext].
    destruct (add_file _ _ _ _ _) as [[fm|] e]; reflexivity.
  - assert (Hdup : existsb (fun f0 => str_eqb (FileModel.name f0) (UploadedFile.name uf))
                     (get_user_files (ext s) user_id) = false).
    { apply not_true_is_false. intros Hex. apply existsb_exists in Hex.
      destruct Hex as (f & Hin & Hf).
      pose proof (find_none _ _ Hfind f Hin) as Hn. cbv beta in Hn.
      congruence. }
    rewrite Hdup. cbn [andb when].
    unfold file_service_add_file, with_ext, upload_report, the_add, ret. cbn [ext].
    destruct (add_file _ _ _ _ _) as [[fm|] e]; reflexivity.
Qed.

Lemma upload_done (user_id : N) (replace : bool) (uf : UploadedFile.t)
    (s : state E) :
  result (upload user_id replace uf) s = Done tt.
Proof.
  unfold result. rewrite upload_run. cbv zeta.
  destruct (find _ _); [destruct replace|]; reflexivity.
Qed.

Lemma for_each_upload_step (user_id : N) (replace : bool)
    (uf : UploadedFile.t) (l : list UploadedFile.t) (s : state E) :
  for_each (uf :: l) (upload user_id replace) s
  = (result (for_each l (upload user_id replace))
            (final (upload user_id replace uf) s),
     final (for_each l (upload user_id replace))
           (final (upload user_id replace uf) s),
     trace (upload user_id replace uf) s
       ++ trace (for_each l (upload user_id replace))
                (final (upload user_id replace uf) s)).
Proof.
  rewrite for_each_upload_cons, bind_run.
  pose proof (upload_done user_id replace uf s) as Hd.
  unfold result, final, trace in *.
  destruct (upload user_id replace uf s) as [[r s1] t1]. cbn [fst snd] in *.
  subst r. reflexivity.
Qed.

Lemma count_app (p : event -> bool) (a b : list event) :
  count p (a ++ b) = (count p a + count p b)%nat.
Proof. unfold count. now rewrite filter_app, length_app. Qed.

Lemma count_zero (p : event -> bool) (t : list event) :
  Forall (fun ev => p ev = false) t -> count p t = 0%nat.
Proof.
  unfold count. induction 1 as [|ev t Hev _ IH]; [reflexivity|].
  cbn [filter]. now rewrite Hev.
Qed.


(** A property of the events of every iteration holds of the loop. *)
Lemma for_each_upload_Forall (P : event -> Prop) (user_id : N) (replace : bool)
    (l : list UploadedFile.t) :
  (forall uf s, In uf l -> Forall P (trace (upload user_id replace uf) s)) ->
  forall s : state E, Forall P (trace (for_each l (upload user_id replace)) s).
Proof.
  induction l as [|uf l IH]; intros Hbody s; [constructor|].
  unfold trace. rewrite for_each_upload_step. cbn [snd].
  apply Forall_app. split.
  - apply Hbody. now left.
  - apply IH. intros uf' s' Hin. apply Hbody. now right.
Qed.

(** X1. With replacement switched off the upload form never calls
    [delete_file], whatever is uploaded and whatever the files listed. *)
Theorem upload_without_replace_never_deletes (user : option User.t)
    (form : upload_form) (s : state E) :
  replace_existing form = false ->
  forall file_id, ~ In (call_delete_file file_id) (trace (main user form) s).
Proof.
  intros Hr file_id Hin.
  assert (Hall : Forall (fun ev => is_delete ev = false) (trace (main user form) s)).
  { unfold main. destruct user as [u|]; [|repeat constructor].
    destruct (submit_button form && truthy (uploaded_files form));
      [|constructor].
    cbn [when]. apply for_each_upload_Forall. intros uf s' _.
    unfold trace. rewrite upload_run, Hr. cbv zeta.
    destruct (find _ _) as [f|]; cbn [snd]; unfold upload_report, the_add;
      try destruct (fst (add_file _ _ _ _ _)); repeat constructor. }
  rewrite Forall_forall in Hall. specialize (Hall _ Hin). discriminate Hall.
Qed.

(** X2. One uploaded file makes the handler delete at most one file, and
    only with replacement switched on; the file deleted is one of the
    listing just read and carries the uploaded name. *)
Theorem upload_deletes_only_a_listed_namesake (user_id : N) (replace : bool)
    (uf : UploadedFile.t) (s : state E) :
  (count is_delete (trace (upload user_id replace uf) s) <= 1)%nat
  /\ forall file_id,
       In (call_delete_file file_id) (trace (upload user_id replace uf) s) ->
       replace = true
       /\ exists f, In f (get_user_files (ext s) user_id)
                    /\ FileModel.id f = file_id
                    /\ FileModel.name f = UploadedFile.name uf.
Proof.
  unfold trace. rewrite upload_run. cbv zeta.
  destruct (find _ _) as [f|] eqn:Hfind; [destruct replace|]; cbn [snd];
    unfold upload_report, the_add.
  - apply find_some in Hfind. destruct Hfind as [Hin Hname].
    apply str_eqb_eq in Hname.
    split; [destruct (fst (add_file _ _ _ _ _)); cbn; lia|].
    intros file_id H.
    assert (Hid : FileModel.id f = file_id).
    { destruct (fst (add_file _ _ _ _ _)); cbn [In] in H;
        repeat destruct H as [H|H]; try discriminate H; try contradiction;
        now injection H. }
    split; [reflexivity|]. exists f. auto.
  - split; [cbn; lia|]. intros file_id H. cbn [In] in H.
    repeat destruct H as [H|H]; try discriminate H; contradiction.
  - split; [destruct (fst (add_file _ _ _ _ _)); cbn; lia|].
    intros file_id H.
    destruct (fst (add_file _ _ _ _ _)); cbn [In] in H;
      repeat destruct H as [H|H]; try discriminate H; contradiction.
Qed.


(** X4. Every [add_file] call of the upload form is made for a submitted
    form and a logged-in user, under that user's id, with the buffer, the
    name and the type of one of the uploaded files. *)
Theorem upload_form_adds_only_uploaded_files (user : option User.t)
    (form : upload_form) (s : state E) (file : list N)
    (filename file_type : str) (user_id : N) :
  In (call_add_file file filename file_type user_id) (trace (main user form) s) ->
  submit_button form = true
  /\ user = Some {| User.user_id := user_id |}
  /\ exists uf, In uf (uploaded_files form)
                /\ file = UploadedFile.getbuffer uf
                /\ filename = UploadedFile.name uf
                /\ file_type = UploadedFile.type uf.
Proof.
  intros Hin. unfold main in Hin.
  destruct user as [[uid]|];
    [|cbn in Hin; destruct Hin as [H|[]]; discriminate H].
  destruct (submit_button form); [|destruct Hin].
  cbn [andb] in Hin.
  destruct (truthy (uploaded_files form)); [|destruct Hin].
  cbn [when User.user_id] in Hin.
  set (P := fun ev =>
              match ev with
              | call_add_file b n ty u =>
                  u = uid
                  /\ exists uf, In uf (uploaded_files form)
                                /\ b = UploadedFile.getbuffer uf
                                /\ n = UploadedFile.name uf
                                /\ ty = UploadedFile.type uf
              | _ => True
              end).
  assert (Hall : Forall P (trace (for_each (uploaded_files form)
                                    (upload uid (replace_existing form))) s)).
  { apply for_each_upload_Forall. intros uf s' Huf.
    assert (Hadd : P (the_add uid uf)).
    { unfold P, the_add. split; [reflexivity|]. exists uf. auto. }
    unfold trace. rewrite upload_run. cbv zeta.
    destruct (find _ _) as [f|]; [destruct (replace_existing form)|];
      cbn [snd]; unfold upload_report;
      try destruct (fst (add_file _ _ _ _ _));
      repeat (constructor; try exact Hadd; try exact I). }
  rewrite Forall_forall in Hall. specialize (Hall _ Hin). unfold P in Hall.
  destruct Hall as [-> Huf]. split; [reflexivity|]. split; [reflexivity|].
  exact Huf.
Qed.

(** X5. The listing is read again for every file of a batch: when a new
    name is uploaded twice without replacement and the service lists the
    file it has just added, the second copy is refused with the warning and
    [add_file] is called once. *)
Theorem upload_same_name_twice_is_skipped (user_id : N)
    (uf : UploadedFile.t) (s : state E) (fm : FileModel.t) (e : E) :
  ~ collides (get_user_files (ext s) user_id) uf ->
  add_file (ext s) (UploadedFile.getbuffer uf) (UploadedFile.name uf)
           (UploadedFile.type uf) user_id = (Some fm, e) ->
  collides (get_user_files e user_id) uf ->
  for_each [uf; uf] (upload user_id false) s
  = (Done tt, with_ext s e,
     [call_get_user_files user_id;
      the_add user_id uf;
      st_success (lit "Uploaded: " ++ UploadedFile.name uf);
      call_get_user_files user_id;
      st_warning (lit "File '" ++ UploadedFile.name uf
                    ++ lit "' already exists. Select 'Replace existing files' option to overwrite.")]).
Proof.
  intros Hnew Hadd Hlisted.
  assert (Hfirst : upload user_id false uf s
                   = (Done tt, with_ext s e,
                      [call_get_user_files user_id; the_add user_id uf;
                       st_success (lit "Uploaded: " ++ UploadedFile.name uf)])).
  { rewrite upload_run. cbv zeta.
    destruct (find _ (get_user_files (ext s) user_id)) as [f|] eqn:Hfind.
    - exfalso. apply Hnew. apply find_some in Hfind. destruct Hfind as [Hin Hf].
      exists f. split; [exact Hin | now apply str_eqb_eq].
    - rewrite Hadd. reflexivity. }
  assert (Hsecond : upload user_id false uf (with_ext s e)
                    = (Done tt, with_ext s e,
                       [call_get_user_files user_id;
                        st_warning (lit "File '" ++ UploadedFile.name uf
                                      ++ lit "' already exists. Select 'Replace existing files' option to overwrite.")])).
  { rewrite upload_run. cbv zeta. cbn [with_ext ext].
    destruct (find _ (get_user_files e user_id)) as [f|] eqn:Hfind;
      [reflexivity|].
    exfalso. destruct Hlisted as (f & Hin & Hf).
    pose proof (find_none _ _ Hfind f Hin) as Hn. cbv beta in Hn.
    apply str_eqb_eq in Hf. congruence. }
  rewrite for_each_upload_step. unfold result, final, trace.
  rewrite Hfirst. cbn [fst snd].
  rewrite for_each_upload_step. unfold result, final, trace.
  rewrite Hsecond. reflexivity.
Qed.

End UploadRuns.

(** ** The option dicts of the two multiselects *)

Section Options.

Context {V : Type} (name : V -> str).

Lemma get_setitem (d : dict V) (k : str) (v : V) (k' : str) :
  get (setitem d k v) k' = if str_eqb k k' then Some v else get d k'.
Proof.
  induction d as [|[k0 v0] d IH]; [reflexivity|].
  cbn [setitem]. destruct (str_eqb k0 k) eqn:H0.
  - apply str_eqb_eq in H0. subst k0. cbn [get].
    destruct (str_eqb k k'); reflexivity.
  - cbn [get]. rewrite IH.
    destruct (str_eqb k0 k') eqn:H1; [|reflexivity].
    apply str_eqb_eq in H1. subst k'.
    destruct (str_eqb k k0) eqn:H2; [|reflexivity].
    apply str_eqb_eq in H2. subst k0. rewrite str_eqb_refl in H0.
    discriminate H0.
Qed.

Lemma find_app_last (p : V -> bool) (a : list V) (x : V) :
  find p (a ++ [x])
  = match find p a with
    | Some y => Some y
    | None => if p x then Some x else None
    end.
Proof.
  induction a as [|y a IH]; [reflexivity|]. cbn [app find].
  destruct (p y); [reflexivity | exact IH].
Qed.

Lemma get_fold_setitem (xs : list V) (d : dict V) (k : str) :
  get (fold_left (fun d0 x => setitem d0 (name x) x) xs d) k
  = match last_named name xs k with
    | Some x => Some x
    | None => get d k
    end.
Proof.
  revert d. induction xs as [|x xs IH]; intros d; [reflexivity|].
  cbn [fold_left]. rewrite IH, get_setitem. unfold last_named.
  cbn [rev]. rewrite find_app_last.
  destruct (find _ (rev xs)); [reflexivity|].
  destruct (str_eqb (name x) k); reflexivity.
Qed.

(** X6. In the option dict built from a listing, a name stands for the
    last listed element of that name: looking a name up gives that
    element, which is listed and carries the name, and the lookup fails
    exactly when nothing listed has the name. *)
Theorem options_select_the_last_namesake (xs : list V) (k : str) :
  get (options name xs) k = last_named name xs k
  /\ (forall x, get (options name xs) k = Some x -> In x xs /\ name x = k)
  /\ (get (options name xs) k = None <-> forall x, In x xs -> name x <> k).
Proof.
  assert (Heq : get (options name xs) k = last_named name xs k).
  { unfold options. rewrite get_fold_setitem.
    destruct (last_named name xs k); reflexivity. }
  split; [exact Heq|]. rewrite Heq. unfold last_named. split.
  - intros x Hx. apply find_some in Hx. destruct Hx as [Hin Hname].
    split; [now apply in_rev | now apply str_eqb_eq].
  - split.
    + intros Hnone x Hin Hname.
      pose proof (find_none _ _ Hnone x (proj1 (in_rev xs x) Hin)) as Hn.
      cbv beta in Hn. apply str_eqb_neq in Hn. contradiction.
    + intros Hall. destruct (find _ (rev xs)) as [x|] eqn:Hfind; [|reflexivity].
      apply find_some in Hfind. destruct Hfind as [Hin Hname].
      apply str_eqb_eq in Hname. exfalso.
      exact (Hall x (proj2 (in_rev xs x) Hin) Hname).
Qed.

End Options.

Section Lookups.

Context {E : Type} {V : Type}.

Lemma getitems_found (d : dict V) (ks : list str) (vs : list V) (s : state E) :
  Forall2 (fun k v => get d k = Some v) ks vs ->
  getitems d ks s = (Done vs, s, []).
Proof.
  induction 1 as [|k v ks vs Hk _ IH]; [reflexivity|].
  cbn [getitems]. unfold bind, getitem. rewrite Hk. cbn [ret].
  rewrite IH. reflexivity.
Qed.

End Lookups.

Section Namesakes.

Context {V : Type} (name : V -> str).

Lemma get_options (xs : list V) (k : str) :
  get (options name xs) k = last_named name xs k.
Proof.
  unfold options. rewrite get_fold_setitem.
  destruct (last_named name xs k); reflexivity.
Qed.

Lemma last_named_exists (xs : list V) (k : str) :
  (exists x, In x xs /\ name x = k) ->
  exists y, last_named name xs k = Some y.
Proof.
  intros (x & Hin & Hname). unfold last_named.
  destruct (find _ (rev xs)) as [y|] eqn:Hfind; [now exists y|].
  pose proof (find_none _ _ Hfind x (proj1 (in_rev xs x) Hin)) as Hn.
  cbv beta in Hn. apply str_eqb_neq in Hn. contradiction.
Qed.

Lemma last_named_none (xs : list V) (k : str) :
  (forall x, In x xs -> name x <> k) -> last_named name xs k = None.
Proof.
  intros Hall. unfold last_named.
  destruct (find _ (rev xs)) as [x|] eqn:Hfind; [|reflexivity].
  apply find_some in Hfind. destruct Hfind as [Hin Hname].
  apply str_eqb_eq in Hname. exfalso.
  exact (Hall x (proj2 (in_rev xs x) Hin) Hname).
Qed.

Lemma str_eqb_sym (a b : str) : str_eqb a b = str_eqb b a.
Proof.
  destruct (str_eqb a b) eqn:Hab; destruct (str_eqb b a) eqn:Hba; try reflexivity.
  - apply str_eqb_eq in Hab. subst b. now rewrite str_eqb_refl in Hba.
  - apply str_eqb_eq in Hba. subst b. now rewrite str_eqb_refl in Hab.
Qed.

(** A key is among [d.keys()] exactly when [d[k]] is there. *)
Lemma existsb_keys (d : dict V) (k : str) :
  existsb (str_eqb k) (keys d)
  = match get d k with Some _ => true | None => false end.
Proof.
  induction d as [|[k0 v0] d IH]; [reflexivity|].
  cbn [keys map fst existsb get]. rewrite (str_eqb_sym k k0).
  destruct (str_eqb k0 k); [reflexivity | exact IH].
Qed.

(** What the multiselect returns was picked and is a key of the options. *)
Lemma multiselect_keys (d : dict V) (picked : list str) :
  Forall (fun k => In k picked /\ get d k <> None) (st_multiselect (keys d) picked).
Proof.
  apply Forall_forall. intros k Hin. unfold st_multiselect in Hin.
  apply filter_In in Hin. destruct Hin as [Hin Hk]. split; [exact Hin|].
  rewrite existsb_keys in Hk. destruct (get d k); [discriminate | discriminate Hk].
Qed.

(** It returns all that was picked when all of it is among the options. *)
Lemma multiselect_all (d : dict V) (picked : list str) :
  Forall (fun k => get d k <> None) picked ->
  st_multiselect (keys d) picked = picked.
Proof.
  induction 1 as [|k picked Hk _ IH]; [reflexivity|].
  unfold st_multiselect in *. cbn [filter]. rewrite existsb_keys.
  destruct (get d k); [now rewrite IH | contradiction].
Qed.

(** Every name the multiselect returns has its element, a listed one. *)
Lemma returned_elements (xs : list V) (picked : list str) :
  exists sel,
    Forall2 (fun n x => get (options name xs) n = Some x)
            (st_multiselect (keys (options name xs)) picked) sel
    /\ Forall (fun x => In x xs /\ In (name x) picked) sel.
Proof.
  pose proof (multiselect_keys (options name xs) picked) as Hall.
  induction Hall as [|n ns [Hin Hn] _ (sel & Hsel & Hlisted)].
  - exists []. split; constructor.
  - destruct (get (options name xs) n) as [x|] eqn:Hget; [|contradiction].
    exists (x :: sel). split; [now constructor|]. constructor; [|exact Hlisted].
    rewrite get_options in Hget. unfold last_named in Hget.
    apply find_some in Hget. destruct Hget as [Hx Hname].
    apply str_eqb_eq in Hname. subst n.
    split; [now apply in_rev | exact Hin].
Qed.

(** Every chosen name has its element. *)
Lemma chosen_elements (xs : list V) (names : list str) :
  Forall (fun n => exists x, In x xs /\ name x = n) names ->
  exists sel, Forall2 (fun n x => last_named name xs n = Some x) names sel.
Proof.
  induction 1 as [|n names Hn _ [sel IH]]; [exists []; constructor|].
  destruct (last_named_exists xs n Hn) as [y Hy].
  exists (y :: sel). now constructor.
Qed.

End Namesakes.

(** ** The two columns of the tab *)

Section Selection.

Context {E : Type} {FS : FileService E} {LS : LinkService E} {RG : Rag E}.

(** X7. With the file service present and every chosen name among the
    listed files (what the multiselect guarantees), the first column
    returns one file per chosen name, in the order chosen, each the last
    listed file of its name; it reads the listing once, leaves every state
    as it was, and the success message counts the names chosen. *)
Theorem select_files_returns_the_chosen_files (self : LangGraphUI)
    (user : User.t) (names : list str) (s : state E) :
  file_service self = true ->
  Forall (fun n => exists f, In f (get_user_files (ext s) (User.user_id user))
                             /\ FileModel.name f = n) names ->
  exists sel,
    Forall2 (fun n f => last_named FileModel.name
                          (get_user_files (ext s) (User.user_id user)) n = Some f)
            names sel
    /\ select_files self user names s
       = (Done sel, s,
          call_get_user_files (User.user_id user)
          :: match get_user_files (ext s) (User.user_id user), names with
             | [], _ => [st_info (lit "No files available. Upload files from the sidebar.")]
             | _ :: _, [] => []
             | _ :: _, _ :: _ =>
                 [st_success (lit "Selected " ++ str_of_nat (List.length names)
                                ++ lit " files for RAG")]
             end).
Proof.
  intros Hfs Hnames.
  destruct (chosen_elements FileModel.name _ names Hnames) as [sel Hsel].
  exists sel. split; [exact Hsel|].
  unfold select_files. rewrite Hfs.
  unfold bind at 1. unfold file_service_get_user_files.
  destruct (get_user_files (ext s) (User.user_id user)) as [|f0 l] eqn:Hlist.
  - cbn [truthy negb]. inversion Hsel as [|n f ns fs Hn _]; subst; [reflexivity|].
    discriminate Hn.
  - cbn [truthy negb]. cbv zeta. rewrite multiselect_all.
    2:{ clear - Hsel. induction Hsel as [|n f ns fs Hn _ IH]; constructor;
          [|exact IH]. rewrite get_options, Hn. discriminate. }
    unfold bind at 1.
    rewrite (getitems_found (options FileModel.name (f0 :: l)) names sel).
    + pose proof (Forall2_length Hsel) as Hlen.
      destruct Hsel as [|n f ns fs _ _]; [reflexivity|].
      cbn [truthy when]. unfold bind, emit, ret. cbn [app].
      rewrite Hlen. reflexivity.
    + eapply Forall2_impl; [|exact Hsel]. intros n f Hn.
      now rewrite get_options.
Qed.

(** The first column, whatever was picked: it returns listed files that
    carry picked names. *)
Lemma select_files_done (self : LangGraphUI) (user : User.t)
    (names : list str) (s : state E) :
  exists sel,
    result (select_files self user names) s = Done sel
    /\ Forall (fun f => In f (get_user_files (ext s) (User.user_id user))
                        /\ In (FileModel.name f) names) sel.
Proof.
  unfold result, select_files. destruct (file_service self).
  2:{ exists []. split; [reflexivity | constructor]. }
  unfold bind, file_service_get_user_files.
  destruct (truthy (get_user_files (ext s) (User.user_id user))); cbn [negb].
  2:{ exists []. split; [reflexivity | constructor]. }
  destruct (returned_elements FileModel.name
              (get_user_files (ext s) (User.user_id user)) names)
    as (sel & Hsel & Hlisted).
  exists sel. split; [|exact Hlisted].
  rewrite (getitems_found _ _ sel s Hsel).
  destruct (truthy sel); reflexivity.
Qed.

Lemma select_links_done (self : LangGraphUI) (user : User.t)
    (urls : list str) (s : state E) :
  exists sel,
    result (select_links self user urls) s = Done sel
    /\ Forall (fun l => In l (get_user_links (ext s) (User.user_id user))
                        /\ In (LinkModel.url l) urls) sel.
Proof.
  unfold result, select_links. destruct (link_service self).
  2:{ exists []. split; [reflexivity | constructor]. }
  unfold bind, link_service_get_user_links.
  destruct (truthy (get_user_links (ext s) (User.user_id user))); cbn [negb].
  2:{ exists []. split; [reflexivity | constructor]. }
  destruct (returned_elements LinkModel.url
              (get_user_links (ext s) (User.user_id user)) urls)
    as (sel & Hsel & Hlisted).
  exists sel. split; [|exact Hlisted].
  rewrite (getitems_found _ _ sel s Hsel).
  destruct (truthy sel); reflexivity.
Qed.

(** X8. Neither column can fail on a name. The multiselect returns keys of
    the option dict it was drawn with, so the lookups of lines 99 and 128
    always find their element: whatever the user has picked, each column
    ends normally, leaves every state as it was, and returns listed
    elements only, each carrying a picked name. *)
Theorem selection_lookups_never_fail (self : LangGraphUI) (user : User.t)
    (names urls : list str) (s : state E) :
  (exists sel,
      result (select_files self user names) s = Done sel
      /\ final (select_files self user names) s = s
      /\ Forall (fun f => In f (get_user_files (ext s) (User.user_id user))
                          /\ In (FileModel.name f) names) sel)
  /\ (exists sel,
         result (select_links self user urls) s = Done sel
         /\ final (select_links self user urls) s = s
         /\ Forall (fun l => In l (get_user_links (ext s) (User.user_id user))
                             /\ In (LinkModel.url l) urls) sel).
Proof.
  split.
  - destruct (select_files_done self user names s) as (sel & Hres & Hlisted).
    exists sel. split; [exact Hres|].
    split; [apply select_files_final | exact Hlisted].
  - destruct (select_links_done self user urls s) as (sel & Hres & Hlisted).
    exists sel. split; [exact Hres|].
    split; [apply select_links_final | exact Hlisted].
Qed.

End Selection.

(** ** One rerun of the tab, stage by stage *)

Section TabRuns.

Context {E : Type} {FS : FileService E} {LS : LinkService E} {RG : Rag E}.

Lemma run_eta {A : Type} (m : M E A) (s : state E) :
  m s = (result m s, final m s, trace m s).
Proof. unfold result, final, trace. now destruct (m s) as [[r s1] t]. Qed.

Lemma bind_eta {A B : Type} (m : M E A) (f : A -> M E B) (s : state E) :
  bind m f s
  = match result m s with
    | Done a =>
        (result (f a) (final m s), final (f a) (final m s),
         trace m s ++ trace (f a) (final m s))
    | Raised e => (Raised e, final m s, trace m s)
    | Rerun => (Rerun, final m s, trace m s)
    end.
Proof.
  rewrite bind_run. unfold result, final, trace.
  now destruct (m s) as [[[a|e|] s1] t1].
Qed.

(** The tab past its two guards. *)
Lemma render_run (self : LangGraphUI) (r : rerun) (s : state E) (user : User.t) :
  current_user r = Some user ->
  openai_api_key r = true ->
  let s0 := {| ext := ext s; langgraph_history := Some (history_of s) |} in
  let fsel := select_files self user (selected_file_names r) in
  let lsel := select_links self user (selected_link_urls r) in
  render_langgraph_section self r s
  = match result fsel s0 with
    | Done sf =>
        match result lsel s0 with
        | Done sl =>
            let build := when (build_index r) (build_index_handler sf sl) in
            let s1 := final build s0 in
            let replay := replay_stage (history_of s) in
            let chat := chat_stage sf sl (chat_input r) in
            let dl := download_and_clear (clear_history r) in
            let pre :=
              trace fsel s0 ++ trace lsel s0 ++ trace build s0 ++ trace replay s1 in
            match result build s0 with
            | Done _ =>
                match result chat s1 with
                | Done _ =>
                    (result dl (final chat s1), final dl (final chat s1),
                     pre ++ trace chat s1 ++ trace dl (final chat s1))
                | Raised e => (Raised e, final chat s1, pre ++ trace chat s1)
                | Rerun => (Rerun, final chat s1, pre ++ trace chat s1)
                end
            | Raised e =>
                (Raised e, s1, trace fsel s0 ++ trace lsel s0 ++ trace build s0)
            | Rerun =>
                (Rerun, s1, trace fsel s0 ++ trace lsel s0 ++ trace build s0)
            end
        | Raised e => (Raised e, s0, trace fsel s0 ++ trace lsel s0)
        | Rerun => (Rerun, s0, trace fsel s0 ++ trace lsel s0)
        end
    | Raised e => (Raised e, s0, trace fsel s0)
    | Rerun => (Rerun, s0, trace fsel s0)
    end.
Proof.
  intros Huser Hkey. cbv zeta. unfold render_langgraph_section.
  rewrite Huser, Hkey. cbn [negb].
  unfold replay_stage, chat_stage, bind. rewrite init_history_run.
  set (s0 := {| ext := ext s; langgraph_history := Some (history_of s) |}).
  pose proof (select_files_final self user (selected_file_names r) s0) as Hff.
  pose proof (select_links_final self user (selected_link_urls r) s0) as Hlf.
  unfold result, final, trace in *.
  destruct (select_files self user (selected_file_names r) s0) as [[rf sf0] tf].
  cbn [fst snd] in *. subst sf0.
  destruct rf as [sf|e|]; try reflexivity.
  destruct (select_links self user (selected_link_urls r) s0) as [[rl sl0] tl].
  cbn [fst snd] in *. subst sl0.
  destruct rl as [sl|e|]; try reflexivity.
  destruct (when_build_index_done (build_index r) sf sl s0) as [_ Hhist].
  unfold final in Hhist.
  destruct (when (build_index r) (build_index_handler sf sl) s0) as [[rb s1] tb].
  cbn [fst snd] in *. destruct rb as [[]|e|]; try reflexivity.
  unfold get_history. rewrite Hhist. cbn [langgraph_history s0 fst snd app].
  destruct (when_display_history_done (0 <? List.length (history_of s))%nat
              (history_of s) s1) as [Hr Hf].
  unfold result, final in Hr, Hf.
  destruct (when (0 <? List.length (history_of s))%nat
                 (for_each (history_of s) (fun item => display_result item true)) s1)
    as [[rr s1'] tr].
  cbn [fst snd] in *. subst rr s1'.
  destruct (match chat_input r with
            | Some prompt => when (truthy prompt) (query_handler sf sl prompt)
            | None => ret tt
            end s1) as [[rc s2] tc].
  cbn [fst snd].
  destruct rc as [[]|e|]; cbn [app]; rewrite <- ?app_assoc; try reflexivity.
  destruct (download_and_clear (clear_history r) s2) as [[rd s3] td].
  cbn [fst snd]. rewrite <- ?app_assoc. reflexivity.
Qed.

(** *** What each stage emits *)

Lemma select_files_shape (self : LangGraphUI) (user : User.t)
    (names : list str) (s : state E) :
  exists notes,
    Forall (fun ev => selection_event ev = true /\ is_listing ev = false
                      /\ is_link_listing ev = false) notes
    /\ (trace (select_files self user names) s = notes
        \/ trace (select_files self user names) s
           = call_get_user_files (User.user_id user) :: notes).
Proof.
  unfold trace, select_files.
  destruct (file_service self); [|eexists; split; [|left; reflexivity]; repeat constructor].
  unfold bind, file_service_get_user_files, when, emit, ret. cbn [fst snd].
  destruct (negb (truthy (get_user_files (ext s) (User.user_id user)))).
  - cbn. eexists. split; [|right; reflexivity]. repeat constructor.
  - match goal with
  | |- context [getitems ?d ?ks s] =>
      destruct (getitems_state d ks s) as [Hs Ht]
  end.
    unfold final, trace in Hs, Ht.
    destruct (getitems _ _ s) as [[[sel|e|] s1] t1]; cbn [fst snd] in *;
      subst s1 t1.
    + destruct (truthy sel); cbn; (eexists; split; [|right; reflexivity]);
        repeat constructor.
    + cbn. exists []. split; [constructor | right; reflexivity].
    + cbn. exists []. split; [constructor | right; reflexivity].
Qed.

Lemma select_links_shape (self : LangGraphUI) (user : User.t)
    (urls : list str) (s : state E) :
  exists notes,
    Forall (fun ev => selection_event ev = true /\ is_listing ev = false
                      /\ is_link_listing ev = false) notes
    /\ (trace (select_links self user urls) s = notes
        \/ trace (select_links self user urls) s
           = call_get_user_links (User.user_id user) :: notes).
Proof.
  unfold trace, select_links.
  destruct (link_service self); [|eexists; split; [|left; reflexivity]; repeat constructor].
  unfold bind, link_service_get_user_links, when, emit, ret. cbn [fst snd].
  destruct (negb (truthy (get_user_links (ext s) (User.user_id user)))).
  - cbn. eexists. split; [|right; reflexivity]. repeat constructor.
  - match goal with
  | |- context [getitems ?d ?ks s] =>
      destruct (getitems_state d ks s) as [Hs Ht]
  end.
    unfold final, trace in Hs, Ht.
    destruct (getitems _ _ s) as [[[sel|e|] s1] t1]; cbn [fst snd] in *;
      subst s1 t1.
    + destruct (truthy sel); cbn; (eexists; split; [|right; reflexivity]);
        repeat constructor.
    + cbn. exists []. split; [constructor | right; reflexivity].
    + cbn. exists []. split; [constructor | right; reflexivity].
Qed.

(** The build-index handler, spelled out. *)
Lemma build_index_handler_run (sf : list FileModel.t) (sl : list LinkModel.t)
    (s : state E) :
  build_index_handler sf sl s
  = if negb (truthy sf) && negb (truthy sl) then
      (Done tt, s,
       [st_warning (lit "Please select at least one file or link to build the index.")])
    else
      let s' := with_ext s (snd (vectorize (ext s) sf sl)) in
      match fst (vectorize (ext s) sf sl) with
      | inr true =>
          (Done tt, s',
           [call_vectorize sf sl;
            st_success (lit "Vector store initialized successfully!")])
      | inr false =>
          (Done tt, s',
           [call_vectorize sf sl;
            st_error (lit "Failed to initialize vector store.")])
      | inl x =>
          if is_Exception x then
            (Done tt, s',
             [call_vectorize sf sl;
              st_error (lit "Error initializing vector store: " ++ exc_str x)])
          else (Raised x, s', [call_vectorize sf sl])
      end.
Proof.
  unfold build_index_handler.
  destruct (negb (truthy sf) && negb (truthy sl)); [reflexivity|].
  unfold try_except, bind, call, emit.
  destruct (vectorize (ext s) sf sl) as [[x|[|]] e]; cbv zeta; cbn [fst snd];
    try destruct (is_Exception x); reflexivity.
Qed.

Lemma replay_events (h : list HistoryItem.t) (s : state E) :
  Forall (fun ev => replay_event ev = true) (trace (replay_stage h) s).
Proof.
  unfold replay_stage. apply trace_when_Forall, trace_for_each_Forall.
  intros item s0. unfold display_result.
  apply trace_bind_Forall;
    [destruct (true : bool); repeat constructor|]. intros _ s1.
  destruct (startswith _ _); [repeat constructor|].
  apply trace_bind_Forall; [repeat constructor|]. intros _ s2.
  apply trace_for_each_Forall. intros; repeat constructor.
Qed.

(** The chat input, spelled out. *)
Lemma chat_stage_run (sf : list FileModel.t) (sl : list LinkModel.t)
    (input : option str) (s : state E) :
  chat_stage sf sl input s
  = match input with
    | Some (c :: prompt) => query_handler sf sl (c :: prompt) s
    | _ => (Done tt, s, [])
    end.
Proof. destruct input as [[|c prompt]|]; reflexivity. Qed.

Lemma query_prefix_events (sf : list FileModel.t) (sl : list LinkModel.t)
    (prompt : str) (e : E) :
  Forall (fun ev => query_event ev = true /\ is_download ev = false)
         (query_prefix sf sl prompt e)
  /\ count is_invoke (query_prefix sf sl prompt e) = 1%nat.
Proof.
  unfold query_prefix.
  destruct (negb (truthy sf) && negb (truthy sl)); split;
    repeat constructor.
Qed.

Lemma query_handler_events (sf : list FileModel.t) (sl : list LinkModel.t)
    (prompt : str) (s : state E) :
  Forall (fun ev => query_event ev = true) (trace (query_handler sf sl prompt) s)
  /\ count is_invoke (trace (query_handler sf sl prompt) s) = 1%nat.
Proof.
  destruct (query_prefix_events sf sl prompt (ext s)) as [Hall Hcount].
  assert (Hall' : Forall (fun ev => query_event ev = true)
                         (query_prefix sf sl prompt (ext s))).
  { eapply Forall_impl; [|exact Hall]. now intros ev [H _]. }
  unfold trace. rewrite query_handler_run.
  destruct (invoke (ext s) _) as [[x|final_state] e]; cbn [snd]; [now split|].
  destruct (get final_state (lit "generation")) as [g|]; cbn [snd]; [|now split].
  destruct (langgraph_history s) as [h|]; cbn [snd]; [|now split].
  split.
  - apply Forall_app. split; [exact Hall'|].
    unfold answer_message. destruct (startswith g _); repeat constructor.
  - rewrite count_app, Hcount. unfold answer_message.
    destruct (startswith g _); reflexivity.
Qed.

Lemma chat_stage_events (sf : list FileModel.t) (sl : list LinkModel.t)
    (input : option str) (s : state E) :
  Forall (fun ev => query_event ev = true) (trace (chat_stage sf sl input) s)
  /\ (count is_invoke (trace (chat_stage sf sl input) s) <= 1)%nat.
Proof.
  unfold trace. rewrite chat_stage_run.
  destruct input as [[|c prompt]|]; cbn [snd];
    try (split; [constructor | cbn; lia]).
  destruct (query_handler_events sf sl (c :: prompt) s) as [Hall Hcount].
  unfold trace in *. split; [exact Hall | lia].
Qed.

Lemma download_events (clear : bool) (s : state E) :
  Forall (fun ev => download_event ev = true)
         (trace (download_and_clear clear) s)
  /\ (count is_download (trace (download_and_clear clear) s) <= 1)%nat.
Proof.
  unfold trace, download_and_clear, bind, get_history.
  destruct (langgraph_history s) as [h|]; [|split; [constructor | cbn; lia]].
  destruct (truthy h); [|split; [constructor | cbn; lia]].
  destruct clear; split; repeat constructor.
Qed.

(** X9. A press of the build-index button calls [vectorize] at most once
    and never asks for a rerun. It ends normally, with exactly one banner,
    unless something was selected and [vectorize] raised what is no
    instance of [Exception]: that exception leaves the handler and no banner
    is shown. The banner is the success message exactly when something was
    selected and [vectorize] returned [True]. *)
Theorem build_index_shows_one_banner (sf : list FileModel.t)
    (sl : list LinkModel.t) (s : state E) :
  let t := trace (build_index_handler sf sl) s in
  let escapes x :=
    (sf <> [] \/ sl <> [])
    /\ fst (vectorize (ext s) sf sl) = inl x /\ is_Exception x = false in
  (count is_vectorize t <= 1)%nat
  /\ ((result (build_index_handler sf sl) s = Done tt
       /\ count is_banner t = 1%nat /\ forall x, ~ escapes x)
      \/ (exists x, result (build_index_handler sf sl) s = Raised x
                    /\ count is_banner t = 0%nat /\ escapes x))
  /\ (In (st_success (lit "Vector store initialized successfully!")) t
      <-> (sf <> [] \/ sl <> []) /\ fst (vectorize (ext s) sf sl) = inr true).
Proof.
  cbv zeta. unfold result, trace. rewrite build_index_handler_run.
  destruct (negb (truthy sf) && negb (truthy sl)) eqn:Hsel; cbn [fst snd].
  - assert (Hnone : ~ (sf <> [] \/ sl <> [])).
    { destruct sf; [|discriminate Hsel]. destruct sl; [|discriminate Hsel].
      intros [H|H]; now apply H. }
    split; [cbn; lia|]. split.
    + left. split; [reflexivity|]. split; [reflexivity|].
      intros x [Hne _]. exact (Hnone Hne).
    + split.
      * intros [H|[]]. discriminate H.
      * intros [Hne _]. exfalso. exact (Hnone Hne).
  - assert (Hne : sf <> [] \/ sl <> []).
    { destruct sf; [|left; discriminate]. destruct sl; [|right; discriminate].
      discriminate Hsel. }
    cbv zeta.
    destruct (fst (vectorize (ext s) sf sl)) as [x|[|]];
      [destruct (is_Exception x) eqn:Hx| |]; cbn [fst snd].
    + split; [cbn; lia|]. split.
      * left. split; [reflexivity|]. split; [reflexivity|].
        intros y (_ & Hy & Hno). injection Hy as <-. congruence.
      * split; [intros [H|[H|[]]]; discriminate H | intros [_ H]; discriminate H].
    + split; [cbn; lia|]. split.
      * right. exists x. split; [reflexivity|]. split; [reflexivity|].
        split; [exact Hne|]. split; [reflexivity | exact Hx].
      * split; [intros [H|[]]; discriminate H | intros [_ H]; discriminate H].
    + split; [cbn; lia|]. split.
      * left. split; [reflexivity|]. split; [reflexivity|].
        intros y (_ & Hy & _). discriminate Hy.
      * split; [intros _; split; [exact Hne | reflexivity]|].
        intros _. right. left. reflexivity.
    + split; [cbn; lia|]. split.
      * left. split; [reflexivity|]. split; [reflexivity|].
        intros y (_ & Hy & _). discriminate Hy.
      * split; [intros [H|[H|[]]]; discriminate H | intros [_ H]; discriminate H].
Qed.

(** X10. When the graph returns a state that has no [generation], the
    query handler raises [KeyError('generation')] right after the
    invocation: the history gets no record and nothing is shown for the
    answer. *)
Theorem missing_generation_raises_key_error (sf : list FileModel.t)
    (sl : list LinkModel.t) (prompt : str) (s : state E)
    (final_state : dict str) (e : E) :
  invoke (ext s) [(lit "question", prompt);
                  (lit "retriever_id", get_retriever_id (ext s) sf sl)]
  = (inr final_state, e) ->
  get final_state (lit "generation") = None ->
  query_handler sf sl prompt s
  = (Raised (KeyError (lit "generation")),
     {| ext := e; langgraph_history := langgraph_history s |},
     chat_message (lit "user") chat_write prompt
     :: (if negb (truthy sf) && negb (truthy sl)
         then [chat_message (lit "AI") chat_warning
                 (lit "You haven't selected any files or links. LangGraph will use default sources or web search.")]
         else [])
     ++ [call_get_retriever_id sf sl;
         call_get_graph;
         call_invoke [(lit "question", prompt);
                      (lit "retriever_id", get_retriever_id (ext s) sf sl)]]).
Proof.
  intros Hinv Hgen. rewrite query_handler_run. unfold graph_inputs.
  rewrite Hinv, Hgen. reflexivity.
Qed.

Lemma display_result_messages (item : HistoryItem.t) (s : state E) :
  display_result item true s = (Done tt, s, item_messages item).
Proof.
  assert (Hev : forall (l : list str) (s0 : state E),
             for_each l (fun event => emit (chat_message (lit "ai") chat_write event)) s0
             = (Done tt, s0, map (chat_message (lit "ai") chat_write) l)).
  { induction l as [|x l IH]; intros s0; cbn [for_each map]; [reflexivity|].
    unfold bind, emit. rewrite IH. reflexivity. }
  unfold display_result, item_messages.
  destruct (startswith (HistoryItem.answer item) (lit "Error"));
    unfold bind, when, emit; cbn [app]; [reflexivity|].
  rewrite Hev. reflexivity.
Qed.

Lemma user_messages_of_item (item : HistoryItem.t) :
  filter is_user_message (item_messages item)
  = [chat_message (lit "user") chat_write (HistoryItem.question item)].
Proof.
  unfold item_messages. cbn [filter is_user_message].
  change (str_eqb (lit "user") (lit "user")) with true. cbv iota. f_equal.
  destruct (startswith _ _); [reflexivity|].
  cbn [filter is_user_message].
  change (str_eqb (lit "ai") (lit "user")) with false. cbv iota.
  induction (HistoryItem.events item) as [|x l IH]; [reflexivity|].
  cbn [map filter is_user_message].
  change (str_eqb (lit "ai") (lit "user")) with false. cbv iota. exact IH.
Qed.

(** X11. Replaying the history shows its records one after the other, in
    the order stored, each as its question followed by its answer (and
    events); the messages shown under the user's name are the stored
    questions, in order. *)
Theorem replay_shows_the_history_in_order (h : list HistoryItem.t)
    (s : state E) :
  for_each h (fun item => display_result item true) s
  = (Done tt, s, flat_map item_messages h)
  /\ filter is_user_message (flat_map item_messages h)
     = map (fun item => chat_message (lit "user") chat_write
                          (HistoryItem.question item)) h.
Proof.
  split.
  - revert s. induction h as [|item h IH]; intros s; [reflexivity|].
    cbn [for_each flat_map]. unfold bind.
    rewrite display_result_messages, IH. reflexivity.
  - induction h as [|item h IH]; [reflexivity|].
    cbn [flat_map map]. rewrite filter_app, user_messages_of_item, IH.
    reflexivity.
Qed.

(** *** The stages of one rerun *)

Lemma count_outside (alphabet p : event -> bool) (t : list event) :
  (forall ev, alphabet ev = true -> p ev = false) ->
  Forall (fun ev => alphabet ev = true) t ->
  count p t = 0%nat.
Proof.
  intros Hdis Hall. apply count_zero.
  eapply Forall_impl; [|exact Hall]. exact Hdis.
Qed.

Lemma select_files_events (self : LangGraphUI) (user : User.t)
    (names : list str) (s : state E) :
  Forall (fun ev => selection_event ev = true)
         (trace (select_files self user names) s)
  /\ (count is_listing (trace (select_files self user names) s) <= 1)%nat
  /\ count is_link_listing (trace (select_files self user names) s) = 0%nat.
Proof.
  destruct (select_files_shape self user names s) as (notes & Hnotes & Hshape).
  assert (Hsel : Forall (fun ev => selection_event ev = true) notes)
    by (eapply Forall_impl; [|exact Hnotes]; now intros ev [H _]).
  assert (Hl : count is_listing notes = 0%nat)
    by (apply count_zero; eapply Forall_impl; [|exact Hnotes];
        now intros ev (_ & H & _)).
  assert (Hk : count is_link_listing notes = 0%nat)
    by (apply count_zero; eapply Forall_impl; [|exact Hnotes];
        now intros ev (_ & _ & H)).
  destruct Hshape as [-> | ->].
  - split; [exact Hsel|]. split; [lia | exact Hk].
  - split; [constructor; [reflexivity | exact Hsel]|].
    unfold count in *. cbn [filter is_listing is_link_listing List.length].
    split; [lia | exact Hk].
Qed.

Lemma select_links_events (self : LangGraphUI) (user : User.t)
    (urls : list str) (s : state E) :
  Forall (fun ev => selection_event ev = true)
         (trace (select_links self user urls) s)
  /\ count is_listing (trace (select_links self user urls) s) = 0%nat
  /\ (count is_link_listing (trace (select_links self user urls) s) <= 1)%nat.
Proof.
  destruct (select_links_shape self user urls s) as (notes & Hnotes & Hshape).
  assert (Hsel : Forall (fun ev => selection_event ev = true) notes)
    by (eapply Forall_impl; [|exact Hnotes]; now intros ev [H _]).
  assert (Hl : count is_listing notes = 0%nat)
    by (apply count_zero; eapply Forall_impl; [|exact Hnotes];
        now intros ev (_ & H & _)).
  assert (Hk : count is_link_listing notes = 0%nat)
    by (apply count_zero; eapply Forall_impl; [|exact Hnotes];
        now intros ev (_ & _ & H)).
  destruct Hshape as [-> | ->].
  - split; [exact Hsel|]. split; [exact Hl | lia].
  - split; [constructor; [reflexivity | exact Hsel]|].
    unfold count in *. cbn [filter is_listing is_link_listing List.length].
    split; [exact Hl | lia].
Qed.

Lemma build_stage_events (pressed : bool) (sf : list FileModel.t)
    (sl : list LinkModel.t) (s : state E) :
  Forall (fun ev => build_event ev = true)
         (trace (when pressed (build_index_handler sf sl)) s)
  /\ (count is_vectorize (trace (when pressed (build_index_handler sf sl)) s) <= 1)%nat
  /\ (pressed = false -> trace (when pressed (build_index_handler sf sl)) s = []).
Proof.
  destruct pressed; cbn [when];
    [|split; [constructor|]; split; [cbn; lia | reflexivity]].
  unfold trace. rewrite build_index_handler_run.
  destruct (negb (truthy sf) && negb (truthy sl)); cbn [snd].
  - split; [repeat constructor|]. split; [cbn; lia | discriminate].
  - cbv zeta.
    destruct (fst (vectorize (ext s) sf sl)) as [x|[|]];
      try destruct (is_Exception x); cbn [snd];
      (split; [repeat constructor|]); (split; [cbn; lia | discriminate]).
Qed.

(** The replay, spelled out. *)
Lemma replay_stage_run (h : list HistoryItem.t) (s : state E) :
  replay_stage h s = (Done tt, s, flat_map item_messages h).
Proof.
  unfold replay_stage. destruct h as [|item0 h0]; [reflexivity|].
  cbn [List.length Nat.ltb Nat.leb when].
  generalize (item0 :: h0) as h. intros h. revert s.
  induction h as [|item h IH]; intros s; [reflexivity|].
  cbn [for_each flat_map]. unfold bind.
  rewrite display_result_messages, IH. reflexivity.
Qed.

(** X12. A rerun stopped by one of the two guards shows one warning and
    changes nothing. A rerun past the guards runs its stages in a fixed
    order, each on the state the one before it left: the file column, the
    link column, the index build (nothing without the button), the replay
    of the history as it stood when the rerun began, the query (nothing
    without a prompt), and the download and clear buttons. Its trace is the
    traces of these stages one after the other, cut after the first stage
    that does not end normally. *)
Theorem tab_stages_in_order (self : LangGraphUI) (r : rerun) (s : state E) :
  ((current_user r = None \/ openai_api_key r = false)
   /\ exists w, render_langgraph_section self r s = (Done tt, s, [st_warning w]))
  \/ (exists user sf sl,
        current_user r = Some user /\ openai_api_key r = true
        /\ let s0 := {| ext := ext s; langgraph_history := Some (history_of s) |} in
           let files := select_files self user (selected_file_names r) in
           let links := select_links self user (selected_link_urls r) in
           let build := when (build_index r) (build_index_handler sf sl) in
           let s1 := final build s0 in
           let query := chat_stage sf sl (chat_input r) in
           let s2 := final query s1 in
           files s0 = (Done sf, s0, trace files s0)
           /\ links s0 = (Done sl, s0, trace links s0)
           /\ (build_index r = false -> build s0 = (Done tt, s0, []))
           /\ (chat_input r = None -> query s1 = (Done tt, s1, []))
           /\ trace (render_langgraph_section self r) s
              = trace files s0 ++ trace links s0 ++ trace build s0
                  ++ match result build s0 with
                     | Done _ =>
                         flat_map item_messages (history_of s)
                           ++ trace query s1
                           ++ match result query s1 with
                              | Done _ =>
                                  trace (download_and_clear (clear_history r)) s2
                              | _ => []
                              end
                     | _ => []
                     end).
Proof.
  destruct (current_user r) as [user|] eqn:Huser.
  2:{ left. split; [now left|]. unfold render_langgraph_section.
      rewrite Huser. eexists. reflexivity. }
  destruct (openai_api_key r) eqn:Hkey.
  2:{ left. split; [now right|]. unfold render_langgraph_section.
      rewrite Huser, Hkey. eexists. reflexivity. }
  right.
  set (s0 := {| ext := ext s; langgraph_history := Some (history_of s) |}).
  destruct (select_files_done self user (selected_file_names r) s0)
    as (sf & Hsf & _).
  destruct (select_links_done self user (selected_link_urls r) s0)
    as (sl & Hsl & _).
  exists user, sf, sl. split; [reflexivity|]. split; [reflexivity|].
  cbv zeta. fold s0.
  split.
  { rewrite (run_eta (select_files self user (selected_file_names r)) s0).
    now rewrite Hsf, select_files_final. }
  split.
  { rewrite (run_eta (select_links self user (selected_link_urls r)) s0).
    now rewrite Hsl, select_links_final. }
  split; [intros ->; reflexivity|].
  split; [intros ->; reflexivity|].
  unfold trace at 1. rewrite (render_run self r s user Huser Hkey). cbv zeta.
  fold s0. rewrite Hsf, Hsl.
  set (s1 := final (when (build_index r) (build_index_handler sf sl)) s0).
  assert (Hreplay : trace (replay_stage (history_of s)) s1
                    = flat_map item_messages (history_of s)).
  { unfold trace. now rewrite replay_stage_run. }
  destruct (result (when (build_index r) (build_index_handler sf sl)) s0)
    as [[]|e|]; cbn [snd]; rewrite ?app_nil_r; [|reflexivity | reflexivity].
  rewrite Hreplay.
  destruct (result (chat_stage sf sl (chat_input r)) s1) as [[]|e|];
    cbn [snd]; rewrite <- ?app_assoc, ?app_nil_r; reflexivity.
Qed.

Lemma render_trace_stages (self : LangGraphUI) (r : rerun) (s : state E)
    (user : User.t) :
  current_user r = Some user ->
  openai_api_key r = true ->
  exists sf sl (s0 s1 s2 : state E) tl tb tr tc td,
    trace (render_langgraph_section self r) s
    = trace (select_files self user (selected_file_names r)) s0
        ++ tl ++ tb ++ tr ++ tc ++ td
    /\ (tl = [] \/ tl = trace (select_links self user (selected_link_urls r)) s0)
    /\ (tb = [] \/ tb = trace (when (build_index r) (build_index_handler sf sl)) s0)
    /\ (tr = [] \/ tr = trace (replay_stage (history_of s)) s1)
    /\ (tc = [] \/ tc = trace (chat_stage sf sl (chat_input r)) s1)
    /\ (td = [] \/ td = trace (download_and_clear (clear_history r)) s2).
Proof.
  intros Huser Hkey. unfold trace at 1.
  rewrite (render_run self r s user Huser Hkey). cbv zeta.
  set (s0 := {| ext := ext s; langgraph_history := Some (history_of s) |}).
  destruct (result (select_files self user (selected_file_names r)) s0)
    as [sf|e|].
  2,3: (exists [], [], s0, s0, s0, [], [], [], [], []; cbn [snd];
        rewrite !app_nil_r; repeat (split; [first [reflexivity | now left]|]);
        now left).
  destruct (result (select_links self user (selected_link_urls r)) s0)
    as [sl|e|].
  2,3: (exists sf, [], s0, s0, s0,
          (trace (select_links self user (selected_link_urls r)) s0),
          [], [], [], []; cbn [snd]; rewrite !app_nil_r;
        split; [reflexivity|]; split; [now right|];
        repeat (split; [now left|]); now left).
  set (s1 := final (when (build_index r) (build_index_handler sf sl)) s0).
  destruct (result (when (build_index r) (build_index_handler sf sl)) s0)
    as [[]|e|].
  2,3: (exists sf, sl, s0, s0, s0,
          (trace (select_links self user (selected_link_urls r)) s0),
          (trace (when (build_index r) (build_index_handler sf sl)) s0),
          [], [], []; cbn [snd]; rewrite !app_nil_r;
        split; [reflexivity|]; split; [now right|]; split; [now right|];
        repeat (split; [now left|]); now left).
  exists sf, sl, s0, s1, (final (chat_stage sf sl (chat_input r)) s1),
    (trace (select_links self user (selected_link_urls r)) s0),
    (trace (when (build_index r) (build_index_handler sf sl)) s0),
    (trace (replay_stage (history_of s)) s1),
    (trace (chat_stage sf sl (chat_input r)) s1).
  destruct (result (chat_stage sf sl (chat_input r)) s1) as [[]|e|].
  - exists (trace (download_and_clear (clear_history r))
                  (final (chat_stage sf sl (chat_input r)) s1)).
    cbn [snd]. rewrite <- !app_assoc.
    split; [reflexivity|]. repeat (split; [now right|]). now right.
  - exists []. cbn [snd]. rewrite <- !app_assoc, app_nil_r.
    split; [reflexivity|]. repeat (split; [now right|]). now left.
  - exists []. cbn [snd]. rewrite <- !app_assoc, app_nil_r.
    split; [reflexivity|]. repeat (split; [now right|]). now left.
Qed.

(** X13. One rerun of the tab reads each listing at most once, calls
    [vectorize] at most once, invokes the graph at most once and offers at
    most one download. *)
Theorem rerun_makes_each_call_at_most_once (self : LangGraphUI) (r : rerun)
    (s : state E) :
  let t := trace (render_langgraph_section self r) s in
  (count is_listing t <= 1)%nat /\ (count is_link_listing t <= 1)%nat
  /\ (count is_vectorize t <= 1)%nat /\ (count is_invoke t <= 1)%nat
  /\ (count is_download t <= 1)%nat.
Proof.
  cbv zeta.
  destruct (current_user r) as [user|] eqn:Huser.
  2:{ unfold trace, render_langgraph_section. rewrite Huser. cbn.
      repeat split; lia. }
  destruct (openai_api_key r) eqn:Hkey.
  2:{ unfold trace, render_langgraph_section. rewrite Huser, Hkey. cbn.
      repeat split; lia. }
  destruct (render_trace_stages self r s user Huser Hkey)
    as (sf & sl & s0 & s1 & s2 & tl & tb & tr & tc & td
        & -> & Hl & Hb & Hr & Hc & Hd).
  destruct (select_files_events self user (selected_file_names r) s0)
    as (Af & Bf & Cf).
  assert (Al : Forall (fun ev => selection_event ev = true) tl
               /\ count is_listing tl = 0%nat
               /\ (count is_link_listing tl <= 1)%nat).
  { destruct Hl as [-> | ->];
      [split; [constructor|]; split; [reflexivity | cbn; lia]
      | apply select_links_events]. }
  assert (Ab : Forall (fun ev => build_event ev = true) tb
               /\ (count is_vectorize tb <= 1)%nat).
  { destruct Hb as [-> | ->]; [split; [constructor | cbn; lia]|].
    destruct (build_stage_events (build_index r) sf sl s0) as (H1 & H2 & _).
    now split. }
  assert (Ar : Forall (fun ev => replay_event ev = true) tr).
  { destruct Hr as [-> | ->]; [constructor | apply replay_events]. }
  assert (Ac : Forall (fun ev => query_event ev = true) tc
               /\ (count is_invoke tc <= 1)%nat).
  { destruct Hc as [-> | ->]; [split; [constructor | cbn; lia]|].
    apply chat_stage_events. }
  assert (Ad : Forall (fun ev => download_event ev = true) td
               /\ (count is_download td <= 1)%nat).
  { destruct Hd as [-> | ->]; [split; [constructor | cbn; lia]|].
    apply download_events. }
  destruct Al as (Al & Bl & Cl). destruct Ab as (Ab & Bb).
  destruct Ac as (Ac & Bc). destruct Ad as (Ad & Bd).
  assert (Z : forall (alphabet p : event -> bool) (t : list event),
             Forall (fun ev => alphabet ev = true) t ->
             (forall ev, alphabet ev = true -> p ev = false) ->
             count p t = 0%nat)
    by (intros alphabet p t H1 H2; now apply (count_outside alphabet)).
  rewrite !count_app.
  rewrite (Z _ is_vectorize _ Af), (Z _ is_invoke _ Af), (Z _ is_download _ Af),
    (Z _ is_vectorize _ Al), (Z _ is_invoke _ Al), (Z _ is_download _ Al),
    (Z _ is_listing _ Ab), (Z _ is_link_listing _ Ab), (Z _ is_invoke _ Ab),
    (Z _ is_download _ Ab),
    (Z _ is_listing _ Ar), (Z _ is_link_listing _ Ar), (Z _ is_vectorize _ Ar),
    (Z _ is_invoke _ Ar), (Z _ is_download _ Ar),
    (Z _ is_listing _ Ac), (Z _ is_link_listing _ Ac), (Z _ is_vectorize _ Ac),
    (Z _ is_download _ Ac),
    (Z _ is_listing _ Ad), (Z _ is_link_listing _ Ad), (Z _ is_vectorize _ Ad),
    (Z _ is_invoke _ Ad)
    by (intros []; cbn; intros; first [reflexivity | discriminate]).
  repeat split; lia.
Qed.

(** *** The history across a rerun *)

Lemma chat_stage_final_history (sf : list FileModel.t) (sl : list LinkModel.t)
    (input : option str) (s : state E) (h : list HistoryItem.t) :
  langgraph_history s = Some h ->
  (result (chat_stage sf sl input) s <> Rerun
   /\ langgraph_history (final (chat_stage sf sl input) s) = Some h)
  \/ (result (chat_stage sf sl input) s = Done tt
      /\ exists prompt generation,
           input = Some prompt
           /\ langgraph_history (final (chat_stage sf sl input) s)
              = Some (h ++ [result_item prompt generation])).
Proof.
  intros Hh. unfold result, final. rewrite chat_stage_run.
  destruct input as [[|c prompt]|]; cbn [fst snd];
    try (left; split; [discriminate | exact Hh]).
  rewrite query_handler_run.
  destruct (invoke (ext s) _) as [[x|final_state] e]; cbn [fst snd];
    [left; split; [discriminate | exact Hh]|].
  destruct (get final_state (lit "generation")) as [g|]; cbn [fst snd];
    [|left; split; [discriminate | exact Hh]].
  rewrite Hh. cbn [fst snd]. right. split; [reflexivity|].
  exists (c :: prompt), g. split; reflexivity.
Qed.

Lemma build_stage_history (pressed : bool) (sf : list FileModel.t)
    (sl : list LinkModel.t) (s : state E) :
  langgraph_history (final (when pressed (build_index_handler sf sl)) s)
  = langgraph_history s.
Proof. apply when_build_index_done. Qed.

(** What one rerun does to the history. *)
Lemma render_history_step (self : LangGraphUI) (r : rerun) (s : state E) :
  history_of (final (render_langgraph_section self r) s) = history_of s
  \/ (exists prompt generation,
         chat_input r = Some prompt
         /\ history_of (final (render_langgraph_section self r) s)
            = history_of s ++ [result_item prompt generation])
  \/ (clear_history r = true
      /\ history_of (final (render_langgraph_section self r) s) = []).
Proof.
  destruct (current_user r) as [user|] eqn:Huser.
  2:{ left. unfold final, render_langgraph_section. now rewrite Huser. }
  destruct (openai_api_key r) eqn:Hkey.
  2:{ left. unfold final, render_langgraph_section. now rewrite Huser, Hkey. }
  unfold final at 1 2 3. rewrite (render_run self r s user Huser Hkey). cbv zeta.
  set (s0 := {| ext := ext s; langgraph_history := Some (history_of s) |}).
  destruct (result (select_files self user (selected_file_names r)) s0)
    as [sf|e|]; try (left; reflexivity).
  destruct (result (select_links self user (selected_link_urls r)) s0)
    as [sl|e|]; try (left; reflexivity).
  pose proof (build_stage_history (build_index r) sf sl s0) as Hs1.
  set (s1 := final (when (build_index r) (build_index_handler sf sl)) s0) in *.
  change (langgraph_history s0) with (Some (history_of s)) in Hs1.
  assert (Hof : forall (s' : state E) h', langgraph_history s' = Some h' ->
                                          history_of s' = h')
    by (intros s' h' H; unfold history_of; now rewrite H).
  destruct (result (when (build_index r) (build_index_handler sf sl)) s0)
    as [[]|e|]; cbn [fst snd]; [| left; now apply Hof | left; now apply Hof].
  assert (Hend : forall (s2 : state E) h2,
             langgraph_history s2 = Some h2 ->
             history_of (final (download_and_clear (clear_history r)) s2) = h2
             \/ (clear_history r = true
                 /\ history_of (final (download_and_clear (clear_history r)) s2)
                    = [])).
  { intros s2 h2 H2. unfold final.
    rewrite (download_and_clear_run (clear_history r) s2 h2 H2).
    destruct (truthy h2); [|left; now apply Hof].
    destruct (clear_history r); [right; split; reflexivity | left; now apply Hof]. }
  destruct (chat_stage_final_history sf sl (chat_input r) s1 (history_of s) Hs1)
    as [[Hnr Hsame] | [Hdone (prompt & g & Hin & Happ)]].
  - destruct (result (chat_stage sf sl (chat_input r)) s1) as [[]|e|];
      cbn [fst snd]; [| left; now apply Hof | contradiction].
    destruct (Hend _ _ Hsame) as [H | H]; [left; exact H | right; right; exact H].
  - rewrite Hdone. cbn [fst snd].
    destruct (Hend _ _ Happ) as [H | H]; [|right; right; exact H].
    right. left. exists prompt, g. split; [exact Hin | exact H].
Qed.

(** X14. While the clear button is not pressed, any download a rerun
    offers is the dump of the history as it stands when the rerun ends (the
    answer just given included), and a rerun that ends normally with a
    non-empty history offers it. *)
Theorem download_offers_the_latest_history (self : LangGraphUI) (r : rerun)
    (s : state E) :
  clear_history r = false ->
  let t := trace (render_langgraph_section self r) s in
  let h' := history_of (final (render_langgraph_section self r) s) in
  (forall b, In (st_download_button b) t ->
             result (render_langgraph_section self r) s = Done tt
             /\ b = history_button h' /\ h' <> [])
  /\ (result (render_langgraph_section self r) s = Done tt ->
      current_user r <> None -> openai_api_key r = true -> h' <> [] ->
      In (st_download_button (history_button h')) t).
Proof.
  intros Hclear. cbv zeta.
  destruct (current_user r) as [user|] eqn:Huser.
  2:{ unfold trace, result, final, render_langgraph_section. rewrite Huser.
      cbn [fst snd emit]. split; [|intros _ H; now contradiction H].
      intros b [H|[]]. discriminate H. }
  destruct (openai_api_key r) eqn:Hkey.
  2:{ unfold trace, result, final, render_langgraph_section.
      rewrite Huser, Hkey. cbn [fst snd emit negb].
      split; [|intros _ _ H; discriminate H].
      intros b [H|[]]. discriminate H. }
  assert (Hout : forall (alphabet : event -> bool) (t : list event) b,
             Forall (fun ev => alphabet ev = true) t ->
             alphabet (st_download_button b) = false ->
             ~ In (st_download_button b) t).
  { intros alphabet t b Hall Hb Hin. rewrite Forall_forall in Hall.
    specialize (Hall _ Hin). congruence. }
  unfold trace, result, final.
  rewrite (render_run self r s user Huser Hkey). cbv zeta.
  set (s0 := {| ext := ext s; langgraph_history := Some (history_of s) |}).
  destruct (select_files_events self user (selected_file_names r) s0) as [Hf _].
  destruct (select_links_events self user (selected_link_urls r) s0) as [Hl _].
  destruct (result (select_files self user (selected_file_names r)) s0)
    as [sf|e|]; cbn [fst snd].
  2,3: (split; [|discriminate]; intros b Hin; exfalso;
        exact (Hout _ _ b Hf eq_refl Hin)).
  destruct (result (select_links self user (selected_link_urls r)) s0)
    as [sl|e|]; cbn [fst snd].
  2,3: (split; [|discriminate]; intros b Hin; exfalso;
        apply in_app_or in Hin; destruct Hin as [Hin|Hin];
        [exact (Hout _ _ b Hf eq_refl Hin) | exact (Hout _ _ b Hl eq_refl Hin)]).
  destruct (build_stage_events (build_index r) sf sl s0) as (Hb & _).
  pose proof (build_stage_history (build_index r) sf sl s0) as Hs1.
  set (s1 := final (when (build_index r) (build_index_handler sf sl)) s0) in *.
  change (langgraph_history s0) with (Some (history_of s)) in Hs1.
  pose proof (replay_events (history_of s) s1) as Hr.
  destruct (chat_stage_events sf sl (chat_input r) s1) as [Hq _].
  destruct (result (when (build_index r) (build_index_handler sf sl)) s0)
    as [[]|e|]; cbn [fst snd].
  2,3: (split; [|discriminate]; intros b Hin; exfalso;
        apply in_app_or in Hin; destruct Hin as [Hin|Hin];
        [exact (Hout _ _ b Hf eq_refl Hin)|];
        apply in_app_or in Hin; destruct Hin as [Hin|Hin];
        [exact (Hout _ _ b Hl eq_refl Hin) | exact (Hout _ _ b Hb eq_refl Hin)]).
  assert (Hpre : forall b t',
             In (st_download_button b)
                (trace (select_files self user (selected_file_names r)) s0
                   ++ trace (select_links self user (selected_link_urls r)) s0
                   ++ trace (when (build_index r) (build_index_handler sf sl)) s0
                   ++ trace (replay_stage (history_of s)) s1
                   ++ trace (chat_stage sf sl (chat_input r)) s1 ++ t') ->
             In (st_download_button b) t').
  { intros b t' Hin.
    apply in_app_or in Hin. destruct Hin as [Hin|Hin];
      [exfalso; exact (Hout _ _ b Hf eq_refl Hin)|].
    apply in_app_or in Hin. destruct Hin as [Hin|Hin];
      [exfalso; exact (Hout _ _ b Hl eq_refl Hin)|].
    apply in_app_or in Hin. destruct Hin as [Hin|Hin];
      [exfalso; exact (Hout _ _ b Hb eq_refl Hin)|].
    apply in_app_or in Hin. destruct Hin as [Hin|Hin];
      [exfalso; exact (Hout _ _ b Hr eq_refl Hin)|].
    apply in_app_or in Hin. destruct Hin as [Hin|Hin];
      [exfalso; exact (Hout _ _ b Hq eq_refl Hin) | exact Hin]. }
  assert (Hsome : exists h2,
             langgraph_history (final (chat_stage sf sl (chat_input r)) s1)
             = Some h2).
  { destruct (chat_stage_final_history sf sl (chat_input r) s1 _ Hs1)
      as [[_ H] | [_ (p0 & g & _ & H)]]; eexists; exact H. }
  destruct Hsome as [h2 Hh2].
  destruct (result (chat_stage sf sl (chat_input r)) s1) as [[]|e|];
    cbn [fst snd].
  2,3: (split; [|discriminate]; intros b Hin; exfalso;
        rewrite <- (app_nil_r (trace (chat_stage sf sl (chat_input r)) s1)) in Hin;
        rewrite <- ?app_assoc in Hin; exact (Hpre b [] Hin)).
  set (s2 := final (chat_stage sf sl (chat_input r)) s1) in *.
  pose proof (download_and_clear_run (clear_history r) s2 h2 Hh2) as Hdl.
  assert (Hof : history_of s2 = h2)
    by (unfold history_of; now rewrite Hh2).
  assert (Hres : result (download_and_clear (clear_history r)) s2 = Done tt
                 /\ final (download_and_clear (clear_history r)) s2 = s2
                 /\ trace (download_and_clear (clear_history r)) s2
                    = if truthy h2 then [st_download_button (history_button h2)]
                      else []).
  { unfold result, final, trace. rewrite Hdl, Hclear.
    destruct (truthy h2); repeat split; reflexivity. }
  destruct Hres as (-> & -> & ->). clear Hdl.
  destruct h2 as [|item h2]; cbn [truthy fst snd].
  - rewrite Hof. split; [|intros _ _ _ H; now contradiction H].
    intros b Hin. exfalso. rewrite <- ?app_assoc in Hin.
    exact (Hpre b [] Hin).
  - rewrite Hof. split.
    + intros b Hin. rewrite <- ?app_assoc in Hin. apply Hpre in Hin.
      destruct Hin as [Hin | []].
      injection Hin as <-. split; [reflexivity|]. split; [reflexivity | discriminate].
    + intros _ _ _ _. rewrite <- ?app_assoc.
      repeat (apply in_or_app; right). left. reflexivity.
Qed.

(** X15. Across any run of reruns in which the clear button is never
    pressed the history only grows at its end: what was stored stays as it
    was, each rerun adds at most one record, and every record added holds
    the prompt of one of those reruns and no events. *)
Theorem session_history_only_grows (self : LangGraphUI) (reruns : list rerun)
    (s : state E) :
  Forall (fun r => clear_history r = false) reruns ->
  exists added,
    history_of (session self reruns s) = history_of s ++ added
    /\ (List.length added <= List.length reruns)%nat
    /\ Forall (fun item =>
                 HistoryItem.events item = []
                 /\ exists r, In r reruns
                              /\ chat_input r = Some (HistoryItem.question item))
              added.
Proof.
  intros Hall. revert s. induction Hall as [|r reruns Hr _ IH]; intros s.
  - exists []. cbn [session]. rewrite app_nil_r.
    split; [reflexivity|]. split; [cbn; lia | constructor].
  - cbn [session].
    destruct (IH (final (render_langgraph_section self r) s))
      as (added & Heq & Hlen & Hadded).
    assert (Hweak : Forall (fun item =>
                              HistoryItem.events item = []
                              /\ exists r0, In r0 (r :: reruns)
                                            /\ chat_input r0
                                               = Some (HistoryItem.question item))
                           added).
    { eapply Forall_impl; [|exact Hadded].
      intros item (Hev & r0 & Hin & Hq). split; [exact Hev|].
      exists r0. split; [now right | exact Hq]. }
    destruct (render_history_step self r s)
      as [Hsame | [(prompt & g & Hin & Happ) | [Hc _]]].
    + exists added. rewrite Heq, Hsame.
      split; [reflexivity|]. split; [cbn; lia | exact Hweak].
    + exists (result_item prompt g :: added). rewrite Heq, Happ, <- app_assoc.
      split; [reflexivity|]. split; [cbn; lia|].
      constructor; [|exact Hweak]. split; [reflexivity|].
      exists r. split; [now left | exact Hin].
    + congruence.
Qed.

(** X16. Whatever the reruns, clears included, the tab only ever stores
    records without events: if the history starts with none that has
    events (a fresh session has no history at all), none appears. *)
Theorem session_records_have_no_events (self : LangGraphUI)
    (reruns : list rerun) (s : state E) :
  Forall (fun item => HistoryItem.events item = []) (history_of s) ->
  Forall (fun item => HistoryItem.events item = [])
         (history_of (session self reruns s)).
Proof.
  revert s. induction reruns as [|r reruns IH]; intros s Hs; [exact Hs|].
  cbn [session]. apply IH.
  destruct (render_history_step self r s)
    as [Hsame | [(prompt & g & _ & Happ) | [_ Hnil]]].
  - now rewrite Hsame.
  - rewrite Happ. apply Forall_app. split; [exact Hs|]. now constructor.
  - rewrite Hnil. constructor.
Qed.

End TabRuns.

(** ** The page *)

Section PageRuns.

Context {E : Type} {FS : FileService E} {LS : LinkService E} {RG : Rag E}
        {UI : AppPage.AppUI E}.

Lemma upload_form_events (user : option User.t) (form : upload_form)
    (s : state E) :
  Forall (fun ev => upload_event ev = true) (trace (main user form) s).
Proof.
  unfold main. destruct user as [u|]; [|repeat constructor].
  destruct (submit_button form && truthy (uploaded_files form)); [|constructor].
  cbn [when]. apply for_each_upload_Forall. intros uf s' _.
  unfold trace. rewrite upload_run. cbv zeta.
  destruct (find _ _) as [f|]; [destruct (replace_existing form)|]; cbn [snd];
    unfold upload_report, the_add; try destruct (fst (add_file _ _ _ _ _));
    repeat constructor.
Qed.

(** An event of a sequence of statements comes from one of them. *)
Lemma in_order_event (stages : list (AppPage.Page E)) (s : state E)
    (ev : AppPage.page_event) :
  In ev (AppPage.page_trace (AppPage.in_order stages) s) ->
  exists stage s', In stage stages /\ In ev (AppPage.page_trace stage s').
Proof.
  revert s. induction stages as [|stage stages IH]; intros s Hin;
    [destruct Hin|].
  unfold AppPage.page_trace in Hin. cbn [AppPage.in_order] in Hin.
  destruct (stage s) as [[r s1] t1] eqn:Hstage.
  assert (Hhere : In ev t1 -> exists st s', In st (stage :: stages)
                                            /\ In ev (AppPage.page_trace st s')).
  { intros H. exists stage, s. split; [now left|].
    unfold AppPage.page_trace. now rewrite Hstage. }
  destruct r as [[]|e|]; cbn [snd] in Hin; try (now apply Hhere).
  destruct (AppPage.in_order stages s1) as [[r2 s2] t2] eqn:Hrest.
  cbn [snd] in Hin. apply in_app_or in Hin. destruct Hin as [Hin|Hin];
    [now apply Hhere|].
  destruct (IH s1) as (st & s' & Hst & Hev).
  { unfold AppPage.page_trace. now rewrite Hrest. }
  exists st, s'. split; [now right | exact Hev].
Qed.

Lemma in_order_here (stage : AppPage.Page E) (rest : list (AppPage.Page E))
    (s : state E) (ev : AppPage.page_event) :
  In ev (AppPage.page_trace stage s) ->
  In ev (AppPage.page_trace (AppPage.in_order (stage :: rest)) s).
Proof.
  unfold AppPage.page_trace. cbn [AppPage.in_order].
  destruct (stage s) as [[r s1] t1]. cbn [snd]. intros Hin.
  destruct r as [[]|e|]; try exact Hin.
  destruct (AppPage.in_order rest s1) as [[r2 s2] t2]. cbn [snd].
  apply in_or_app. now left.
Qed.

Lemma in_order_later (stage : AppPage.Page E) (rest : list (AppPage.Page E))
    (s : state E) (ev : AppPage.page_event) :
  AppPage.page_result stage s = Done tt ->
  In ev (AppPage.page_trace (AppPage.in_order rest) (AppPage.page_final stage s)) ->
  In ev (AppPage.page_trace (AppPage.in_order (stage :: rest)) s).
Proof.
  unfold AppPage.page_trace, AppPage.page_result, AppPage.page_final.
  cbn [AppPage.in_order].
  destruct (stage s) as [[r s1] t1]. cbn [fst snd]. intros -> Hin.
  destruct (AppPage.in_order rest s1) as [[r2 s2] t2]. cbn [snd] in *.
  apply in_or_app. now right.
Qed.

Lemma lift_event (m : M E unit) (s : state E) (ev : AppPage.page_event) :
  In ev (AppPage.page_trace (AppPage.lift m) s) ->
  exists ev0, ev = AppPage.script ev0 /\ In ev0 (trace m s).
Proof.
  unfold AppPage.page_trace, AppPage.lift, trace.
  destruct (m s) as [[r s1] t]. cbn [snd]. intros Hin.
  apply in_map_iff in Hin. destruct Hin as (ev0 & <- & Hin). now exists ev0.
Qed.

Lemma component_event (c : AppPage.component) (s : state E)
    (ev : AppPage.page_event) :
  In ev (AppPage.page_trace (AppPage.component_stage c) s) ->
  ev = AppPage.rendered c.
Proof.
  unfold AppPage.page_trace, AppPage.component_stage.
  destruct (AppPage.render c (ext s)) as [r e]. cbn [snd].
  intros [H|[]]. now symmetry.
Qed.

Lemma environment_event (environ : list str) (s : state E)
    (ev : AppPage.page_event) :
  In ev (AppPage.page_trace (AppPage.setup_environment_variables environ) s) ->
  exists msg, ev = AppPage.st_sidebar_warning msg.
Proof.
  unfold AppPage.page_trace, AppPage.setup_environment_variables.
  cbn [AppPage.in_order].
  destruct (negb (AppPage.contains environ (lit "OPENAI_API_KEY")));
    destruct (negb (AppPage.contains environ (lit "TAVILY_API_KEY")));
    cbn; intros H; repeat destruct H as [H|H]; try contradiction;
    eexists; symmetry; exact H.
Qed.

(** X17. Without an authenticated user the page is the login page and
    nothing else: whatever the form and the widgets hold, no part of the
    upload form or of the tab runs, so no file is listed, added or deleted,
    no index is built and the graph is not invoked. *)
Theorem unauthenticated_page_is_the_login_page (i : AppPage.inputs)
    (s : state E) :
  AppPage.is_authenticated (ext s) = false ->
  AppPage.page_trace (AppPage.main i) s
  = [AppPage.st_set_page_config; AppPage.call_is_authenticated;
     AppPage.rendered AppPage.auth_ui_render_login_page]
  /\ (forall ev, ~ In (AppPage.script ev) (AppPage.page_trace (AppPage.main i) s))
  /\ langgraph_history (AppPage.page_final (AppPage.main i) s)
     = langgraph_history s.
Proof.
  intros Hauth.
  assert (Hrun : AppPage.main i s
                 = (fst (AppPage.render AppPage.auth_ui_render_login_page (ext s)),
                    with_ext s (snd (AppPage.render AppPage.auth_ui_render_login_page
                                                    (ext s))),
                    [AppPage.st_set_page_config; AppPage.call_is_authenticated;
                     AppPage.rendered AppPage.auth_ui_render_login_page])).
  { unfold AppPage.main. rewrite Hauth. cbn [negb].
    cbn [AppPage.in_order AppPage.setup_page_config AppPage.page_emit].
    unfold AppPage.component_stage.
    destruct (AppPage.render AppPage.auth_ui_render_login_page (ext s))
      as [[[]|e|] e']; reflexivity. }
  unfold AppPage.page_trace, AppPage.page_final. rewrite Hrun. cbn [fst snd].
  split; [reflexivity|]. split; [|reflexivity].
  intros ev Hin. cbn [In] in Hin.
  repeat destruct Hin as [Hin|Hin]; try discriminate Hin; contradiction.
Qed.

(** X18. With a user authenticated and no [OPENAI_API_KEY] in the
    environment, the sidebar warns about the key and the tab does nothing
    but warn: every call the page makes from the two modelled source files
    is one of the upload form or a warning, so no links are listed, no
    index is built, the graph is not invoked and no download is offered. *)
Theorem page_without_openai_key (i : AppPage.inputs) (s : state E) :
  AppPage.is_authenticated (ext s) = true ->
  AppPage.contains (AppPage.environ i) (lit "OPENAI_API_KEY") = false ->
  In (AppPage.st_sidebar_warning
        ([9888; 65039]
           ++ lit " OPENAI_API_KEY not set in environment. Some AI features may not work."))
     (AppPage.page_trace (AppPage.main i) s)
  /\ forall ev, In (AppPage.script ev) (AppPage.page_trace (AppPage.main i) s) ->
                upload_event ev = true.
Proof.
  intros Hauth Hkey. split.
  - unfold AppPage.main, AppPage.page_trace. rewrite Hauth. cbn [negb].
    match goal with
    | |- In ?w (snd (AppPage.in_order ?l s)) =>
        change (In w (AppPage.page_trace (AppPage.in_order l) s))
    end.
    do 4 (apply in_order_later; [reflexivity|]).
    apply in_order_here. unfold AppPage.setup_environment_variables.
    rewrite Hkey. cbn [negb]. apply in_order_here. now left.
  - intros ev Hin. unfold AppPage.main, AppPage.page_trace in Hin.
    rewrite Hauth in Hin. cbn [negb] in Hin.
    match type of Hin with
    | In ?w (snd (AppPage.in_order ?l s)) =>
        change (In w (AppPage.page_trace (AppPage.in_order l) s)) in Hin
    end.
    apply in_order_event in Hin. destruct Hin as (stage & s' & Hstage & Hev).
    cbn [In] in Hstage.
    repeat destruct Hstage as [Hstage|Hstage]; try contradiction; subst stage;
      try (apply component_event in Hev; discriminate Hev);
      try (cbn in Hev; destruct Hev as [Hev|[]]; discriminate Hev).
    + apply environment_event in Hev. destruct Hev as [msg Hev]. discriminate Hev.
    + apply lift_event in Hev. destruct Hev as (ev0 & Heq & Hev0).
      injection Heq as <-.
      pose proof (upload_form_events (AppPage.get_current_user (ext s))
                    (AppPage.form i) s') as Hall.
      rewrite Forall_forall in Hall. exact (Hall _ Hev0).
    + apply lift_event in Hev. destruct Hev as (ev0 & Heq & Hev0).
      injection Heq as <-.
      unfold trace, render_langgraph_section, AppPage.tab_rerun in Hev0.
      cbn [current_user openai_api_key] in Hev0. rewrite Hkey in Hev0.
      destruct (AppPage.get_current_user (ext s)); cbn in Hev0;
        destruct Hev0 as [<-|[]]; reflexivity.
Qed.

End PageRuns.

(** ** The text of the download *)

Section DumpText.

Lemma hex_digit_text (d : N) : d < 16 -> is_ascii_text (Json.hex_digit d) = true.
Proof.
  intros Hd. unfold is_ascii_text, Json.hex_digit.
  destruct (N.ltb_spec d 10).
  - replace (48 + d =? 10) with false by (symmetry; apply N.eqb_neq; lia).
    apply andb_true_iff. split; apply N.leb_le; lia.
  - replace (87 + d =? 10) with false by (symmetry; apply N.eqb_neq; lia).
    apply andb_true_iff. split; apply N.leb_le; lia.
Qed.

Lemma u_escape_text (n : N) :
  n < 65536 -> forallb is_ascii_text (Json.u_escape n) = true.
Proof.
  intros Hn. unfold Json.u_escape. cbn [forallb].
  rewrite !hex_digit_text; try reflexivity.
  - apply N.mod_lt. discriminate.
  - apply N.mod_lt. discriminate.
  - apply N.mod_lt. discriminate.
  - apply N.Div0.div_lt_upper_bound. exact Hn.
Qed.

Lemma surrogate_below (base x : N) :
  base < 65536 -> N.lor base (N.land x 1023) < 65536.
Proof.
  intros Hbase.
  destruct (N.eq_dec (N.lor base (N.land x 1023)) 0) as [-> | Hnz]; [reflexivity|].
  change 65536 with (2 ^ 16). apply N.log2_lt_pow2; [lia|].
  rewrite N.log2_lor. apply N.max_lub_lt.
  - destruct (N.eq_dec base 0) as [-> | Hb]; [reflexivity|].
    apply N.log2_lt_pow2; [lia | exact Hbase].
  - apply N.le_lt_trans with (N.log2 1023); [|reflexivity].
    pose proof (N.log2_land x 1023) as Hl.
    apply N.le_trans with (N.min (N.log2 x) (N.log2 1023)); [exact Hl|].
    apply N.le_min_r.
Qed.

Lemma escape_char_text (c : N) :
  forallb is_ascii_text (Json.escape_char c) = true.
Proof.
  unfold Json.escape_char.
  destruct (c =? 92); [reflexivity|].
  destruct (c =? 34); [reflexivity|].
  destruct ((32 <=? c) && (c <=? 126)) eqn:Hprint.
  { cbn [forallb]. unfold is_ascii_text. rewrite Hprint.
    now rewrite orb_true_r. }
  destruct (c =? 8); [reflexivity|].
  destruct (c =? 12); [reflexivity|].
  destruct (c =? 10); [reflexivity|].
  destruct (c =? 13); [reflexivity|].
  destruct (c =? 9); [reflexivity|].
  destruct (N.ltb_spec c 65536) as [Hc|Hc]; [now apply u_escape_text|].
  cbv zeta. rewrite forallb_app.
  rewrite !u_escape_text; try reflexivity; apply surrogate_below; reflexivity.
Qed.

Lemma encode_text (s : str) :
  forallb is_ascii_text (Json.encode_basestring_ascii s) = true.
Proof.
  unfold Json.encode_basestring_ascii. cbn [forallb]. rewrite forallb_app.
  cbn [forallb]. change (is_ascii_text 34) with true. cbn [andb].
  rewrite andb_true_r.
  induction s as [|c s IH]; [reflexivity|].
  cbn [flat_map]. rewrite forallb_app, escape_char_text. exact IH.
Qed.

Lemma newline_indent_text (level : nat) :
  forallb is_ascii_text (Json.newline_indent level) = true.
Proof.
  unfold Json.newline_indent. cbn [forallb].
  change (is_ascii_text 10) with true. cbn [andb].
  induction (Json.indent * level)%nat as [|n IH]; [reflexivity|].
  cbn [repeat forallb]. now rewrite IH.
Qed.

Lemma join_text (sep : str) (chunks : list str) :
  forallb is_ascii_text sep = true ->
  Forall (fun chunk => forallb is_ascii_text chunk = true) chunks ->
  forallb is_ascii_text (Json.join sep chunks) = true.
Proof.
  intros Hsep Hall. induction Hall as [|x rest Hx Hrest IH]; [reflexivity|].
  destruct rest as [|y rest]; [exact Hx|].
  change (Json.join sep (x :: y :: rest))
    with (x ++ sep ++ Json.join sep (y :: rest)).
  now rewrite !forallb_app, Hx, Hsep, IH.
Qed.

Lemma iterencode_text (v : Json.value) :
  forall level, forallb is_ascii_text (Json.iterencode level v) = true.
Proof.
  induction v as [| b | s | items IH | members IH] using JsonFacts.value_ind';
    intros level.
  - reflexivity.
  - destruct b; reflexivity.
  - apply encode_text.
  - destruct items as [|x items]; [reflexivity|].
    change (Json.iterencode level (Json.Array (x :: items)))
      with (91 :: Json.newline_indent (S level)
              ++ Json.join (44 :: Json.newline_indent (S level))
                   (map (Json.iterencode (S level)) (x :: items))
              ++ Json.newline_indent level ++ [93]).
    cbn [forallb]. change (is_ascii_text 91) with true. cbn [andb].
    rewrite !forallb_app, !newline_indent_text. cbn [forallb andb].
    change (is_ascii_text 93) with true. rewrite andb_true_r.
    apply join_text.
    + cbn [forallb]. now rewrite newline_indent_text.
    + apply Forall_map. revert IH. apply Forall_impl. intros y Hy. apply Hy.
  - destruct members as [|kv members]; [reflexivity|].
    change (Json.iterencode level (Json.Object (kv :: members)))
      with (123 :: Json.newline_indent (S level)
              ++ Json.join (44 :: Json.newline_indent (S level))
                   (map (fun kv =>
                           match kv with
                           | (k, x) =>
                               Json.encode_basestring_ascii k ++ lit ": "
                                 ++ Json.iterencode (S level) x
                           end) (kv :: members))
              ++ Json.newline_indent level ++ [125]).
    cbn [forallb]. change (is_ascii_text 123) with true. cbn [andb].
    rewrite !forallb_app, !newline_indent_text. cbn [forallb andb].
    change (is_ascii_text 125) with true. rewrite andb_true_r.
    apply join_text.
    + cbn [forallb]. now rewrite newline_indent_text.
    + apply Forall_map. revert IH. apply Forall_impl. intros [k y] Hy.
      cbn [snd] in Hy. rewrite !forallb_app, encode_text, Hy. reflexivity.
Qed.

Context {E : Type} {FS : FileService E} {LS : LinkService E} {RG : Rag E}.

Lemma download_button_is_a_dump (clear : bool) (s : state E)
    (b : download_button) :
  In (st_download_button b) (trace (download_and_clear clear) s) ->
  exists h, b = history_button h.
Proof.
  unfold trace, download_and_clear, bind, get_history.
  destruct (langgraph_history s) as [h|].
  - destruct (truthy h); [|intros []].
    destruct clear; cbn; intros Hin;
      repeat destruct Hin as [Hin|Hin]; try discriminate Hin;
      try contradiction; injection Hin as <-; now exists h.
  - cbn. intros Hin. repeat destruct Hin as [Hin|Hin]; try discriminate Hin;
      try contradiction; try (injection Hin as <-; now eexists).
Qed.

(** X19. Whatever the questions and answers hold, the data of a download
    button that the tab shows is plain ASCII text: line feeds and printable
    characters only, every other character of the history being written as
    an escape. *)
Theorem download_data_is_ascii (self : LangGraphUI) (r : rerun) (s : state E)
    (b : download_button) :
  In (st_download_button b) (trace (render_langgraph_section self r) s) ->
  forallb is_ascii_text (data b) = true.
Proof.
  intros Hin.
  assert (Hout : forall (alphabet : event -> bool) (t : list event),
             Forall (fun ev => alphabet ev = true) t ->
             alphabet (st_download_button b) = false ->
             ~ In (st_download_button b) t).
  { intros alphabet t Hall Hb Hin'. rewrite Forall_forall in Hall.
    specialize (Hall _ Hin'). congruence. }
  assert (Hdump : exists h, b = history_button h).
  { destruct (current_user r) as [user|] eqn:Huser.
    2:{ unfold trace, render_langgraph_section in Hin. rewrite Huser in Hin.
        destruct Hin as [H|[]]. discriminate H. }
    destruct (openai_api_key r) eqn:Hkey.
    2:{ unfold trace, render_langgraph_section in Hin.
        rewrite Huser, Hkey in Hin. destruct Hin as [H|[]]. discriminate H. }
    destruct (render_trace_stages self r s user Huser Hkey)
      as (sf & sl & s0 & s1 & s2 & tl & tb & tr & tc & td
          & Htrace & Hl & Hb & Hr & Hc & Hd).
    rewrite Htrace in Hin.
    destruct (select_files_events self user (selected_file_names r) s0) as [Hfe _].
    destruct (select_links_events self user (selected_link_urls r) s0) as [Hle _].
    destruct (build_stage_events (build_index r) sf sl s0) as (Hbe & _).
    pose proof (replay_events (history_of s) s1) as Hre.
    destruct (chat_stage_events sf sl (chat_input r) s1) as [Hce _].
    apply in_app_or in Hin. destruct Hin as [Hin|Hin];
      [exfalso; exact (Hout _ _ Hfe eq_refl Hin)|].
    apply in_app_or in Hin. destruct Hin as [Hin|Hin];
      [destruct Hl as [-> | ->];
       [destruct Hin | exfalso; exact (Hout _ _ Hle eq_refl Hin)]|].
    apply in_app_or in Hin. destruct Hin as [Hin|Hin];
      [destruct Hb as [-> | ->];
       [destruct Hin | exfalso; exact (Hout _ _ Hbe eq_refl Hin)]|].
    apply in_app_or in Hin. destruct Hin as [Hin|Hin];
      [destruct Hr as [-> | ->];
       [destruct Hin | exfalso; exact (Hout _ _ Hre eq_refl Hin)]|].
    apply in_app_or in Hin. destruct Hin as [Hin|Hin];
      [destruct Hc as [-> | ->];
       [destruct Hin | exfalso; exact (Hout _ _ Hce eq_refl Hin)]|].
    destruct Hd as [-> | ->]; [destruct Hin|].
    exact (download_button_is_a_dump _ _ _ Hin). }
  destruct Hdump as [h ->]. cbn [data history_button].
  apply iterencode_text.
Qed.

End DumpText.

(** ** Runs of the further properties *)

Lemma upload_without_replace_never_deletes_witness :
  replace_existing Runs.batch = false
  /\ forall file_id,
       ~ In (call_delete_file file_id)
            (trace (main (Some Runs.user) Runs.batch) two_namesakes).
Proof.
  assert (H : replace_existing Runs.batch = false) by reflexivity.
  split; [exact H|].
  exact (upload_without_replace_never_deletes (Some Runs.user) Runs.batch
           two_namesakes H).
Defined.


Lemma upload_form_adds_only_uploaded_files_witness :
  In (the_add 1 (Demo.pdf "b"))
     (trace (main (Some Runs.user) Runs.batch) (Demo.session Demo.one_file None))
  /\ exists uf, In uf (uploaded_files Runs.batch)
                /\ UploadedFile.getbuffer (Demo.pdf "b") = UploadedFile.getbuffer uf
                /\ UploadedFile.name (Demo.pdf "b") = UploadedFile.name uf
                /\ UploadedFile.type (Demo.pdf "b") = UploadedFile.type uf.
Proof.
  assert (H : In (the_add 1 (Demo.pdf "b"))
                 (trace (main (Some Runs.user) Runs.batch)
                        (Demo.session Demo.one_file None))).
  { vm_compute. do 3 right. left. reflexivity. }
  split; [exact H|].
  exact (proj2 (proj2 (upload_form_adds_only_uploaded_files (Some Runs.user)
                         Runs.batch (Demo.session Demo.one_file None)
                         _ _ _ _ H))).
Defined.

Lemma upload_same_name_twice_is_skipped_witness :
  ~ collides (get_user_files (ext (Demo.session Demo.empty None)) 1) (Demo.pdf "a")
  /\ collides (get_user_files Demo.one_file 1) (Demo.pdf "a")
  /\ for_each Runs.twice (upload 1 false) (Demo.session Demo.empty None)
     = (Done tt, Demo.session Demo.one_file None,
        [call_get_user_files 1;
         the_add 1 (Demo.pdf "a");
         st_success (lit "Uploaded: a");
         call_get_user_files 1;
         st_warning (lit "File 'a' already exists. Select 'Replace existing files' option to overwrite.")]).
Proof.
  assert (H1 : ~ collides (get_user_files (ext (Demo.session Demo.empty None)) 1)
                          (Demo.pdf "a")).
  { intros (f & [] & _). }
  assert (H2 : add_file (ext (Demo.session Demo.empty None))
                 (UploadedFile.getbuffer (Demo.pdf "a"))
                 (UploadedFile.name (Demo.pdf "a"))
                 (UploadedFile.type (Demo.pdf "a")) 1
               = (Some (Demo.file 1 "a"), Demo.one_file)) by reflexivity.
  assert (H3 : collides (get_user_files Demo.one_file 1) (Demo.pdf "a")).
  { exists (Demo.file 1 "a"). split; [left; reflexivity | reflexivity]. }
  split; [exact H1|]. split; [exact H3|].
  exact (upload_same_name_twice_is_skipped 1 (Demo.pdf "a")
           (Demo.session Demo.empty None) (Demo.file 1 "a") Demo.one_file
           H1 H2 H3).
Defined.

Lemma select_files_returns_the_chosen_files_witness :
  file_service Demo.ui = true
  /\ exists sel,
       Forall2 (fun n f => last_named FileModel.name
                             (get_user_files Runs.three_files 1) n = Some f)
               [lit "a"; lit "b"] sel
       /\ result (select_files Demo.ui Runs.user [lit "a"; lit "b"])
                 (Demo.session Runs.three_files None)
          = Done sel.
Proof.
  assert (H : file_service Demo.ui = true) by reflexivity.
  assert (Hn : Forall (fun n => exists f,
                           In f (get_user_files
                                   (ext (Demo.session Runs.three_files None))
                                   (User.user_id Runs.user))
                           /\ FileModel.name f = n)
                      [lit "a"; lit "b"]).
  { constructor; [|constructor; [|constructor]].
    - exists (Demo.file 1 "a"). split; [left; reflexivity | reflexivity].
    - exists (Demo.file 2 "b"). split; [right; left; reflexivity | reflexivity]. }
  split; [exact H|].
  destruct (select_files_returns_the_chosen_files Demo.ui Runs.user
              [lit "a"; lit "b"] (Demo.session Runs.three_files None) H Hn)
    as (sel & Hsel & Hrun).
  exists sel. split; [exact Hsel|].
  unfold result. rewrite Hrun. reflexivity.
Defined.

Lemma missing_generation_raises_key_error_witness :
  get [(lit "documents", lit "none")] (lit "generation") = None
  /\ result (query_handler [] [] (lit "hello"))
            (Demo.session Runs.mute_graph (Some []))
     = Raised (KeyError (lit "generation"))
  /\ langgraph_history (final (query_handler [] [] (lit "hello"))
                              (Demo.session Runs.mute_graph (Some [])))
     = Some [].
Proof.
  assert (Hi : invoke (ext (Demo.session Runs.mute_graph (Some [])))
                 [(lit "question", lit "hello");
                  (lit "retriever_id",
                   get_retriever_id (ext (Demo.session Runs.mute_graph (Some [])))
                     [] [])]
               = (inr [(lit "documents", lit "none")], Runs.mute_graph))
    by reflexivity.
  assert (Hg : get [(lit "documents", lit "none")] (lit "generation") = None)
    by reflexivity.
  split; [exact Hg|].
  unfold result, final.
  rewrite (missing_generation_raises_key_error [] [] (lit "hello")
             (Demo.session Runs.mute_graph (Some []))
             [(lit "documents", lit "none")] Runs.mute_graph Hi Hg).
  split; reflexivity.
Defined.

Lemma download_offers_the_latest_history_witness :
  clear_history (Demo.ask "hello") = false
  /\ In (st_download_button (history_button Demo.asked_once))
        (trace (render_langgraph_section Demo.ui (Demo.ask "hello"))
               (Demo.session Demo.one_file None)).
Proof.
  assert (H : clear_history (Demo.ask "hello") = false) by reflexivity.
  split; [exact H|].
  assert (Hh : history_of (final (render_langgraph_section Demo.ui (Demo.ask "hello"))
                                 (Demo.session Demo.one_file None))
               = Demo.asked_once) by reflexivity.
  rewrite <- Hh.
  apply (proj2 (download_offers_the_latest_history Demo.ui (Demo.ask "hello")
                  (Demo.session Demo.one_file None) H)).
  - reflexivity.
  - discriminate.
  - reflexivity.
  - rewrite Hh. discriminate.
Defined.

Lemma session_history_only_grows_witness :
  Forall (fun r => clear_history r = false) [Demo.ask "hello"; Demo.idle]
  /\ exists added,
       history_of (session Demo.ui [Demo.ask "hello"; Demo.idle]
                           (Demo.session Demo.one_file (Some Demo.asked_once)))
       = Demo.asked_once ++ added
       /\ (List.length added <= 2)%nat.
Proof.
  assert (H : Forall (fun r => clear_history r = false)
                     [Demo.ask "hello"; Demo.idle]).
  { constructor; [reflexivity|]. constructor; [reflexivity|]. constructor. }
  split; [exact H|].
  destruct (session_history_only_grows Demo.ui [Demo.ask "hello"; Demo.idle]
              (Demo.session Demo.one_file (Some Demo.asked_once)) H)
    as (added & Hh & Hlen & _).
  exists added. split; [exact Hh | exact Hlen].
Defined.

Lemma session_records_have_no_events_witness :
  Forall (fun item => HistoryItem.events item = []) Demo.asked_once
  /\ Forall (fun item => HistoryItem.events item = [])
            (history_of (session Demo.ui
                           [Demo.ask "again"; Demo.press_clear; Demo.ask "hello"]
                           (Demo.session Demo.one_file (Some Demo.asked_once)))).
Proof.
  assert (H : Forall (fun item => HistoryItem.events item = [])
                     (history_of (Demo.session Demo.one_file
                                               (Some Demo.asked_once)))).
  { constructor; [reflexivity | constructor]. }
  split; [exact H|].
  exact (session_records_have_no_events Demo.ui
           [Demo.ask "again"; Demo.press_clear; Demo.ask "hello"]
           (Demo.session Demo.one_file (Some Demo.asked_once)) H).
Defined.

Lemma unauthenticated_page_is_the_login_page_witness :
  AppPage.is_authenticated (ext Site.anonymous) = false
  /\ AppPage.page_trace (AppPage.main Site.busy) Site.anonymous
     = [AppPage.st_set_page_config; AppPage.call_is_authenticated;
        AppPage.rendered AppPage.auth_ui_render_login_page].
Proof.
  assert (H : AppPage.is_authenticated (ext Site.anonymous) = false)
    by reflexivity.
  split; [exact H|].
  exact (proj1 (unauthenticated_page_is_the_login_page Site.busy Site.anonymous H)).
Defined.

Lemma page_without_openai_key_witness :
  AppPage.is_authenticated (ext Site.member) = true
  /\ AppPage.contains (AppPage.environ Site.busy) (lit "OPENAI_API_KEY") = false
  /\ forall ev,
       In (AppPage.script ev) (AppPage.page_trace (AppPage.main Site.busy) Site.member) ->
       upload_event ev = true.
Proof.
  assert (H : AppPage.is_authenticated (ext Site.member) = true) by reflexivity.
  assert (Hk : AppPage.contains (AppPage.environ Site.busy) (lit "OPENAI_API_KEY")
               = false) by reflexivity.
  split; [exact H|]. split; [exact Hk|].
  exact (proj2 (page_without_openai_key Site.busy Site.member H Hk)).
Defined.

Lemma download_data_is_ascii_witness :
  In (st_download_button (history_button Demo.split_pair))
     (trace (render_langgraph_section Demo.ui Demo.idle)
            (Demo.session Demo.one_file (Some Demo.split_pair)))
  /\ forallb is_ascii_text (data (history_button Demo.split_pair)) = true.
Proof.
  assert (H : In (st_download_button (history_button Demo.split_pair))
                 (trace (render_langgraph_section Demo.ui Demo.idle)
                        (Demo.session Demo.one_file (Some Demo.split_pair)))).
  { vm_compute. repeat (first [left; reflexivity | right]). }
  split; [exact H|].
  exact (download_data_is_ascii Demo.ui Demo.idle
           (Demo.session Demo.one_file (Some Demo.split_pair)) _ H).
Defined.
